(** * go-ircevo: the session engine, embedded and verified

    A shallow embedding of the wire parser (irc.go), the callback layer
    (irc_callback.go), the reconnection loop, the capability handshake's
    registration triggers and the DCC chat registry (irc_dcc.go), with the
    properties of the specification stated and settled over it.

    Go strings are byte strings: they are modelled by [string], whose
    characters are the 256 values of [ascii].  Go [int] indices are [Z]. *)

From Stdlib Require Import String Ascii List ZArith Lia Bool.
From stdpp Require Import gmap strings.
Import ListNotations.

Local Open Scope Z_scope.

(** ** Results of fallible Go code *)

(** A Go function returning [(T, error)] either returns a value, returns an
    error, or stops with a run-time panic (an index out of range). *)
Inductive go_result (A : Type) : Type :=
| Ok (a : A)
| Err (e : string)
| Panic (e : string).
Arguments Ok {A} a.
Arguments Err {A} e.
Arguments Panic {A} e.

Definition bind {A B : Type} (m : go_result A) (k : A -> go_result B) : go_result B :=
  match m with
  | Ok a => k a
  | Err e => Err e
  | Panic e => Panic e
  end.

Notation "'let*' x ':=' m 'in' k" := (bind m (fun x => k))
  (at level 10, x pattern, m at level 100, k at level 200).

Definition is_Ok {A : Type} (r : go_result A) : bool :=
  match r with Ok _ => true | _ => false end.

Definition is_Err {A : Type} (r : go_result A) : bool :=
  match r with Err _ => true | _ => false end.

(** ** The part of Go's [strings] package the client uses *)

Module gostrings.

Definition len (s : string) : Z := Z.of_nat (String.length s).

(** [s[lo:]] and [s[:hi]] and [s[lo:hi]], for indices within bounds. *)
Fixpoint drop (n : nat) (s : string) : string :=
  match n, s with
  | O, _ => s
  | S n', String _ s' => drop n' s'
  | S _, EmptyString => EmptyString
  end.

Fixpoint take (n : nat) (s : string) : string :=
  match n, s with
  | O, _ => EmptyString
  | S n', String c s' => String c (take n' s')
  | S _, EmptyString => EmptyString
  end.

Definition slice_from (s : string) (lo : Z) : string := drop (Z.to_nat lo) s.
Definition slice_to (s : string) (hi : Z) : string := take (Z.to_nat hi) s.
Definition slice (s : string) (lo hi : Z) : string :=
  take (Z.to_nat hi - Z.to_nat lo) (drop (Z.to_nat lo) s).

(** [s[i]] as an optional byte: [None] is the out-of-range panic. *)
Definition byte_at (s : string) (i : nat) : option ascii := String.get i s.

Fixpoint HasPrefix (s prefix : string) {struct prefix} : bool :=
  match prefix, s with
  | EmptyString, _ => true
  | String p prefix', String c s' => Ascii.eqb c p && HasPrefix s' prefix'
  | String _ _, EmptyString => false
  end.

(** [strings.Index]: the index of the first instance of [sep], or -1. *)
Fixpoint Index (s sep : string) : Z :=
  if HasPrefix s sep then 0
  else match s with
       | EmptyString => -1
       | String _ s' => let r := Index s' sep in if r <? 0 then -1 else r + 1
       end.

(** [strings.LastIndex]: the index of the last instance of [sep], or -1. *)
Fixpoint LastIndex (s sep : string) : Z :=
  match s with
  | EmptyString => if HasPrefix s sep then 0 else -1
  | String _ s' =>
      let r := LastIndex s' sep in
      if 0 <=? r then r + 1 else if HasPrefix s sep then 0 else -1
  end.

(** [strings.Contains] is [Index(s, substr) >= 0]. *)
Definition Contains (s substr : string) : bool := 0 <=? Index s substr.

Definition HasSuffix (s suffix : string) : bool :=
  (String.length suffix <=? String.length s)%nat
  && String.eqb (drop (String.length s - String.length suffix) s) suffix.

Definition TrimSuffix (s suffix : string) : string :=
  if HasSuffix s suffix then take (String.length s - String.length suffix) s else s.

(** [strings.SplitN(s, sep, n)] for [n > 0] and a non-empty [sep]: at most
    [n] pieces, the last one being the unsplit remainder. *)
Fixpoint SplitN (s sep : string) (n : nat) : list string :=
  match n with
  | O => []
  | S O => [s]
  | S n' =>
      let i := Index s sep in
      if i <? 0 then [s]
      else slice_to s i :: SplitN (slice_from s (i + len sep)) sep n'
  end.

(** [strings.Split(s, sep)] for a non-empty [sep]: all the pieces.  A string
    of length [k] has at most [k] separators, hence at most [k + 1] pieces. *)
Definition Split (s sep : string) : list string :=
  SplitN s sep (S (String.length s)).

(** [strings.Replace(s, old, new, -1)] for a non-empty [old]: every
    non-overlapping instance of [old], scanning from the left, is replaced.
    [skip] counts the bytes of a matched instance still to be passed over. *)
Fixpoint Replace_from (skip : nat) (s old new : string) : string :=
  match s with
  | EmptyString => EmptyString
  | String c s' =>
      match skip with
      | S k => Replace_from k s' old new
      | O =>
          if HasPrefix s old
          then String.append new (Replace_from (String.length old - 1) s' old new)
          else String c (Replace_from O s' old new)
      end
  end.

Definition Replace (s old new : string) : string := Replace_from O s old new.

(** The byte-wise case mappings [strings.ToUpper] and [strings.ToLower]
    apply to a string of ASCII bytes. *)
Definition upper_byte (c : ascii) : ascii :=
  let n := nat_of_ascii c in
  if ((97 <=? n) && (n <=? 122))%nat then ascii_of_nat (n - 32) else c.

Definition lower_byte (c : ascii) : ascii :=
  let n := nat_of_ascii c in
  if ((65 <=? n) && (n <=? 90))%nat then ascii_of_nat (n + 32) else c.

Fixpoint map_bytes (f : ascii -> ascii) (s : string) : string :=
  match s with
  | EmptyString => EmptyString
  | String c s' => String (f c) (map_bytes f s')
  end.

Definition ToUpperASCII : string -> string := map_bytes upper_byte.
Definition ToLowerASCII : string -> string := map_bytes lower_byte.

End gostrings.

(** Control bytes that cannot be written inside a literal. *)
Definition LF : string := String "010"%char EmptyString.
Definition CR : string := String "013"%char EmptyString.
Definition SOH : string := String "001"%char EmptyString.

(** ** Events (irc_struct.go) *)

Record Event : Type := mkEvent {
  Code : string;
  Raw : string;
  Nick : string;       (* <nick> *)
  Host : string;       (* <nick>!<usr>@<host> *)
  Source : string;     (* <host> *)
  User : string;       (* <usr> *)
  Arguments : list string;
  Tags : gmap string string   (* the nil map is the empty map *)
}.

(** [Message] is the last argument, or the empty string if there is none. *)
Definition Message (e : Event) : string := List.last (Arguments e) "".

(** ** The wire parser (irc.go) *)

(** Unescape tag values as defined in the IRCv3.2 message tags spec: five
    successive [strings.Replace] passes over the whole value. *)
Definition unescapeTagValue (value : string) : string :=
  let value := gostrings.Replace value "\:" ";" in
  let value := gostrings.Replace value "\s" " " in
  let value := gostrings.Replace value "\\" "\" in
  let value := gostrings.Replace value "\r" CR in
  let value := gostrings.Replace value "\n" LF in
  value.

(** The loop over the [;]-separated tags: [key] alone maps to the empty
    string, [key=value] to the unescaped value; a later tag overwrites an
    earlier one with the same key. *)
Definition parseTags (segment : string) : gmap string string :=
  fold_left
    (fun (tags : gmap string string) (data : string) =>
       match gostrings.SplitN data "=" 2 with
       | [key] => <[key := ""]> tags
       | key :: value :: _ => <[key := unescapeTagValue value]> tags
       | [] => tags
       end)
    (gostrings.Split segment ";") ∅.

Definition malformed : string := "malformed msg from server".
Definition index_out_of_range : string := "runtime error: index out of range".

(** [msg[0]], which panics on the empty string. *)
Definition first_byte (msg : string) : go_result ascii :=
  match gostrings.byte_at msg 0 with
  | Some c => Ok c
  | None => Panic index_out_of_range
  end.

(** The line with its trailing LF, then its trailing CR, removed. *)
Definition trimLine (msg : string) : string :=
  gostrings.TrimSuffix (gostrings.TrimSuffix msg LF) CR.

Section Parser.

(** [strings.ToUpper], of which nothing is assumed. *)
Variable ToUpper : string -> string.

(** The IRCv3 tag segment: [@tags ] is split off the front of the line. *)
Definition parseTagSegment (msg : string) : go_result (gmap string string * string) :=
  let* c := first_byte msg in
  if Ascii.eqb c "@"%char then
    let i := gostrings.Index msg " " in
    if -1 <? i then
      Ok (parseTags (gostrings.slice msg 1 i), gostrings.slice_from msg (i + 1))
    else Err malformed
  else Ok (∅, msg).

(** The source segment: [:source ] is split off, and decomposed into
    nick, user and host when it has a [!] before an [@]. *)
Definition parseSource (msg : string)
  : go_result (string * (string * string * string) * string) :=
  let* c := first_byte msg in
  if Ascii.eqb c ":"%char then
    let i := gostrings.Index msg " " in
    if -1 <? i then
      let source := gostrings.slice msg 1 i in
      let msg := gostrings.slice_from msg (i + 1) in
      let i := gostrings.Index source "!" in
      let j := gostrings.Index source "@" in
      if (-1 <? i) && (-1 <? j) && (i <? j) then
        Ok (source,
            (gostrings.slice source 0 i,
             gostrings.slice source (i + 1) j,
             gostrings.slice_from source (j + 1)),
            msg)
      else Ok (source, ("", "", ""), msg)
    else Err malformed
  else Ok ("", ("", "", ""), msg).

Definition parseToEvent (msg : string) : go_result Event :=
  let msg := gostrings.TrimSuffix msg LF in
  let msg := gostrings.TrimSuffix msg CR in
  let raw := msg in
  if gostrings.len msg <? 1 then Err malformed
  else
    let* (tags, msg) := parseTagSegment msg in
    let* (source, (nick, user, host), msg) := parseSource msg in
    let split := gostrings.SplitN msg " :" 2 in
    let args := gostrings.Split (List.hd "" split) " " in
    let arguments := List.tl args in
    let arguments :=
      match split with
      | _ :: trailing :: _ => arguments ++ [trailing]
      | _ => arguments
      end in
    Ok {| Code := ToUpper (List.hd "" args); Raw := raw;
          Nick := nick; Host := host; Source := source; User := user;
          Arguments := arguments; Tags := tags |}.

End Parser.

(** *** Which lines the parser rejects *)

Definition starts_with (c : ascii) (s : string) : bool :=
  match s with
  | String c' _ => Ascii.eqb c' c
  | EmptyString => false
  end.

(** What is left of a trimmed line once its tag segment is removed. *)
Definition afterTags (t : string) : string :=
  if starts_with "@" t && (-1 <? gostrings.Index t " ")
  then gostrings.slice_from t (gostrings.Index t " " + 1)
  else t.

(** The three guarded rejections: the empty line, a tag segment that no space
    ends, and a source that no space ends. *)
Definition rejected (t : string) : bool :=
  String.eqb t ""
  || (starts_with "@" t && negb (-1 <? gostrings.Index t " "))
  || (starts_with ":" (afterTags t) && negb (-1 <? gostrings.Index (afterTags t) " ")).

(** A tag segment with nothing behind it: the source test reads [msg[0]] of
    the empty remainder. *)
Definition tagsOnly (t : string) : bool :=
  starts_with "@" t && (-1 <? gostrings.Index t " ") && String.eqb (afterTags t) "".


(** ** The connection (irc_struct.go) *)

(** A [time.Time] in nanoseconds; [0] is the zero time.  The calls to
    [time.Now()] made by one handler are taken at one instant [now]. *)
Definition Time : Type := Z.
Definition Second : Z := 1000000000.

(** Go's [int] is 64 bits wide: [x++] wraps around. *)
Definition wrap_int (x : Z) : Z := (x + 2 ^ 63) mod 2 ^ 64 - 2 ^ 63.
Definition incr (x : Z) : Z := wrap_int (x + 1).

(** The fields of [Connection] that the modelled functions read or write. *)
Record Connection : Type := mkConnection {
  UseSASL : bool;
  RequestCaps : list string;
  RealName : string;   (* the real name to display; defaults to the user *)
  pwrite : list string;   (* the outbound queue: the lines sent on the channel, oldest first *)
  nick : string;   (* the nickname we want *)
  nickcurrent : string;   (* the nickname we currently have *)
  nickPending : string;   (* the nickname pending confirmation from the server *)
  user : string;
  quit : bool;   (* the user called Quit: do not reconnect *)
  fullyConnected : bool;
  lastNickChange : Time;
  nickError : string;
  registrationSteps : Z;
  registrationStartTime : Time;
  nickChangeInProgress : bool;
  nickChangeTimeout : Time;
  CapVersion : string;
  sentRegistration : bool;   (* have we sent NICK/USER yet *)
  HandleErrorAsDisconnect : bool;
  SmartErrorHandling : bool;
  MaxRecoverableReconnects : Z;
  recoverableReconnects : Z
}.

(** Assignment to a single field. *)
Definition set_UseSASL (v : bool) (c : Connection) : Connection :=
  {| UseSASL := v; RequestCaps := RequestCaps c; RealName := RealName c; pwrite := pwrite c;
     nick := nick c; nickcurrent := nickcurrent c; nickPending := nickPending c; user := user c;
     quit := quit c; fullyConnected := fullyConnected c; lastNickChange := lastNickChange c;
     nickError := nickError c; registrationSteps := registrationSteps c;
     registrationStartTime := registrationStartTime c;
     nickChangeInProgress := nickChangeInProgress c; nickChangeTimeout := nickChangeTimeout c;
     CapVersion := CapVersion c; sentRegistration := sentRegistration c;
     HandleErrorAsDisconnect := HandleErrorAsDisconnect c;
     SmartErrorHandling := SmartErrorHandling c;
     MaxRecoverableReconnects := MaxRecoverableReconnects c;
     recoverableReconnects := recoverableReconnects c |}.

Definition set_RequestCaps (v : list string) (c : Connection) : Connection :=
  {| UseSASL := UseSASL c; RequestCaps := v; RealName := RealName c; pwrite := pwrite c;
     nick := nick c; nickcurrent := nickcurrent c; nickPending := nickPending c; user := user c;
     quit := quit c; fullyConnected := fullyConnected c; lastNickChange := lastNickChange c;
     nickError := nickError c; registrationSteps := registrationSteps c;
     registrationStartTime := registrationStartTime c;
     nickChangeInProgress := nickChangeInProgress c; nickChangeTimeout := nickChangeTimeout c;
     CapVersion := CapVersion c; sentRegistration := sentRegistration c;
     HandleErrorAsDisconnect := HandleErrorAsDisconnect c;
     SmartErrorHandling := SmartErrorHandling c;
     MaxRecoverableReconnects := MaxRecoverableReconnects c;
     recoverableReconnects := recoverableReconnects c |}.

Definition set_pwrite (v : list string) (c : Connection) : Connection :=
  {| UseSASL := UseSASL c; RequestCaps := RequestCaps c; RealName := RealName c; pwrite := v;
     nick := nick c; nickcurrent := nickcurrent c; nickPending := nickPending c; user := user c;
     quit := quit c; fullyConnected := fullyConnected c; lastNickChange := lastNickChange c;
     nickError := nickError c; registrationSteps := registrationSteps c;
     registrationStartTime := registrationStartTime c;
     nickChangeInProgress := nickChangeInProgress c; nickChangeTimeout := nickChangeTimeout c;
     CapVersion := CapVersion c; sentRegistration := sentRegistration c;
     HandleErrorAsDisconnect := HandleErrorAsDisconnect c;
     SmartErrorHandling := SmartErrorHandling c;
     MaxRecoverableReconnects := MaxRecoverableReconnects c;
     recoverableReconnects := recoverableReconnects c |}.

Definition set_nick (v : string) (c : Connection) : Connection :=
  {| UseSASL := UseSASL c; RequestCaps := RequestCaps c; RealName := RealName c;
     pwrite := pwrite c; nick := v; nickcurrent := nickcurrent c; nickPending := nickPending c;
     user := user c; quit := quit c; fullyConnected := fullyConnected c;
     lastNickChange := lastNickChange c; nickError := nickError c;
     registrationSteps := registrationSteps c; registrationStartTime := registrationStartTime c;
     nickChangeInProgress := nickChangeInProgress c; nickChangeTimeout := nickChangeTimeout c;
     CapVersion := CapVersion c; sentRegistration := sentRegistration c;
     HandleErrorAsDisconnect := HandleErrorAsDisconnect c;
     SmartErrorHandling := SmartErrorHandling c;
     MaxRecoverableReconnects := MaxRecoverableReconnects c;
     recoverableReconnects := recoverableReconnects c |}.

Definition set_nickcurrent (v : string) (c : Connection) : Connection :=
  {| UseSASL := UseSASL c; RequestCaps := RequestCaps c; RealName := RealName c;
     pwrite := pwrite c; nick := nick c; nickcurrent := v; nickPending := nickPending c;
     user := user c; quit := quit c; fullyConnected := fullyConnected c;
     lastNickChange := lastNickChange c; nickError := nickError c;
     registrationSteps := registrationSteps c; registrationStartTime := registrationStartTime c;
     nickChangeInProgress := nickChangeInProgress c; nickChangeTimeout := nickChangeTimeout c;
     CapVersion := CapVersion c; sentRegistration := sentRegistration c;
     HandleErrorAsDisconnect := HandleErrorAsDisconnect c;
     SmartErrorHandling := SmartErrorHandling c;
     MaxRecoverableReconnects := MaxRecoverableReconnects c;
     recoverableReconnects := recoverableReconnects c |}.

Definition set_nickPending (v : string) (c : Connection) : Connection :=
  {| UseSASL := UseSASL c; RequestCaps := RequestCaps c; RealName := RealName c;
     pwrite := pwrite c; nick := nick c; nickcurrent := nickcurrent c; nickPending := v;
     user := user c; quit := quit c; fullyConnected := fullyConnected c;
     lastNickChange := lastNickChange c; nickError := nickError c;
     registrationSteps := registrationSteps c; registrationStartTime := registrationStartTime c;
     nickChangeInProgress := nickChangeInProgress c; nickChangeTimeout := nickChangeTimeout c;
     CapVersion := CapVersion c; sentRegistration := sentRegistration c;
     HandleErrorAsDisconnect := HandleErrorAsDisconnect c;
     SmartErrorHandling := SmartErrorHandling c;
     MaxRecoverableReconnects := MaxRecoverableReconnects c;
     recoverableReconnects := recoverableReconnects c |}.

Definition set_fullyConnected (v : bool) (c : Connection) : Connection :=
  {| UseSASL := UseSASL c; RequestCaps := RequestCaps c; RealName := RealName c;
     pwrite := pwrite c; nick := nick c; nickcurrent := nickcurrent c;
     nickPending := nickPending c; user := user c; quit := quit c; fullyConnected := v;
     lastNickChange := lastNickChange c; nickError := nickError c;
     registrationSteps := registrationSteps c; registrationStartTime := registrationStartTime c;
     nickChangeInProgress := nickChangeInProgress c; nickChangeTimeout := nickChangeTimeout c;
     CapVersion := CapVersion c; sentRegistration := sentRegistration c;
     HandleErrorAsDisconnect := HandleErrorAsDisconnect c;
     SmartErrorHandling := SmartErrorHandling c;
     MaxRecoverableReconnects := MaxRecoverableReconnects c;
     recoverableReconnects := recoverableReconnects c |}.

Definition set_lastNickChange (v : Time) (c : Connection) : Connection :=
  {| UseSASL := UseSASL c; RequestCaps := RequestCaps c; RealName := RealName c;
     pwrite := pwrite c; nick := nick c; nickcurrent := nickcurrent c;
     nickPending := nickPending c; user := user c; quit := quit c;
     fullyConnected := fullyConnected c; lastNickChange := v; nickError := nickError c;
     registrationSteps := registrationSteps c; registrationStartTime := registrationStartTime c;
     nickChangeInProgress := nickChangeInProgress c; nickChangeTimeout := nickChangeTimeout c;
     CapVersion := CapVersion c; sentRegistration := sentRegistration c;
     HandleErrorAsDisconnect := HandleErrorAsDisconnect c;
     SmartErrorHandling := SmartErrorHandling c;
     MaxRecoverableReconnects := MaxRecoverableReconnects c;
     recoverableReconnects := recoverableReconnects c |}.

Definition set_nickError (v : string) (c : Connection) : Connection :=
  {| UseSASL := UseSASL c; RequestCaps := RequestCaps c; RealName := RealName c;
     pwrite := pwrite c; nick := nick c; nickcurrent := nickcurrent c;
     nickPending := nickPending c; user := user c; quit := quit c;
     fullyConnected := fullyConnected c; lastNickChange := lastNickChange c; nickError := v;
     registrationSteps := registrationSteps c; registrationStartTime := registrationStartTime c;
     nickChangeInProgress := nickChangeInProgress c; nickChangeTimeout := nickChangeTimeout c;
     CapVersion := CapVersion c; sentRegistration := sentRegistration c;
     HandleErrorAsDisconnect := HandleErrorAsDisconnect c;
     SmartErrorHandling := SmartErrorHandling c;
     MaxRecoverableReconnects := MaxRecoverableReconnects c;
     recoverableReconnects := recoverableReconnects c |}.

Definition set_registrationSteps (v : Z) (c : Connection) : Connection :=
  {| UseSASL := UseSASL c; RequestCaps := RequestCaps c; RealName := RealName c;
     pwrite := pwrite c; nick := nick c; nickcurrent := nickcurrent c;
     nickPending := nickPending c; user := user c; quit := quit c;
     fullyConnected := fullyConnected c; lastNickChange := lastNickChange c;
     nickError := nickError c; registrationSteps := v;
     registrationStartTime := registrationStartTime c;
     nickChangeInProgress := nickChangeInProgress c; nickChangeTimeout := nickChangeTimeout c;
     CapVersion := CapVersion c; sentRegistration := sentRegistration c;
     HandleErrorAsDisconnect := HandleErrorAsDisconnect c;
     SmartErrorHandling := SmartErrorHandling c;
     MaxRecoverableReconnects := MaxRecoverableReconnects c;
     recoverableReconnects := recoverableReconnects c |}.

Definition set_registrationStartTime (v : Time) (c : Connection) : Connection :=
  {| UseSASL := UseSASL c; RequestCaps := RequestCaps c; RealName := RealName c;
     pwrite := pwrite c; nick := nick c; nickcurrent := nickcurrent c;
     nickPending := nickPending c; user := user c; quit := quit c;
     fullyConnected := fullyConnected c; lastNickChange := lastNickChange c;
     nickError := nickError c; registrationSteps := registrationSteps c;
     registrationStartTime := v; nickChangeInProgress := nickChangeInProgress c;
     nickChangeTimeout := nickChangeTimeout c; CapVersion := CapVersion c;
     sentRegistration := sentRegistration c; HandleErrorAsDisconnect := HandleErrorAsDisconnect c;
     SmartErrorHandling := SmartErrorHandling c;
     MaxRecoverableReconnects := MaxRecoverableReconnects c;
     recoverableReconnects := recoverableReconnects c |}.

Definition set_nickChangeInProgress (v : bool) (c : Connection) : Connection :=
  {| UseSASL := UseSASL c; RequestCaps := RequestCaps c; RealName := RealName c;
     pwrite := pwrite c; nick := nick c; nickcurrent := nickcurrent c;
     nickPending := nickPending c; user := user c; quit := quit c;
     fullyConnected := fullyConnected c; lastNickChange := lastNickChange c;
     nickError := nickError c; registrationSteps := registrationSteps c;
     registrationStartTime := registrationStartTime c; nickChangeInProgress := v;
     nickChangeTimeout := nickChangeTimeout c; CapVersion := CapVersion c;
     sentRegistration := sentRegistration c; HandleErrorAsDisconnect := HandleErrorAsDisconnect c;
     SmartErrorHandling := SmartErrorHandling c;
     MaxRecoverableReconnects := MaxRecoverableReconnects c;
     recoverableReconnects := recoverableReconnects c |}.

Definition set_nickChangeTimeout (v : Time) (c : Connection) : Connection :=
  {| UseSASL := UseSASL c; RequestCaps := RequestCaps c; RealName := RealName c;
     pwrite := pwrite c; nick := nick c; nickcurrent := nickcurrent c;
     nickPending := nickPending c; user := user c; quit := quit c;
     fullyConnected := fullyConnected c; lastNickChange := lastNickChange c;
     nickError := nickError c; registrationSteps := registrationSteps c;
     registrationStartTime := registrationStartTime c;
     nickChangeInProgress := nickChangeInProgress c; nickChangeTimeout := v;
     CapVersion := CapVersion c; sentRegistration := sentRegistration c;
     HandleErrorAsDisconnect := HandleErrorAsDisconnect c;
     SmartErrorHandling := SmartErrorHandling c;
     MaxRecoverableReconnects := MaxRecoverableReconnects c;
     recoverableReconnects := recoverableReconnects c |}.

Definition set_sentRegistration (v : bool) (c : Connection) : Connection :=
  {| UseSASL := UseSASL c; RequestCaps := RequestCaps c; RealName := RealName c;
     pwrite := pwrite c; nick := nick c; nickcurrent := nickcurrent c;
     nickPending := nickPending c; user := user c; quit := quit c;
     fullyConnected := fullyConnected c; lastNickChange := lastNickChange c;
     nickError := nickError c; registrationSteps := registrationSteps c;
     registrationStartTime := registrationStartTime c;
     nickChangeInProgress := nickChangeInProgress c; nickChangeTimeout := nickChangeTimeout c;
     CapVersion := CapVersion c; sentRegistration := v;
     HandleErrorAsDisconnect := HandleErrorAsDisconnect c;
     SmartErrorHandling := SmartErrorHandling c;
     MaxRecoverableReconnects := MaxRecoverableReconnects c;
     recoverableReconnects := recoverableReconnects c |}.

Definition set_MaxRecoverableReconnects (v : Z) (c : Connection) : Connection :=
  {| UseSASL := UseSASL c; RequestCaps := RequestCaps c; RealName := RealName c;
     pwrite := pwrite c; nick := nick c; nickcurrent := nickcurrent c;
     nickPending := nickPending c; user := user c; quit := quit c;
     fullyConnected := fullyConnected c; lastNickChange := lastNickChange c;
     nickError := nickError c; registrationSteps := registrationSteps c;
     registrationStartTime := registrationStartTime c;
     nickChangeInProgress := nickChangeInProgress c; nickChangeTimeout := nickChangeTimeout c;
     CapVersion := CapVersion c; sentRegistration := sentRegistration c;
     HandleErrorAsDisconnect := HandleErrorAsDisconnect c;
     SmartErrorHandling := SmartErrorHandling c; MaxRecoverableReconnects := v;
     recoverableReconnects := recoverableReconnects c |}.

Definition set_recoverableReconnects (v : Z) (c : Connection) : Connection :=
  {| UseSASL := UseSASL c; RequestCaps := RequestCaps c; RealName := RealName c;
     pwrite := pwrite c; nick := nick c; nickcurrent := nickcurrent c;
     nickPending := nickPending c; user := user c; quit := quit c;
     fullyConnected := fullyConnected c; lastNickChange := lastNickChange c;
     nickError := nickError c; registrationSteps := registrationSteps c;
     registrationStartTime := registrationStartTime c;
     nickChangeInProgress := nickChangeInProgress c; nickChangeTimeout := nickChangeTimeout c;
     CapVersion := CapVersion c; sentRegistration := sentRegistration c;
     HandleErrorAsDisconnect := HandleErrorAsDisconnect c;
     SmartErrorHandling := SmartErrorHandling c;
     MaxRecoverableReconnects := MaxRecoverableReconnects c; recoverableReconnects := v |}.

(** [IRC(nick, user)]: the connection as constructed at time [now]; [None] is
    the nil returned for an empty nick or user. *)
Definition IRC (now : Time) (nick user : string) : option Connection :=
  if String.eqb nick "" then None
  else if String.eqb user "" then None
  else Some {| UseSASL := false; RequestCaps := []; RealName := ""; pwrite := [];
               nick := nick; nickcurrent := nick; nickPending := ""; user := user;
               quit := false; fullyConnected := false; lastNickChange := now;
               nickError := ""; registrationSteps := 0; registrationStartTime := 0;
               nickChangeInProgress := false; nickChangeTimeout := 0;
               CapVersion := "302"; sentRegistration := false;
               HandleErrorAsDisconnect := true; SmartErrorHandling := true;
               MaxRecoverableReconnects := 3; recoverableReconnects := 0 |}.

(** [SendRaw]: the message and its line terminator go on the outbound queue. *)
Definition SendRaw (message : string) (c : Connection) : Connection :=
  set_pwrite (pwrite c ++ [message +:+ CR +:+ LF]) c.

(** ** The callbacks that track the nickname (irc_callback.go) *)

(** [modifyNick] modifies the current nickname to try a different one. *)
Definition modifyNick (c : Connection) : Connection :=
  if 8 <? gostrings.len (nickcurrent c)
  then set_nickcurrent ("_" +:+ nickcurrent c) c
  else set_nickcurrent (nickcurrent c +:+ "_") c.

(** [if irc.nickcurrent == "" { irc.nickcurrent = irc.nick }] *)
Definition seedCurrent (c : Connection) : Connection :=
  if String.eqb (nickcurrent c) "" then set_nickcurrent (nick c) c else c.

(** The body shared, word for word, by the 433, 436 and 437 callbacks once
    the error text is recorded. *)
Definition retryModified (now : Time) (e : Event) (c : Connection) : Connection :=
  if 1 <? Z.of_nat (length (Arguments e)) then
    let attemptedNick := nth 1 (Arguments e) "" in
    if String.eqb attemptedNick (nick c) then
      let c := seedCurrent c in
      let c := modifyNick c in
      let c := set_lastNickChange now c in
      SendRaw ("NICK " +:+ nickcurrent c) c
    else c
  else c.

(** Nickname in use (433). *)
Definition on433 (now : Time) (e : Event) (c : Connection) : Connection :=
  let c := set_nickError "Nickname already in use" c in
  retryModified now e c.

(** Unavailable resource (437). *)
Definition on437 (now : Time) (e : Event) (c : Connection) : Connection :=
  let c := set_nickError "Nickname temporarily unavailable" c in
  retryModified now e c.

(** Nickname collision (436). *)
Definition on436 (now : Time) (e : Event) (c : Connection) : Connection :=
  let c := set_nickError "Nickname collision" c in
  retryModified now e c.

(** No nickname given (431). *)
Definition on431 (now : Time) (e : Event) (c : Connection) : Connection :=
  let c := set_nickError "No nickname given" c in
  let c := seedCurrent c in
  if negb (String.eqb (nick c) "") then
    let c := set_lastNickChange now c in
    SendRaw ("NICK " +:+ nick c) c
  else c.

(** Erroneous nickname (432). *)
Definition on432 (now : Time) (e : Event) (c : Connection) : Connection :=
  let c := set_nickError "Erroneous nickname" c in
  if 1 <? Z.of_nat (length (Arguments e)) then
    let attemptedNick := nth 1 (Arguments e) "" in
    if String.eqb attemptedNick (nick c) || String.eqb attemptedNick (nickcurrent c) then
      let c := seedCurrent c in
      let c := set_nickcurrent ("Err" +:+ nickcurrent c) c in
      let c := set_lastNickChange now c in
      SendRaw ("NICK " +:+ nickcurrent c) c
    else c
  else c.

(** Restricted nickname (484): the error is recorded and nothing is retried. *)
Definition on484 (now : Time) (e : Event) (c : Connection) : Connection :=
  set_nickError "Restricted nickname" c.

(** A NICK message: [:OLD_NICK!user@host NICK NEW_NICK]. *)
Definition onNICK (now : Time) (e : Event) (c : Connection) : Connection :=
  if String.eqb (Nick e) (nickcurrent c) then
    let newNick := Message e in
    if negb (String.eqb newNick "") then
      let c := set_nickcurrent newNick c in
      let c := set_nickChangeInProgress false c in
      let c := set_nick newNick c in
      let c := set_lastNickChange now c in
      set_nickError "" c
    else c
  else c.

(** The NICK callback of the sibling version of the callback file (the one
    kept in irc_struct.go): the desired nickname follows only if it matched
    the old one. *)
Definition onNICK_sibling (now : Time) (e : Event) (c : Connection) : Connection :=
  if String.eqb (Nick e) (nickcurrent c) then
    let newNick := Message e in
    if negb (String.eqb newNick "") then
      let c0 := c in
      let c := set_nickcurrent newNick c in
      let c := if String.eqb (nick c0) (Nick e) then set_nick newNick c else c in
      let c := set_lastNickChange now c in
      set_nickError "" c
    else c
  else c.

(** The welcome message (001); [e.Arguments[0]] panics without arguments. *)
Definition on001 (now : Time) (e : Event) (c : Connection) : go_result Connection :=
  match Arguments e with
  | [] => Panic index_out_of_range
  | a0 :: _ =>
      let c := set_nickcurrent a0 c in
      let c := set_nick a0 c in
      let c := set_fullyConnected true c in
      let c := set_lastNickChange now c in
      let c := set_nickError "" c in
      let c := set_registrationSteps 1 c in
      Ok (set_registrationStartTime now c)
  end.

(** [Nick(n)]: set (new) nickname (irc.go).  The method is renamed, [Nick]
    being the field of [Event]. *)
Definition Nick_request (now : Time) (n : string) (c : Connection) : Connection :=
  if nickChangeInProgress c && (now - nickChangeTimeout c <? 30 * Second) then
    let c := set_nick n c in
    let c := set_nickPending n c in
    set_lastNickChange now c
  else
    let c := set_nick n c in
    let c := set_lastNickChange now c in
    if negb (String.eqb (nickcurrent c) n) then
      let c := set_nickChangeInProgress true c in
      let c := set_nickChangeTimeout now c in
      let c := set_nickPending n c in
      SendRaw ("NICK " +:+ n) c
    else
      let c := set_nickPending "" c in
      set_nickChangeInProgress false c.

(** [GetNick] returns the current nickname. *)
Definition GetNick (c : Connection) : string := nickcurrent c.

(** *** The session as a transition system *)

(** What reaches the nickname state: a parsed line, dispatched on its code to
    the callback registered for it, or a call of [Nick] by the application.
    Of the built-in callbacks, those for the rejection replies, for NICK and
    for 001 write nickname fields; those for 002 to 005, 020, 376 and 422
    only count registration steps, and are the identity here.  The callbacks
    for JOIN, PART and PRIVMSG call [ValidateOwnNick], which the sources at
    hand do not contain: lines with these codes are outside this model. *)
Inductive Input : Type :=
| Received (e : Event)
| CallNick (n : string).

Definition dispatch (now : Time) (e : Event) (c : Connection) : go_result Connection :=
  if String.eqb (Code e) "433" then Ok (on433 now e c)
  else if String.eqb (Code e) "437" then Ok (on437 now e c)
  else if String.eqb (Code e) "431" then Ok (on431 now e c)
  else if String.eqb (Code e) "432" then Ok (on432 now e c)
  else if String.eqb (Code e) "436" then Ok (on436 now e c)
  else if String.eqb (Code e) "484" then Ok (on484 now e c)
  else if String.eqb (Code e) "NICK" then Ok (onNICK now e c)
  else if String.eqb (Code e) "001" then on001 now e c
  else Ok c.

Definition step (now : Time) (i : Input) (c : Connection) : go_result Connection :=
  match i with
  | Received e => dispatch now e c
  | CallNick n => Ok (Nick_request now n c)
  end.

(** The states a session reaches from its construction. *)
Inductive reachable : Connection -> Prop :=
| reachable_IRC (now : Time) (nick user : string) (c : Connection) :
    IRC now nick user = Some c -> reachable c
| reachable_step (now : Time) (i : Input) (c c' : Connection) :
    reachable c -> step now i c = Ok c' -> reachable c'.

(** A run over a list of timed inputs. *)
Fixpoint run (inputs : list (Time * Input)) (c : Connection) : go_result Connection :=
  match inputs with
  | [] => Ok c
  | (now, i) :: rest => let* c' := step now i c in run rest c'
  end.

(** The rejection replies that make the client try another nickname. *)
Definition rejectionCodes : list string := ["431"; "432"; "433"; "436"; "437"].

(** ** Failure classification (irc.go) *)

Inductive ErrorType : Type :=
| RecoverableError    (* temporary issues that should allow reconnection *)
| PermanentError      (* permanent bans/blocks that should prevent reconnection *)
| ServerError         (* server-side issues *)
| NetworkError.       (* network connectivity issues *)

Definition ErrorType_String (e : ErrorType) : string :=
  match e with
  | RecoverableError => "RecoverableError"
  | PermanentError => "PermanentError"
  | ServerError => "ServerError"
  | NetworkError => "NetworkError"
  end.

Definition permanentPatterns : list string :=
  [ "k-lined"; "k-line"; "klined";
    "g-lined"; "g-line"; "glined";
    "banned"; "you are banned"; "user is banned";
    "unauthorized connection";
    "connection refused";
    "access denied";
    "you are not authorized";
    "blacklisted";
    "throttled"; "throttling";
    "flood"; "flooding";
    "spam"; "spamming" ].

Definition serverPatterns : list string :=
  [ "too many connections";
    "too many host connections";
    "too many host connections (local)";
    "too many host connections (global)";
    "too many global connections";
    "connection limit exceeded";
    "server full";
    "max connections reached";
    "too many connections from this ip";
    "too many connections from your host";
    "connection limit";
    "host limit";
    "ip limit";
    "clone limit";
    "too many clones" ].

Definition networkPatterns : list string :=
  [ "connection reset";
    "connection timed out";
    "network unreachable";
    "no route to host";
    "connection lost";
    "broken pipe" ].

Definition recoverablePatterns : list string :=
  [ "registration timeout";
    "ping timeout";
    "server shutting down";
    "server restart" ].

(** [for _, pattern := range patterns { if strings.Contains(errorLower,
    pattern) { return ... } }]: whether the loop returns. *)
Fixpoint anyContains (errorLower : string) (patterns : list string) : bool :=
  match patterns with
  | [] => false
  | pattern :: rest =>
      if gostrings.Contains errorLower pattern then true else anyContains errorLower rest
  end.

Section Classifier.

(** [strings.ToLower] and [strings.ToUpper], of which nothing is assumed. *)
Variable ToLower : string -> string.
Variable ToUpper : string -> string.

Definition AnalyzeErrorMessage (errorMsg : string) : ErrorType :=
  let errorLower := ToLower errorMsg in
  if anyContains errorLower permanentPatterns then PermanentError
  else if anyContains errorLower serverPatterns then ServerError
  else if anyContains errorLower networkPatterns then NetworkError
  else if anyContains errorLower recoverablePatterns then RecoverableError
  else RecoverableError.

(** What the reader does with a parsed event: it runs the callbacks and reads
    on, or it posts an error on the error channel (after running the
    callbacks or not) and exits. *)
Inductive ReadAction : Type :=
| RunAndContinue
| PostError (ranCallbacks : bool) (err : string).

Definition readLoop_event (c : Connection) (event : Event) : ReadAction :=
  if HandleErrorAsDisconnect c && String.eqb (ToUpper (Code event)) "ERROR" then
    let errorMsg := Message event in
    if SmartErrorHandling c then
      let errorType := AnalyzeErrorMessage errorMsg in
      match errorType with
      | PermanentError =>
          PostError false ("Received permanent ERROR from server: " +:+ errorMsg)
      | RecoverableError =>
          PostError true ("Received RecoverableError from server: " +:+ errorMsg)
      | _ =>
          PostError true ("Received " +:+ ErrorType_String errorType +:+ " from server: " +:+ errorMsg)
      end
    else PostError false ("Received ERROR from server: " +:+ errorMsg)
  else RunAndContinue.

End Classifier.

(** ** The control loop (irc.go) *)

(** The resets made under the lock by [Reconnect], and again by [Connect]. *)
Definition resetRegistration (c : Connection) : Connection :=
  let c := set_fullyConnected false c in
  let c := set_registrationSteps 0 c in
  let c := set_registrationStartTime 0 c in
  let c := set_nickPending "" c in
  set_nickChangeInProgress false c.

Inductive LoopAction : Type :=
| CallReconnect      (* irc.Reconnect() *)
| Sleep60.           (* time.Sleep(60 * time.Second) *)

(** How a run of [Loop] over a finite script ends: it returns for a permanent
    error, it returns at the ceiling, it returns because the user quit, or it
    is still blocked, on the error channel or in [Reconnect], when the script
    is used up. *)
Inductive LoopOutcome : Type :=
| HaltPermanent
| HaltCeiling
| Quitting
| AwaitingError
| AwaitingReconnect.

Inductive InnerExit : Type :=
| Reconnected (rest : list (option string))
| InnerQuit
| InnerStarved.

(** The inner loop: reconnect until it succeeds.  [results] holds what the
    successive calls of [Reconnect] return, [None] being the nil error.  Of
    the connection attempt only the resets are kept: nothing else in it
    touches a field that the loop reads. *)
Fixpoint reconnectLoop (errStr : string) (results : list (option string)) (c : Connection)
  : InnerExit * list LoopAction * Connection :=
  if quit c then (InnerQuit, [], c)
  else
    match results with
    | [] => (InnerStarved, [], c)
    | r :: results' =>
        let c :=
          if gostrings.Contains errStr "RecoverableError"
          then set_recoverableReconnects (incr (recoverableReconnects c)) c
          else c in
        let c := resetRegistration c in
        match r with
        | Some _ =>
            let '(exit, actions, c') := reconnectLoop errStr results' c in
            (exit, CallReconnect :: Sleep60 :: actions, c')
        | None =>
            (Reconnected results', [CallReconnect], set_recoverableReconnects 0 c)
        end
    end.

Record LoopRun : Type := mkLoopRun {
  outcome : LoopOutcome;
  actions : list LoopAction;
  final : Connection
}.

(** [Loop]: [errs] holds the errors received on the error channel, in order.
    Closing the end channel and waiting for the workers, between the tests
    and the reconnects, change no field and are left out. *)
Fixpoint Loop (errs : list string) (results : list (option string)) (c : Connection)
  : LoopRun :=
  if quit c then mkLoopRun Quitting [] c
  else
    match errs with
    | [] => mkLoopRun AwaitingError [] c
    | errStr :: errs' =>
        if HandleErrorAsDisconnect c
           && gostrings.Contains errStr "Received permanent ERROR from server:"
        then mkLoopRun HaltPermanent [] c
        else if HandleErrorAsDisconnect c
                && gostrings.Contains errStr "RecoverableError"
                && (0 <? MaxRecoverableReconnects c)
                && (MaxRecoverableReconnects c <=? recoverableReconnects c)
        then mkLoopRun HaltCeiling [] c
        else
          match reconnectLoop errStr results c with
          | (Reconnected rest, acts, c') =>
              let r := Loop errs' rest c' in
              mkLoopRun (outcome r) (acts ++ actions r) (final r)
          | (InnerQuit, acts, c') => mkLoopRun Quitting acts c'
          | (InnerStarved, acts, c') => mkLoopRun AwaitingReconnect acts c'
          end
    end.

Definition reconnectCalls (r : LoopRun) : nat :=
  length (List.filter (fun a => match a with CallReconnect => true | Sleep60 => false end) (actions r)).

(** ** Registration during the capability handshake (irc.go) *)

(** The two registration lines, as each of the three sites sends them. *)
Definition enqueueRegistration (c : Connection) : Connection :=
  let realname := if negb (String.eqb (RealName c) "") then RealName c else user c in
  set_pwrite
    (pwrite c ++ ["NICK " +:+ nick c +:+ CR +:+ LF;
                  "USER " +:+ user c +:+ " 0 * :" +:+ realname +:+ CR +:+ LF]) c.

(** [negotiateCaps] up to the point where it starts to wait: the requested
    capabilities are rebuilt, and either registration is sent at once (none
    requested) or the listing request is sent. *)
Definition negotiateCaps_begin (c : Connection) : Connection :=
  let c := set_RequestCaps [] c in
  let c := if UseSASL c then set_RequestCaps (RequestCaps c ++ ["sasl"]) c else c in
  if Z.of_nat (length (RequestCaps c)) =? 0 then
    if negb (sentRegistration c) then
      let c := set_sentRegistration true c in
      let c := set_nickPending (nick c) c in
      enqueueRegistration c
    else c
  else
    if negb (String.eqb (CapVersion c) "")
    then set_pwrite (pwrite c ++ ["CAP LS " +:+ CapVersion c +:+ CR +:+ LF]) c
    else set_pwrite (pwrite c ++ ["CAP LS" +:+ CR +:+ LF]) c.

(** The [CAP REQ] lines sent for a listing: one for each pair of a listed and
    a requested capability that are equal. *)
Definition capRequests (listed requested : list string) : list string :=
  flat_map
    (fun cap_name =>
       flat_map
         (fun req_cap =>
            if String.eqb cap_name req_cap
            then ["CAP REQ :" +:+ cap_name +:+ CR +:+ LF] else [])
         requested)
    listed.

(** The CAP callback installed by [negotiateCaps].  The ACK and NAK branch
    only feeds the acknowledged list and the counting channel. *)
Definition onCAP (e : Event) (c : Connection) : Connection :=
  if Z.of_nat (length (Arguments e)) <? 2 then c
  else
    let command := nth 1 (Arguments e) "" in
    if String.eqb command "LS" then
      let c :=
        if 3 <=? Z.of_nat (length (Arguments e))
        then set_pwrite
               (pwrite c ++ capRequests (gostrings.Split (nth 2 (Arguments e) "") " ")
                                        (RequestCaps c)) c
        else c in
      if negb (sentRegistration c) then
        let c := set_sentRegistration true c in
        enqueueRegistration c
      else c
    else c.

(** The fallback started by [negotiateCaps], when its 800 ms have passed. *)
Definition fallbackTimer (c : Connection) : Connection :=
  if sentRegistration c then c
  else
    let c := set_sentRegistration true c in
    let c := set_nickPending (nick c) c in
    enqueueRegistration c.

Inductive HandshakeEvent : Type :=
| CapLine (e : Event)     (* a CAP line is dispatched to the callback *)
| FallbackFires.

Definition handshakeStep (c : Connection) (ev : HandshakeEvent) : Connection :=
  match ev with
  | CapLine e => onCAP e c
  | FallbackFires => fallbackTimer c
  end.

(** One connection attempt whose dial succeeds, without WEBIRC or PASS: the
    resets of [Connect], the fresh outbound channel, the start of the
    negotiation and, when capabilities are requested, the handshake events in
    the order in which they take the lock. *)
Definition Connect_attempt (evs : list HandshakeEvent) (c : Connection) : Connection :=
  let c := resetRegistration c in
  let c := set_pwrite [] c in
  let c := negotiateCaps_begin c in
  if Z.of_nat (length (RequestCaps c)) =? 0 then c
  else fold_left handshakeStep evs c.

(** [Reconnect]: the same resets, then [Connect] to the stored server. *)
Definition Reconnect_attempt (evs : list HandshakeEvent) (c : Connection) : Connection :=
  Connect_attempt evs (resetRegistration c).

(** How many NICK lines the outbound channel of the attempt received. *)
Definition registrationsSent (c : Connection) : nat :=
  length (List.filter (fun line => gostrings.HasPrefix line "NICK ") (pwrite c)).

(** ** Event dispatch (irc_callback.go) *)

Definition set_Code (v : string) (e : Event) : Event :=
  {| Code := v; Raw := Raw e; Nick := Nick e; Host := Host e; Source := Source e;
     User := User e; Arguments := Arguments e; Tags := Tags e |}.

Definition set_Arguments (v : list string) (e : Event) : Event :=
  {| Code := Code e; Raw := Raw e; Nick := Nick e; Host := Host e; Source := Source e;
     User := User e; Arguments := v; Tags := Tags e |}.

(** The [switch] on the unframed CTCP message: the code, and the message
    (cut after [ACTION ] for an action). *)
Definition ctcpCode (msg : string) : string * string :=
  if String.eqb msg "VERSION" then ("CTCP_VERSION", msg)
  else if String.eqb msg "TIME" then ("CTCP_TIME", msg)
  else if gostrings.HasPrefix msg "PING" then ("CTCP_PING", msg)
  else if String.eqb msg "USERINFO" then ("CTCP_USERINFO", msg)
  else if String.eqb msg "CLIENTINFO" then ("CTCP_CLIENTINFO", msg)
  else if gostrings.HasPrefix msg "ACTION" then
    ("CTCP_ACTION", if 6 <? gostrings.len msg then gostrings.slice_from msg 7 else "")
  else ("CTCP", msg).

(** The first part of [RunCallbacks]: the event as the handlers will see it,
    or, for a CTCP message that never closes, the event as it is left when
    the function returns without running any handler. *)
Definition reclassify (event : Event) : Event * bool :=
  let msg := Message event in
  if String.eqb (Code event) "PRIVMSG" && (2 <? gostrings.len msg) && starts_with "001" msg
  then
    let event := set_Code "CTCP" event in
    let i := gostrings.LastIndex msg SOH in
    if 0 <? i then
      let msg := gostrings.slice msg 1 i in
      let '(code, msg) := ctcpCode msg in
      let event := set_Code code event in
      (set_Arguments (<[(length (Arguments event) - 1)%nat := msg]> (Arguments event)) event,
       true)
    else (event, false)
  else (event, true).

Section Dispatch.

(** A handler: a Go function taking the event. *)
Variable Handler : Type.

(** [RunCallbacks]: the event after reclassification, and the handlers that
    are started on it: those registered for its code and those registered for
    the wildcard, the latter winning on a shared identifier. *)
Definition RunCallbacks (events : gmap string (gmap Z Handler)) (event : Event)
  : Event * option (gmap Z Handler) :=
  match reclassify event with
  | (event, false) => (event, None)
  | (event, true) =>
      (event, Some (default ∅ (events !! "*") ∪ default ∅ (events !! Code event)))
  end.

End Dispatch.

(** ** DCC chat registry (irc_dcc.go) *)

(** A buffered channel of strings of capacity 100. *)
Record Chan : Type := mkChan {
  buf : list string;
  closed : bool
}.

Record DCCChat : Type := mkDCCChat {
  chatNick : string;
  connClosed : bool;
  Incoming : Chan;
  Outgoing : Chan
}.

Definition set_Outgoing (v : Chan) (chat : DCCChat) : DCCChat :=
  {| chatNick := chatNick chat; connClosed := connClosed chat;
     Incoming := Incoming chat; Outgoing := v |}.

Definition set_Incoming (v : Chan) (chat : DCCChat) : DCCChat :=
  {| chatNick := chatNick chat; connClosed := connClosed chat;
     Incoming := v; Outgoing := Outgoing chat |}.

Definition SendDCCMessage (nick message : string) (chats : gmap string DCCChat)
  : go_result unit * gmap string DCCChat :=
  match chats !! nick with
  | None => (Err ("no active DCC chat with " +:+ nick), chats)
  | Some chat =>
      if closed (Outgoing chat) then (Panic "send on closed channel", chats)
      else if Z.of_nat (length (buf (Outgoing chat))) <? 100 then
        (Ok tt,
         <[nick := set_Outgoing (mkChan (buf (Outgoing chat) ++ [message]) false) chat]> chats)
      else (Err ("failed to send message to " +:+ nick +:+ ": channel full"), chats)
  end.

Definition GetDCCMessage (nick : string) (chats : gmap string DCCChat)
  : go_result string * gmap string DCCChat :=
  match chats !! nick with
  | None => (Err ("no active DCC chat with " +:+ nick), chats)
  | Some chat =>
      match buf (Incoming chat) with
      | msg :: rest =>
          (Ok msg, <[nick := set_Incoming (mkChan rest (closed (Incoming chat))) chat]> chats)
      | [] =>
          if closed (Incoming chat)
          then (Err ("DCC chat with " +:+ nick +:+ " closed"), chats)
          else (Err ("no message available from " +:+ nick), chats)
      end
  end.

Definition CloseDCCChat (nick : string) (chats : gmap string DCCChat)
  : go_result unit * gmap string DCCChat :=
  match chats !! nick with
  | None => (Err ("no active DCC chat with " +:+ nick), chats)
  | Some chat =>
      if closed (Outgoing chat) then (Panic "close of closed channel", chats)
      else (Ok tt, delete nick chats)
  end.

(** The nicks with an active chat, in the order of the map's iteration. *)
Definition ListActiveDCCChats (chats : gmap string DCCChat) : list string :=
  (map_to_list chats).*1.

Definition IsDCCChatActive (nick : string) (chats : gmap string DCCChat) : bool :=
  bool_decide (is_Some (chats !! nick)).

(** ** Tag values: the encoder *)

(** Modelled from the spec: the encoder of the five-sequence escape table
    ([;] to [\:], space to [\s], [\] to [\\], CR to [\r], LF to [\n]); the
    client only decodes. *)
Definition escapeByte (c : ascii) : string :=
  if Ascii.eqb c ";" then "\:"
  else if Ascii.eqb c " " then "\s"
  else if Ascii.eqb c "\" then "\\"
  else if Ascii.eqb c "013" then "\r"
  else if Ascii.eqb c "010" then "\n"
  else String c EmptyString.

Fixpoint escapeTagValue (s : string) : string :=
  match s with
  | EmptyString => EmptyString
  | String c s' => escapeByte c +:+ escapeTagValue s'
  end.

(** The escape sequence with a given letter. *)
Definition escapeSequence (letter : ascii) : string := String "\" (String letter "").

(** An encoder that escapes the bytes on which [table] is defined, each by a
    backslash and the letter [table] gives. *)
Fixpoint escapeWith (table : ascii -> option ascii) (s : string) : string :=
  match s with
  | EmptyString => EmptyString
  | String c s' =>
      match table c with
      | Some letter => String "\" (String letter (escapeWith table s'))
      | None => String c (escapeWith table s')
      end
  end.

(** The escape table without its backslash row. *)
Definition tableNoBackslash (c : ascii) : option ascii :=
  if Ascii.eqb c ";" then Some ":"%char
  else if Ascii.eqb c " " then Some "s"%char
  else if Ascii.eqb c "013" then Some "r"%char
  else if Ascii.eqb c "010" then Some "n"%char
  else None.

(** [table] without the rows that give [letter]. *)
Definition withoutLetter (letter : ascii) (table : ascii -> option ascii) (c : ascii)
  : option ascii :=
  match table c with
  | Some l => if Ascii.eqb l letter then None else Some l
  | None => None
  end.

Fixpoint noBackslash (s : string) : bool :=
  match s with
  | EmptyString => true
  | String c s' => negb (Ascii.eqb c "\") && noBackslash s'
  end.

(** ** Vocabulary of the statements *)

(** [pattern] occurs in [s] as a substring. *)
Definition occursIn (pattern s : string) : Prop :=
  exists a b : string, s = a +:+ pattern +:+ b.

(** Some pattern of the family occurs in [s]. *)
Definition familyMatches (family : list string) (s : string) : Prop :=
  exists pattern : string, In pattern family /\ occursIn pattern s.

(** A handshake event that sends registration if it is not sent yet: the
    fallback, or a CAP line whose subcommand is LS. *)
Definition isTrigger (ev : HandshakeEvent) : bool :=
  match ev with
  | FallbackFires => true
  | CapLine e =>
      negb (Z.of_nat (length (Arguments e)) <? 2) && String.eqb (nth 1 (Arguments e) "") "LS"
  end.



(** ** Sample sessions, lines and registries *)

(** The session built by [IRC("bob", "bob")] at time 0. *)
Definition bob_session : Connection :=
  {| UseSASL := false; RequestCaps := []; RealName := ""; pwrite := [];
     nick := "bob"; nickcurrent := "bob"; nickPending := ""; user := "bob";
     quit := false; fullyConnected := false; lastNickChange := 0;
     nickError := ""; registrationSteps := 0; registrationStartTime := 0;
     nickChangeInProgress := false; nickChangeTimeout := 0;
     CapVersion := "302"; sentRegistration := false;
     HandleErrorAsDisconnect := true; SmartErrorHandling := true;
     MaxRecoverableReconnects := 3; recoverableReconnects := 0 |}.

(** [:irc.example.net 001 bob :Welcome] *)
Definition welcome_bob : Event :=
  mkEvent "001" ":irc.example.net 001 bob :Welcome" "" "" "irc.example.net" ""
          ["bob"; "Welcome"] ∅.

(** [:irc.example.net 433 * bob :Nickname is already in use] *)
Definition in_use_bob : Event :=
  mkEvent "433" ":irc.example.net 433 * bob :Nickname is already in use"
          "" "" "irc.example.net" "" ["*"; "bob"; "Nickname is already in use"] ∅.

(** [:irc.example.net 433 bob alice :Nickname is already in use] *)
Definition in_use_alice : Event :=
  mkEvent "433" ":irc.example.net 433 bob alice :Nickname is already in use"
          "" "" "irc.example.net" "" ["bob"; "alice"; "Nickname is already in use"] ∅.

(** [:bob!u@h NICK :Guest42] *)
Definition renamed_to_guest : Event :=
  mkEvent "NICK" ":bob!u@h NICK :Guest42" "bob" "h" "bob!u@h" "u" ["Guest42"] ∅.

(** [:bob!u@h NICK :alice] *)
Definition renamed_to_alice : Event :=
  mkEvent "NICK" ":bob!u@h NICK :alice" "bob" "h" "bob!u@h" "u" ["alice"] ∅.

(** The session registered as bob whose application then asks for alice. *)
Definition wants_alice : list (Time * Input) :=
  [(1, Received welcome_bob); (2, CallNick "alice")].

(** [ERROR :Closing Link: bob (Ping timeout)] *)
Definition ping_timeout : Event :=
  mkEvent "ERROR" "ERROR :Closing Link: bob (Ping timeout)" "" "" "" ""
          ["Closing Link: bob (Ping timeout)"] ∅.

(** The error the reader posts for it. *)
Definition recoverable_failure : string :=
  "Received RecoverableError from server: Closing Link: bob (Ping timeout)".

(** [:alice!a@h PRIVMSG bob :\x01VERSION\x01] *)
Definition version_request : Event :=
  mkEvent "PRIVMSG" (":alice!a@h PRIVMSG bob :" +:+ SOH +:+ "VERSION" +:+ SOH)
          "alice" "h" "alice!a@h" "a" ["bob"; SOH +:+ "VERSION" +:+ SOH] ∅.

(** [:alice!a@h PRIVMSG bob :\x01FINGER\x01] *)
Definition finger_request : Event :=
  mkEvent "PRIVMSG" (":alice!a@h PRIVMSG bob :" +:+ SOH +:+ "FINGER" +:+ SOH)
          "alice" "h" "alice!a@h" "a" ["bob"; SOH +:+ "FINGER" +:+ SOH] ∅.

(** [:alice!a@h PRIVMSG bob :\x01PINGPONG\x01] *)
Definition pingpong_request : Event :=
  mkEvent "PRIVMSG" (":alice!a@h PRIVMSG bob :" +:+ SOH +:+ "PINGPONG" +:+ SOH)
          "alice" "h" "alice!a@h" "a" ["bob"; SOH +:+ "PINGPONG" +:+ SOH] ∅.


(** A registry of chats with alice alone. *)
Definition chat_with_alice : gmap string DCCChat :=
  {[ "alice" := mkDCCChat "alice" false (mkChan [] false) (mkChan [] false) ]}.

(** * Further code of the same files *)

(** ** The callback registry (irc_callback.go) *)

Section Registry.

(** A handler: a Go function taking the event. *)
Variable Handler : Type.

(** [strings.ToUpper], of which nothing is assumed. *)
Variable ToUpper : string -> string.

(** The two fields of [Connection] behind the registry: [events], where the
    nil map is the empty map, and [idCounter]. *)
Record Callbacks : Type := mkCallbacks {
  events : gmap string (gmap Z Handler);
  idCounter : Z
}.

(** [AddCallback] registers a callback under the upper-cased event code and
    returns its identifier. *)
Definition AddCallback (eventcode : string) (callback : Handler) (r : Callbacks)
  : Z * Callbacks :=
  let eventcode := ToUpper eventcode in
  let inner := default ∅ (events r !! eventcode) in
  let id := idCounter r in
  (id, {| events := <[eventcode := <[id := callback]> inner]> (events r);
          idCounter := incr id |}).

(** [RemoveCallback] removes callback [i] from the event code; it returns
    true upon success. *)
Definition RemoveCallback (eventcode : string) (i : Z) (r : Callbacks) : bool * Callbacks :=
  let eventcode := ToUpper eventcode in
  match events r !! eventcode with
  | Some event =>
      match event !! i with
      | Some _ =>
          (true, {| events := <[eventcode := delete i event]> (events r);
                    idCounter := idCounter r |})
      | None => (false, r)
      end
  | None => (false, r)
  end.

(** [ClearCallback] removes all callbacks from the event code; it returns
    true if the code is found. *)
Definition ClearCallback (eventcode : string) (r : Callbacks) : bool * Callbacks :=
  let eventcode := ToUpper eventcode in
  match events r !! eventcode with
  | Some _ =>
      (true, {| events := <[eventcode := ∅]> (events r); idCounter := idCounter r |})
  | None => (false, r)
  end.

(** [ReplaceCallback] replaces callback [i] of the event code, if there is
    one. *)
Definition ReplaceCallback (eventcode : string) (i : Z) (callback : Handler) (r : Callbacks)
  : Callbacks :=
  let eventcode := ToUpper eventcode in
  match events r !! eventcode with
  | Some event =>
      match event !! i with
      | Some _ =>
          {| events := <[eventcode := <[i := callback]> event]> (events r);
             idCounter := idCounter r |}
      | None => r
      end
  | None => r
  end.

(** The handlers that [RunCallbacks] starts on an event that is dispatched. *)
Definition started (r : Callbacks) (event : Event) : option (gmap Z Handler) :=
  snd (RunCallbacks Handler (events r) event).

(** Every identifier in the registry was handed out by the counter. *)
Definition idsBelowCounter (r : Callbacks) : Prop :=
  forall (code : string) (inner : gmap Z Handler) (id : Z),
    events r !! code = Some inner -> is_Some (inner !! id) -> 0 <= id < idCounter r.

End Registry.

Arguments events {Handler} _.
Arguments idCounter {Handler} _.
Arguments mkCallbacks {Handler} _ _.

(** ** Sending (irc.go) *)

(** [Join], [Part], [Notice], [Action] and [Privmsg] format one line and put
    it on the outbound queue. *)
Definition Join (channel : string) (c : Connection) : Connection :=
  set_pwrite (pwrite c ++ ["JOIN " +:+ channel +:+ CR +:+ LF]) c.

Definition Part (channel : string) (c : Connection) : Connection :=
  set_pwrite (pwrite c ++ ["PART " +:+ channel +:+ CR +:+ LF]) c.

Definition Notice (target message : string) (c : Connection) : Connection :=
  set_pwrite (pwrite c ++ ["NOTICE " +:+ target +:+ " :" +:+ message +:+ CR +:+ LF]) c.

Definition Action (target message : string) (c : Connection) : Connection :=
  set_pwrite
    (pwrite c ++ ["PRIVMSG " +:+ target +:+ " :" +:+ SOH +:+ "ACTION " +:+ message
                  +:+ SOH +:+ CR +:+ LF]) c.

Definition Privmsg (target message : string) (c : Connection) : Connection :=
  set_pwrite (pwrite c ++ ["PRIVMSG " +:+ target +:+ " :" +:+ message +:+ CR +:+ LF]) c.

(** ** More built-in callbacks (irc_callback.go) *)

(** PING: the reply carries the message of the event. *)
Definition onPING (e : Event) (c : Connection) : Connection :=
  SendRaw ("PONG :" +:+ Message e) c.

(** The numerics that follow the welcome message. *)
Inductive RegistrationNumeric : Type :=
| RPL_YOURHOST     (* 002 *)
| RPL_CREATED      (* 003 *)
| RPL_MYINFO       (* 004 *)
| RPL_ISUPPORT     (* 005 *)
| RPL_ENDOFMOTD    (* 376 *)
| ERR_NOMOTD.      (* 422 *)

(** The callback of 002, the same as those of 003 and 004. *)
Definition on002 (c : Connection) : Connection :=
  if negb (fullyConnected c) && (0 <? registrationSteps c)
  then set_registrationSteps (incr (registrationSteps c)) c
  else if 0 <? registrationSteps c then set_fullyConnected true c
  else c.

Definition on005 (c : Connection) : Connection :=
  if negb (fullyConnected c) && (0 <? registrationSteps c) then
    let c := set_registrationSteps (incr (registrationSteps c)) c in
    if 4 <=? registrationSteps c then set_fullyConnected true c else c
  else if 0 <? registrationSteps c then set_fullyConnected true c
  else c.

(** The callback of 376, the same as that of 422. *)
Definition on376 (c : Connection) : Connection :=
  if negb (fullyConnected c) && (0 <? registrationSteps c)
  then set_fullyConnected true c
  else c.

Definition onRegistrationNumeric (c : Connection) (n : RegistrationNumeric) : Connection :=
  match n with
  | RPL_YOURHOST | RPL_CREATED | RPL_MYINFO => on002 c
  | RPL_ISUPPORT => on005 c
  | RPL_ENDOFMOTD | ERR_NOMOTD => on376 c
  end.

(** ** The keep-alive worker (irc.go) *)

Section KeepAlive.

(** The decimal text that [%d] prints, of which nothing is assumed. *)
Variable formatInt : Z -> string.

(** One tick of the second ticker of [pingLoop], at time [now]: a PING with
    the clock in nanoseconds and, if the desired nickname is not the current
    one, a NICK for the desired one. *)
Definition pingTick (now : Time) (c : Connection) : Connection :=
  let c := SendRaw ("PING " +:+ formatInt now) c in
  if negb (String.eqb (nick c) (nickcurrent c)) then
    let desiredNick := nick c in
    let c := set_nickPending desiredNick c in
    let c := set_nickChangeInProgress true c in
    let c := set_nickChangeTimeout now c in
    SendRaw ("NICK " +:+ desiredNick) c
  else c.

End KeepAlive.

(** ** DCC addresses (irc_dcc.go) *)

(** [binary.BigEndian.Uint32]: the first four bytes, most significant first;
    it panics on a shorter slice. *)
Definition Uint32 (b : list Byte.byte) : go_result Z :=
  match b with
  | b0 :: b1 :: b2 :: b3 :: _ =>
      Ok (Z.lor (Z.lor (Z.lor (Z.of_N (Byte.to_N b3))
                              (Z.shiftl (Z.of_N (Byte.to_N b2)) 8))
                       (Z.shiftl (Z.of_N (Byte.to_N b1)) 16))
                (Z.shiftl (Z.of_N (Byte.to_N b0)) 24))
  | _ => Panic index_out_of_range
  end.

(** [ip2int]: a 16-byte address gives its last four bytes. *)
Definition ip2int (ip : list Byte.byte) : go_result Z :=
  if Z.of_nat (length ip) =? 16 then Uint32 (skipn 12 ip) else Uint32 ip.

(** ** Vocabulary of the further statements *)

(** The byte [c] does not occur in [s]. *)
Fixpoint noByte (c : ascii) (s : string) : bool :=
  match s with
  | EmptyString => true
  | String c' s' => negb (Ascii.eqb c' c) && noByte c s'
  end.

(** [strings.Join(elems, sep)]. *)
Fixpoint JoinStrings (elems : list string) (sep : string) : string :=
  match elems with
  | [] => ""
  | [w] => w
  | w :: rest => w +:+ sep +:+ JoinStrings rest sep
  end.

(** A parameter that can stand in the middle of a line: no space in it, and
    no colon in front. *)
Definition middle (p : string) : bool := noByte " " p && negb (starts_with ":" p).

(** A line as the client and the server write it: the command, the middle
    parameters, and the trailing parameter if there is one. *)
Definition wireLine (cmd : string) (params : list string) (trailing : option string) : string :=
  match trailing with
  | Some t => JoinStrings (cmd :: params) " " +:+ " :" +:+ t
  | None => JoinStrings (cmd :: params) " "
  end.

(** The arguments that such a line carries. *)
Definition wireArguments (params : list string) (trailing : option string) : list string :=
  match trailing with
  | Some t => params ++ [t]
  | None => params
  end.

(** The decomposition of a source made by the parser. *)
Definition splitSource (source : string) : string * string * string :=
  let i := gostrings.Index source "!" in
  let j := gostrings.Index source "@" in
  if (-1 <? i) && (-1 <? j) && (i <? j) then
    (gostrings.slice source 0 i, gostrings.slice source (i + 1) j,
     gostrings.slice_from source (j + 1))
  else ("", "", "").

(** A registry of chats with alice whose outgoing channel is full. *)
Definition chat_full : gmap string DCCChat :=
  {[ "alice" := mkDCCChat "alice" false (mkChan [] false)
                          (mkChan (repeat "x" 100) false) ]}.

(** The event [e] with other tags and another raw line. *)
Definition withTags (tags : gmap string string) (raw : string) (e : Event) : Event :=
  {| Code := Code e; Raw := raw; Nick := Nick e; Host := Host e; Source := Source e;
     User := User e; Arguments := Arguments e; Tags := tags |}.


(** A registry with one handler for JOIN, as [AddCallback] leaves it on a new
    connection. *)
Definition registry_join : Callbacks nat :=
  snd (AddCallback nat gostrings.ToUpperASCII "join" 7%nat (mkCallbacks ∅ 0)).

(** A JOIN of alice to the channel #go. *)
Definition alice_joins : Event :=
  {| Code := "JOIN"; Raw := ":alice!a@h JOIN #go"; Nick := "alice"; Host := "h";
     Source := "alice!a@h"; User := "a"; Arguments := ["#go"]; Tags := ∅ |}.

(** ** The writer of a chat (irc_dcc.go) *)

(** [close(ch)]: closing a closed channel panics. *)
Definition closeChan (ch : Chan) : go_result Chan :=
  if closed ch then Panic "close of closed channel" else Ok (mkChan (buf ch) true).

(** [writeDCCChat] on the outgoing channel of its chat: it takes the messages
    in order and writes each one with CR LF, leaves the loop at the first
    write that fails or when the channel is closed and empty, and then closes
    the channel.  [writes] holds how the successive writes end, [true] being
    the nil error.  The result is the lines written and how the function
    ends; [None] stands for a writer that is still waiting, for a message or
    for the outcome of a write. *)
Fixpoint writeDCCChat (writes : list bool) (out : Chan)
  : list string * option (go_result Chan) :=
  match buf out with
  | [] => if closed out then ([], Some (closeChan out)) else ([], None)
  | msg :: rest =>
      match writes with
      | [] => ([], None)
      | ok :: writes' =>
          let out := mkChan rest (closed out) in
          if ok then
            let '(written, r) := writeDCCChat writes' out in
            ((msg +:+ CR +:+ LF) :: written, r)
          else ([], Some (closeChan out))
      end
  end.

(** [n] calls of [GetDCCMessage] for the same nick, one after the other. *)
Fixpoint GetDCCMessages (n : nat) (nick : string) (chats : gmap string DCCChat)
  : list (go_result string) * gmap string DCCChat :=
  match n with
  | O => ([], chats)
  | S n' =>
      let '(r, chats) := GetDCCMessage nick chats in
      let '(rs, chats) := GetDCCMessages n' nick chats in
      (r :: rs, chats)
  end.

(** [messages] sent with [SendDCCMessage] to the same nick, one after the
    other. *)
Fixpoint SendDCCMessages (nick : string) (messages : list string)
         (chats : gmap string DCCChat) : list (go_result unit) * gmap string DCCChat :=
  match messages with
  | [] => ([], chats)
  | m :: messages' =>
      let '(r, chats) := SendDCCMessage nick m chats in
      let '(rs, chats) := SendDCCMessages nick messages' chats in
      (r :: rs, chats)
  end.

(** ** Leaving (irc.go) *)

Definition set_quit (v : bool) (c : Connection) : Connection :=
  {| UseSASL := UseSASL c; RequestCaps := RequestCaps c; RealName := RealName c; pwrite := pwrite c;
     nick := nick c; nickcurrent := nickcurrent c; nickPending := nickPending c; user := user c;
     quit := v; fullyConnected := fullyConnected c; lastNickChange := lastNickChange c;
     nickError := nickError c; registrationSteps := registrationSteps c;
     registrationStartTime := registrationStartTime c;
     nickChangeInProgress := nickChangeInProgress c; nickChangeTimeout := nickChangeTimeout c;
     CapVersion := CapVersion c; sentRegistration := sentRegistration c;
     HandleErrorAsDisconnect := HandleErrorAsDisconnect c;
     SmartErrorHandling := SmartErrorHandling c;
     MaxRecoverableReconnects := MaxRecoverableReconnects c;
     recoverableReconnects := recoverableReconnects c |}.

(** [Quit]: the QUIT line, with the quit message of the connection if it has
    one, and the mark that stops the control loop.  [QuitMessage] is a field
    of the connection that no other modelled function reads; the one-second
    sleep before the line and the [stopped] mark, which only the workers
    read, are left out. *)
Definition Quit (QuitMessage : string) (c : Connection) : Connection :=
  let quit := if negb (String.eqb QuitMessage "") then "QUIT :" +:+ QuitMessage else "QUIT" in
  let c := SendRaw quit c in
  set_quit true c.

(** [:irc.example.net 433 * bob_ :Nickname is already in use] *)
Definition in_use_bob_modified : Event :=
  mkEvent "433" ":irc.example.net 433 * bob_ :Nickname is already in use"
          "" "" "irc.example.net" "" ["*"; "bob_"; "Nickname is already in use"] ∅.

(** 127.0.0.1 *)
Definition loopback : list Byte.byte := [Byte.x7f; Byte.x00; Byte.x00; Byte.x01].

(** A session that asks for SASL, and whose user asked for multi-prefix. *)
Definition sasl_session : Connection :=
  set_RequestCaps ["multi-prefix"] (set_UseSASL true bob_session).

(** [:irc.example.net CAP * LS :multi-prefix sasl] *)
Definition cap_listing : Event :=
  mkEvent "CAP" ":irc.example.net CAP * LS :multi-prefix sasl" "" "" "irc.example.net" ""
          ["*"; "LS"; "multi-prefix sasl"] ∅.

(** [ERROR :Closing Link: bob (K-lined)] *)
Definition k_lined : Event :=
  mkEvent "ERROR" "ERROR :Closing Link: bob (K-lined)" "" "" "" ""
          ["Closing Link: bob (K-lined)"] ∅.

(** A registry of chats with alice, who has written two lines. *)
Definition chat_backlog : gmap string DCCChat :=
  {[ "alice" := mkDCCChat "alice" false (mkChan ["hi"; "there"] false) (mkChan [] false) ]}.
(** * Properties *)

(** ** The string functions on examples *)

Example Index_ex : gostrings.Index "PRIVMSG #chan :hello world" " :" = 13.
Proof. reflexivity. Qed.

Example Split_ex : gostrings.Split "a b  c" " " = ["a"; "b"; ""; "c"].
Proof. reflexivity. Qed.

Example SplitN_ex : gostrings.SplitN "k=v=w" "=" 2 = ["k"; "v=w"].
Proof. reflexivity. Qed.

Example Replace_ex : gostrings.Replace "a\sb\sc" "\s" " " = "a b c".
Proof. reflexivity. Qed.

Example TrimSuffix_ex : gostrings.TrimSuffix ("PING" +:+ LF) LF = "PING".
Proof. reflexivity. Qed.

Example LastIndex_ex : gostrings.LastIndex "abcabc" "bc" = 4.
Proof. reflexivity. Qed.

(** ** The wire parser *)

Example parse_PING :
  parseToEvent gostrings.ToUpperASCII "PING" =
  Ok (mkEvent "PING" "PING" "" "" "" "" [] ∅).
Proof. reflexivity. Qed.

Example parse_433 :
  parseToEvent gostrings.ToUpperASCII
    (":irc.example.net 433 * bob :Nickname is already in use" +:+ CR +:+ LF) =
  Ok (mkEvent "433" ":irc.example.net 433 * bob :Nickname is already in use"
        "" "" "irc.example.net" "" ["*"; "bob"; "Nickname is already in use"] ∅).
Proof. reflexivity. Qed.

Example parse_NICK :
  parseToEvent gostrings.ToUpperASCII ":bob!u@h NICK :alice" =
  Ok (mkEvent "NICK" ":bob!u@h NICK :alice" "bob" "h" "bob!u@h" "u" ["alice"] ∅).
Proof. reflexivity. Qed.

Section ParserFacts.

Variable ToUpper : string -> string.

Lemma len_lt_1 (t : string) : (gostrings.len t <? 1) = String.eqb t "".
Proof.
  destruct t as [|c t]; [reflexivity|].
  unfold gostrings.len. cbn [String.length String.eqb].
  apply Z.ltb_ge. lia.
Qed.

Lemma first_byte_cons (c : ascii) (t : string) : first_byte (String c t) = Ok c.
Proof. reflexivity. Qed.

Lemma parseSource_outcome (m : string) :
  m <> EmptyString ->
  if starts_with ":" m && negb (-1 <? gostrings.Index m " ")
  then parseSource m = Err malformed
  else is_Ok (parseSource m) = true.
Proof.
  destruct m as [|c m]; [congruence|]. intros _.
  unfold parseSource. rewrite first_byte_cons. cbn [bind starts_with].
  destruct (Ascii.eqb c ":"); cbn [andb]; [|reflexivity].
  destruct (-1 <? gostrings.Index (String c m) " "); cbn [negb]; [|reflexivity].
  match goal with |- context [if ?b then _ else _] => destruct b end; reflexivity.
Qed.

Lemma parseTagSegment_nonempty (t : string) :
  t <> EmptyString ->
  parseTagSegment t =
  if starts_with "@" t then
    if -1 <? gostrings.Index t " " then
      Ok (parseTags (gostrings.slice t 1 (gostrings.Index t " ")),
          gostrings.slice_from t (gostrings.Index t " " + 1))
    else Err malformed
  else Ok (∅, t).
Proof. destruct t; [congruence | reflexivity]. Qed.

Lemma bind_parseSource_outcome {B : Type} (m : string) (k : _ -> go_result B) :
  m <> EmptyString ->
  (forall x, is_Ok (k x) = true) ->
  if starts_with ":" m && negb (-1 <? gostrings.Index m " ")
  then bind (parseSource m) k = Err malformed
  else is_Ok (bind (parseSource m) k) = true.
Proof.
  intros Hm Hk. pose proof (parseSource_outcome m Hm) as Hs.
  destruct (starts_with ":" m && negb (-1 <? gostrings.Index m " ")).
  - rewrite Hs. reflexivity.
  - destruct (parseSource m); cbn in Hs |- *; [apply Hk | discriminate | discriminate].
Qed.

(** The parser's outcome, by cases on the trimmed line. *)
Lemma parseToEvent_outcome (msg : string) :
  let t := trimLine msg in
  if rejected t then parseToEvent ToUpper msg = Err malformed
  else if tagsOnly t then parseToEvent ToUpper msg = Panic index_out_of_range
  else is_Ok (parseToEvent ToUpper msg) = true.
Proof.
  intros t. unfold parseToEvent. fold (trimLine msg). fold t.
  rewrite len_lt_1. unfold rejected, tagsOnly.
  destruct (String.eqb t "") eqn:He; [reflexivity|].
  assert (Hne : t <> EmptyString) by (apply String.eqb_neq; exact He).
  rewrite (parseTagSegment_nonempty t Hne). unfold afterTags. cbn [orb].
  destruct (starts_with "@" t) eqn:Hat; cbn [andb orb].
  - destruct (-1 <? gostrings.Index t " ") eqn:Hsp; cbn [negb orb andb bind]; [|reflexivity].
    set (m := gostrings.slice_from t (gostrings.Index t " " + 1)).
    destruct (String.eqb m "") eqn:Hm.
    + apply String.eqb_eq in Hm. rewrite Hm. reflexivity.
    + apply String.eqb_neq in Hm.
      apply (bind_parseSource_outcome m); [exact Hm|].
      intros [[src [[n u] h]] r]. reflexivity.
  - cbn [bind].
    apply (bind_parseSource_outcome t); [exact Hne|].
    intros [[src [[n u] h]] r]. reflexivity.
Qed.

End ParserFacts.

(** C4, as stated, fails: a line that is only a source is not empty once
    trimmed, and the parser returns the error for it. *)
Lemma parseToEvent_rejects_source_only :
  trimLine (":irc.example.net" +:+ CR +:+ LF) <> "" /\
  parseToEvent gostrings.ToUpperASCII (":irc.example.net" +:+ CR +:+ LF) = Err malformed.
Proof. split; [discriminate | reflexivity]. Qed.

(** The same holds for a tag segment that no space ends. *)
Example parseToEvent_rejects_tags_only :
  parseToEvent gostrings.ToUpperASCII "@time=12" = Err malformed.
Proof. reflexivity. Qed.

(** Behind a tag segment that ends the line, the source test reads the first
    byte of an empty string. *)
Example parseToEvent_bare_tags_panic :
  parseToEvent gostrings.ToUpperASCII "@time=12 " = Panic index_out_of_range.
Proof. reflexivity. Qed.

(** C4, amended: for a line that is not a bare tag segment, the parser
    returns an error exactly when the trimmed line is empty, or opens a tag
    segment that no space ends, or (behind its tags) opens a source that no
    space ends; in every other case it returns an Event.  No length is
    required. *)
Theorem parseToEvent_error_exactly (ToUpper : string -> string) (msg : string) :
  tagsOnly (trimLine msg) = false ->
  (is_Err (parseToEvent ToUpper msg) = true <-> rejected (trimLine msg) = true) /\
  (is_Ok (parseToEvent ToUpper msg) = true <-> rejected (trimLine msg) = false).
Proof.
  intros Hto. pose proof (parseToEvent_outcome ToUpper msg) as H. cbv zeta in H.
  rewrite Hto in H.
  destruct (rejected (trimLine msg)).
  - rewrite H. cbn. split; split; intros; congruence.
  - destruct (parseToEvent ToUpper msg); cbn in H |- *; try discriminate.
    split; split; intros; congruence.
Qed.

Lemma parseToEvent_error_exactly_witness :
  tagsOnly (trimLine "PING") = false /\
  (is_Ok (parseToEvent gostrings.ToUpperASCII "PING") = true <->
   rejected (trimLine "PING") = false).
Proof.
  split; [reflexivity|].
  apply (parseToEvent_error_exactly gostrings.ToUpperASCII "PING"). reflexivity.
Defined.

(** Every line whose first byte is neither [@] nor [:] parses, however
    short. *)
Lemma parseToEvent_plain_command (ToUpper : string -> string) (msg : string) :
  trimLine msg <> "" ->
  starts_with "@" (trimLine msg) = false ->
  starts_with ":" (trimLine msg) = false ->
  is_Ok (parseToEvent ToUpper msg) = true.
Proof.
  intros Hne Hat Hcolon.
  pose proof (parseToEvent_outcome ToUpper msg) as H. cbv zeta in H.
  assert (Hr : rejected (trimLine msg) = false).
  { unfold rejected, afterTags. rewrite Hat. cbn [andb orb]. rewrite Hcolon.
    apply String.eqb_neq in Hne. rewrite Hne. reflexivity. }
  assert (Ht : tagsOnly (trimLine msg) = false) by (unfold tagsOnly; rewrite Hat; reflexivity).
  rewrite Hr, Ht in H. exact H.
Qed.

(** ** Tag values *)

Example unescape_table :
  unescapeTagValue "a\:b\sc\\d\re\nf" = "a;b c\d" +:+ CR +:+ "e" +:+ LF +:+ "f".
Proof. reflexivity. Qed.

(** C5 at its failing input: the value made of a backslash and an [s] is
    encoded as two backslashes and an [s]; the second replacement pass then
    takes the second backslash and the [s] for an escaped space. *)
Lemma unescape_escape_backslash_s :
  escapeTagValue "\s" = "\\s" /\
  unescapeTagValue (escapeTagValue "\s") = "\ " /\
  unescapeTagValue (escapeTagValue "\s") <> "\s".
Proof. split; [reflexivity | split; [reflexivity | discriminate]]. Qed.

(** *** The round trip on values without a backslash *)

Lemma Replace_other_byte (c letter : ascii) (rest new : string) :
  c <> "\"%char ->
  gostrings.Replace (String c rest) (escapeSequence letter) new
  = String c (gostrings.Replace rest (escapeSequence letter) new).
Proof.
  intros Hc. unfold gostrings.Replace, escapeSequence. cbn.
  apply Ascii.eqb_neq in Hc. rewrite Hc. reflexivity.
Qed.

Lemma Replace_this_sequence (letter : ascii) (rest new : string) :
  gostrings.Replace (String "\" (String letter rest)) (escapeSequence letter) new
  = new +:+ gostrings.Replace rest (escapeSequence letter) new.
Proof.
  unfold gostrings.Replace, escapeSequence. cbn. rewrite Ascii.eqb_refl. reflexivity.
Qed.

Lemma Replace_other_sequence (l letter : ascii) (rest new : string) :
  l <> letter -> l <> "\"%char ->
  gostrings.Replace (String "\" (String l rest)) (escapeSequence letter) new
  = String "\" (String l (gostrings.Replace rest (escapeSequence letter) new)).
Proof.
  intros Hl Hb. unfold gostrings.Replace, escapeSequence. cbn.
  apply Ascii.eqb_neq in Hl, Hb. rewrite Hl, Hb. reflexivity.
Qed.

(** One replacement pass undoes the rows of the table that give its
    letter, provided they all escape the byte that the pass restores. *)
Lemma Replace_undoes_rows (table : ascii -> option ascii) (letter byte : ascii) (s : string) :
  noBackslash s = true ->
  (forall c l, table c = Some l -> l <> "\"%char) ->
  (forall c, table c = Some letter -> c = byte) ->
  gostrings.Replace (escapeWith table s) (escapeSequence letter) (String byte "")
  = escapeWith (withoutLetter letter table) s.
Proof.
  intros Hs Hl Hb. induction s as [|c s IH]; [reflexivity|].
  cbn [noBackslash] in Hs. apply andb_true_iff in Hs. destruct Hs as [Hc Hs].
  apply negb_true_iff, Ascii.eqb_neq in Hc. specialize (IH Hs).
  cbn [escapeWith]. unfold withoutLetter at 1.
  destruct (table c) as [l|] eqn:E.
  - destruct (Ascii.eqb l letter) eqn:El.
    + apply Ascii.eqb_eq in El. subst l.
      rewrite Replace_this_sequence, IH, (Hb c E). reflexivity.
    + apply Ascii.eqb_neq in El.
      rewrite (Replace_other_sequence l letter _ _ El (Hl c l E)), IH. reflexivity.
  - rewrite (Replace_other_byte c letter _ _ Hc), IH. reflexivity.
Qed.

Lemma escapeWith_none (f : ascii -> option ascii) (s : string) :
  (forall c, f c = None) -> escapeWith f s = s.
Proof.
  intros H. induction s as [|c s IH]; [reflexivity|].
  cbn [escapeWith]. rewrite H, IH. reflexivity.
Qed.

Lemma escapeTagValue_noBackslash (s : string) :
  noBackslash s = true -> escapeTagValue s = escapeWith tableNoBackslash s.
Proof.
  induction s as [|c s IH]; [reflexivity|]. cbn [noBackslash].
  intros H. apply andb_true_iff in H. destruct H as [Hc Hs].
  apply negb_true_iff in Hc. cbn [escapeTagValue escapeWith]. rewrite (IH Hs).
  unfold escapeByte, tableNoBackslash. rewrite Hc.
  destruct (Ascii.eqb c ";"); [reflexivity|].
  destruct (Ascii.eqb c " "); [reflexivity|].
  destruct (Ascii.eqb c "013"); [reflexivity|].
  destruct (Ascii.eqb c "010"); reflexivity.
Qed.

Lemma table_letters (c l : ascii) :
  tableNoBackslash c = Some l ->
  (l = ":"%char /\ c = ";"%char) \/ (l = "s"%char /\ c = " "%char)
  \/ (l = "r"%char /\ c = "013"%char) \/ (l = "n"%char /\ c = "010"%char).
Proof.
  unfold tableNoBackslash.
  destruct (Ascii.eqb c ";") eqn:E1; [apply Ascii.eqb_eq in E1; intros [= <-]; tauto|].
  destruct (Ascii.eqb c " ") eqn:E2; [apply Ascii.eqb_eq in E2; intros [= <-]; tauto|].
  destruct (Ascii.eqb c "013") eqn:E3; [apply Ascii.eqb_eq in E3; intros [= <-]; tauto|].
  destruct (Ascii.eqb c "010") eqn:E4; [apply Ascii.eqb_eq in E4; intros [= <-]; tauto|].
  discriminate.
Qed.

Lemma withoutLetter_sub (letter : ascii) (table : ascii -> option ascii) (c l : ascii) :
  withoutLetter letter table c = Some l -> table c = Some l /\ l <> letter.
Proof.
  unfold withoutLetter. destruct (table c) as [l0|]; [|discriminate].
  destruct (Ascii.eqb l0 letter) eqn:E; [discriminate|].
  intros [= <-]. apply Ascii.eqb_neq in E. split; [reflexivity | exact E].
Qed.

(** On a value without a backslash the five passes undo the encoding. *)
Lemma unescape_escape_noBackslash (s : string) :
  noBackslash s = true -> unescapeTagValue (escapeTagValue s) = s.
Proof.
  intros Hs. rewrite (escapeTagValue_noBackslash s Hs). unfold unescapeTagValue, CR, LF.
  set (t1 := withoutLetter ":" tableNoBackslash).
  set (t2 := withoutLetter "s" t1).
  set (t3 := withoutLetter "\" t2).
  set (t4 := withoutLetter "r" t3).
  set (t5 := withoutLetter "n" t4).
  assert (H0 : forall c l, tableNoBackslash c = Some l -> l <> "\"%char).
  { intros c l H. destruct (table_letters c l H) as [[-> _]|[[-> _]|[[-> _]|[-> _]]]];
      discriminate. }
  assert (H1 : forall c l, t1 c = Some l -> tableNoBackslash c = Some l /\ l <> ":"%char)
    by (intros c l; apply withoutLetter_sub).
  assert (H2 : forall c l, t2 c = Some l -> t1 c = Some l /\ l <> "s"%char)
    by (intros c l; apply withoutLetter_sub).
  assert (H3 : forall c l, t3 c = Some l -> t2 c = Some l /\ l <> "\"%char)
    by (intros c l; apply withoutLetter_sub).
  assert (H4 : forall c l, t4 c = Some l -> t3 c = Some l /\ l <> "r"%char)
    by (intros c l; apply withoutLetter_sub).
  assert (H5 : forall c l, t5 c = Some l -> t4 c = Some l /\ l <> "n"%char)
    by (intros c l; apply withoutLetter_sub).
  change "\:" with (escapeSequence ":"). change "\s" with (escapeSequence "s").
  change "\\" with (escapeSequence "\"). change "\r" with (escapeSequence "r").
  change "\n" with (escapeSequence "n").
  rewrite (Replace_undoes_rows tableNoBackslash ":" ";" s Hs H0).
  2:{ intros c H. destruct (table_letters c _ H) as [[_ ->]|[[? _]|[[? _]|[? _]]]];
        [reflexivity | discriminate | discriminate | discriminate]. }
  fold t1.
  rewrite (Replace_undoes_rows t1 "s" " " s Hs).
  2:{ intros c l H. apply (H0 c). apply H1. exact H. }
  2:{ intros c H. apply H1 in H. destruct H as [H _].
      destruct (table_letters c _ H) as [[? _]|[[_ ->]|[[? _]|[? _]]]];
        [discriminate | reflexivity | discriminate | discriminate]. }
  fold t2.
  rewrite (Replace_undoes_rows t2 "\" "\" s Hs).
  2:{ intros c l H. apply (H0 c). apply H1, H2. exact H. }
  2:{ intros c H. apply H2 in H. destruct H as [H _]. apply H1 in H. destruct H as [H _].
      exfalso. exact (H0 c _ H eq_refl). }
  fold t3.
  rewrite (Replace_undoes_rows t3 "r" "013" s Hs).
  2:{ intros c l H. apply (H0 c). apply H1, H2, H3. exact H. }
  2:{ intros c H. apply H3 in H. destruct H as [H _]. apply H2 in H. destruct H as [H _].
      apply H1 in H. destruct H as [H _].
      destruct (table_letters c _ H) as [[? _]|[[? _]|[[_ ->]|[? _]]]];
        [discriminate | discriminate | reflexivity | discriminate]. }
  fold t4.
  rewrite (Replace_undoes_rows t4 "n" "010" s Hs).
  2:{ intros c l H. apply (H0 c). apply H1, H2, H3, H4. exact H. }
  2:{ intros c H. apply H4 in H. destruct H as [H _]. apply H3 in H. destruct H as [H _].
      apply H2 in H. destruct H as [H _]. apply H1 in H. destruct H as [H _].
      destruct (table_letters c _ H) as [[? _]|[[? _]|[[? _]|[_ ->]]]];
        [discriminate | discriminate | discriminate | reflexivity]. }
  fold t5.
  apply escapeWith_none. intros c. destruct (t5 c) as [l|] eqn:E; [|reflexivity].
  exfalso. destruct (H5 c l E) as [E4 N5]. destruct (H4 c l E4) as [E3 N4].
  destruct (H3 c l E3) as [E2 _]. destruct (H2 c l E2) as [E1 N2].
  destruct (H1 c l E1) as [E0 N1].
  destruct (table_letters c l E0) as [[? _]|[[? _]|[[? _]|[? _]]]]; congruence.
Qed.

Lemma unescape_escape_noBackslash_witness :
  unescapeTagValue (escapeTagValue "a b;c") = "a b;c".
Proof. apply unescape_escape_noBackslash. reflexivity. Defined.

(** ** Substrings *)

Lemma HasPrefix_occurs (prefix s : string) :
  gostrings.HasPrefix s prefix = true <-> exists b : string, s = prefix +:+ b.
Proof.
  revert s. induction prefix as [|p prefix IH]; intros s; cbn.
  - split; [intros _; exists s; reflexivity | reflexivity].
  - destruct s as [|c s].
    + split; [discriminate | intros [b Hb]; discriminate].
    + rewrite andb_true_iff, Ascii.eqb_eq, IH. split.
      * intros [-> [b ->]]. exists b. reflexivity.
      * intros [b Hb]. injection Hb as -> ->. split; [reflexivity | exists b; reflexivity].
Qed.

Lemma Index_lower_bound (s sep : string) : -1 <= gostrings.Index s sep.
Proof.
  induction s as [|c s IH]; cbn.
  - destruct (gostrings.HasPrefix "" sep); lia.
  - destruct (gostrings.HasPrefix (String c s) sep); [lia|].
    destruct (gostrings.Index s sep <? 0) eqn:E; [lia|]. apply Z.ltb_ge in E. lia.
Qed.

Lemma occursIn_cons (pattern : string) (c : ascii) (s : string) :
  occursIn pattern (String c s) <->
  gostrings.HasPrefix (String c s) pattern = true \/ occursIn pattern s.
Proof.
  rewrite HasPrefix_occurs. split.
  - intros [[|a0 a] [b H]].
    + left. exists b. exact H.
    + right. cbn in H. injection H as _ ->. exists a, b. reflexivity.
  - intros [[b H] | [a [b H]]].
    + exists ""%string, b. exact H.
    + exists (String c a), b. cbn. rewrite H. reflexivity.
Qed.

Lemma occursIn_empty (pattern : string) :
  occursIn pattern "" <-> gostrings.HasPrefix "" pattern = true.
Proof.
  rewrite HasPrefix_occurs. split.
  - intros [[|a0 a] [b H]]; [exists b; exact H | discriminate].
  - intros [b H]. exists ""%string, b. exact H.
Qed.

(** [strings.Contains] decides the substring relation. *)
Lemma Contains_occurs (s pattern : string) :
  gostrings.Contains s pattern = true <-> occursIn pattern s.
Proof.
  unfold gostrings.Contains. rewrite Z.leb_le.
  induction s as [|c s IH].
  - rewrite occursIn_empty. cbn. destruct (gostrings.HasPrefix "" pattern); split; (lia || congruence).
  - rewrite occursIn_cons. cbn [gostrings.Index].
    destruct (gostrings.HasPrefix (String c s) pattern).
    + split; [left; reflexivity | lia].
    + pose proof (Index_lower_bound s pattern).
      destruct (gostrings.Index s pattern <? 0) eqn:E.
      * apply Z.ltb_lt in E. split; [lia|]. intros [? | Ho]; [discriminate|].
        apply IH in Ho. lia.
      * apply Z.ltb_ge in E. split; [intros _; right; apply IH; lia | lia].
Qed.

Lemma anyContains_matches (errorLower : string) (family : list string) :
  anyContains errorLower family = true <-> familyMatches family errorLower.
Proof.
  induction family as [|p family IH]; cbn.
  - split; [discriminate | intros [q [[] _]]].
  - destruct (gostrings.Contains errorLower p) eqn:E.
    + split; [|reflexivity]. intros _. exists p. split; [left; reflexivity|].
      apply Contains_occurs. exact E.
    + rewrite IH. split.
      * intros [q [Hin Ho]]. exists q. split; [right; exact Hin | exact Ho].
      * intros [q [[<- | Hin] Ho]].
        -- apply Contains_occurs in Ho. congruence.
        -- exists q. split; assumption.
Qed.

(** ** Failure classification *)

Example Analyze_kline :
  AnalyzeErrorMessage gostrings.ToLowerASCII "Closing Link: You are K-Lined (connection limit)"
  = PermanentError.
Proof. reflexivity. Qed.

Example Analyze_unknown :
  AnalyzeErrorMessage gostrings.ToLowerASCII "Closing Link: something new" = RecoverableError.
Proof. reflexivity. Qed.

(** C6: the lower-cased text is matched against the families in the order
    Permanent, Server, Network, Recoverable, the first family with a pattern
    occurring in it as a substring deciding; a text in which no pattern of
    any family occurs is Recoverable, and so not Permanent. *)
Theorem AnalyzeErrorMessage_first_family (ToLower : string -> string) (errorMsg : string) :
  let l := ToLower errorMsg in
  let r := AnalyzeErrorMessage ToLower errorMsg in
  (familyMatches permanentPatterns l -> r = PermanentError) /\
  (~ familyMatches permanentPatterns l -> familyMatches serverPatterns l ->
   r = ServerError) /\
  (~ familyMatches permanentPatterns l -> ~ familyMatches serverPatterns l ->
   familyMatches networkPatterns l -> r = NetworkError) /\
  (~ familyMatches permanentPatterns l -> ~ familyMatches serverPatterns l ->
   ~ familyMatches networkPatterns l -> familyMatches recoverablePatterns l ->
   r = RecoverableError) /\
  (~ familyMatches (permanentPatterns ++ serverPatterns ++ networkPatterns
                    ++ recoverablePatterns) l ->
   r = RecoverableError /\ r <> PermanentError).
Proof.
  intros l r. subst r. unfold AnalyzeErrorMessage. fold l.
  assert (Hall : forall fam, In fam [permanentPatterns; serverPatterns; networkPatterns] ->
                 familyMatches fam l ->
                 familyMatches (permanentPatterns ++ serverPatterns ++ networkPatterns
                                ++ recoverablePatterns) l).
  { intros fam Hfam [q [Hin Ho]]. exists q. split; [|exact Ho].
    rewrite !in_app_iff. cbn in Hfam.
    destruct Hfam as [<- | [<- | [<- | []]]]; tauto. }
  pose proof (Hall permanentPatterns ltac:(cbn; tauto)) as Hap.
  pose proof (Hall serverPatterns ltac:(cbn; tauto)) as Has.
  pose proof (Hall networkPatterns ltac:(cbn; tauto)) as Han.
  clear Hall.
  pose proof (anyContains_matches l permanentPatterns) as Hp.
  pose proof (anyContains_matches l serverPatterns) as Hs.
  pose proof (anyContains_matches l networkPatterns) as Hn.
  destruct (anyContains l permanentPatterns);
    [ assert (familyMatches permanentPatterns l) by (apply Hp; reflexivity)
    | assert (~ familyMatches permanentPatterns l) by (rewrite <- Hp; discriminate) ];
    clear Hp; [ intuition congruence | ].
  destruct (anyContains l serverPatterns);
    [ assert (familyMatches serverPatterns l) by (apply Hs; reflexivity)
    | assert (~ familyMatches serverPatterns l) by (rewrite <- Hs; discriminate) ];
    clear Hs; [ intuition congruence | ].
  destruct (anyContains l networkPatterns);
    [ assert (familyMatches networkPatterns l) by (apply Hn; reflexivity)
    | assert (~ familyMatches networkPatterns l) by (rewrite <- Hn; discriminate) ];
    clear Hn; [ intuition congruence | ].
  destruct (anyContains l recoverablePatterns); intuition congruence.
Qed.

(** ** The nickname state machine *)

Example sample_events_parse :
  IRC 0 "bob" "bob" = Some bob_session /\
  parseToEvent gostrings.ToUpperASCII (Raw welcome_bob) = Ok welcome_bob /\
  parseToEvent gostrings.ToUpperASCII (Raw in_use_bob) = Ok in_use_bob /\
  parseToEvent gostrings.ToUpperASCII (Raw in_use_alice) = Ok in_use_alice /\
  parseToEvent gostrings.ToUpperASCII (Raw renamed_to_guest) = Ok renamed_to_guest /\
  parseToEvent gostrings.ToUpperASCII (Raw renamed_to_alice) = Ok renamed_to_alice.
Proof. repeat split. Qed.

Lemma run_reachable (inputs : list (Time * Input)) (c c' : Connection) :
  reachable c -> run inputs c = Ok c' -> reachable c'.
Proof.
  revert c. induction inputs as [|[now i] rest IH]; intros c Hc Hrun; cbn in Hrun.
  - injection Hrun as <-. exact Hc.
  - destruct (step now i c) as [c1| |] eqn:Hstep; cbn in Hrun; try discriminate.
    apply (IH c1); [|exact Hrun]. exact (reachable_step now i c c1 Hc Hstep).
Qed.

(** [Nick] never touches the current nickname. *)
Lemma Nick_request_keeps_current (now : Time) (n : string) (c : Connection) :
  nickcurrent (Nick_request now n c) = nickcurrent c.
Proof.
  unfold Nick_request.
  destruct (nickChangeInProgress c && (now - nickChangeTimeout c <? 30 * Second));
    [reflexivity|].
  cbn. destruct (negb (String.eqb (nickcurrent c) n)); reflexivity.
Qed.

Lemma on484_keeps_current (now : Time) (e : Event) (c : Connection) :
  nickcurrent (on484 now e c) = nickcurrent c.
Proof. reflexivity. Qed.

(** The NICK callback changes the current nickname only for a message whose
    source nick is the current nickname. *)
Lemma onNICK_changes_from_current (now : Time) (e : Event) (c : Connection) :
  nickcurrent (onNICK now e c) <> nickcurrent c -> Nick e = nickcurrent c.
Proof.
  unfold onNICK. destruct (String.eqb (Nick e) (nickcurrent c)) eqn:E.
  - intros _. apply String.eqb_eq. exact E.
  - congruence.
Qed.

(** Where the current nickname changes: on 001, on a NICK message from the
    current nickname, and on the rejection replies that try another one. *)
Lemma current_changes_classified (now : Time) (i : Input) (c c' : Connection) :
  step now i c = Ok c' ->
  nickcurrent c' <> nickcurrent c ->
  exists e : Event,
    i = Received e /\
    (Code e = "001" \/ (Code e = "NICK" /\ Nick e = nickcurrent c)
     \/ In (Code e) rejectionCodes).
Proof.
  destruct i as [e|n]; cbn [step].
  - intros Hstep Hneq. exists e. split; [reflexivity|].
    unfold dispatch in Hstep. unfold rejectionCodes. cbn [In].
    repeat match type of Hstep with
           | (if String.eqb (Code e) ?s then _ else _) = _ =>
               let E := fresh "E" in
               destruct (String.eqb (Code e) s) eqn:E;
               [apply String.eqb_eq in E | clear E]
           end;
      try solve [right; right; match goal with E : Code e = _ |- _ => rewrite E end; tauto].
    + injection Hstep as <-. rewrite on484_keeps_current in Hneq. congruence.
    + injection Hstep as <-. right. left. split; [exact E|].
      apply (onNICK_changes_from_current now). exact Hneq.
    + left. assumption.
    + injection Hstep as <-. congruence.
  - intros Hstep Hneq. injection Hstep as <-.
    rewrite Nick_request_keeps_current in Hneq. congruence.
Qed.

(** C1 at its failing input: in the session registered as bob that asked
    for alice, a reachable state, the 433 reply for alice rewrites the current
    nickname to [bob_], though it is neither the 001 reply nor a NICK
    message. *)
Lemma rejection_rewrites_current :
  exists c c' : Connection,
    run wants_alice bob_session = Ok c /\ reachable c /\
    step 3 (Received in_use_alice) c = Ok c' /\
    GetNick c = "bob" /\ GetNick c' = "bob_" /\
    Code in_use_alice <> "001" /\ Code in_use_alice <> "NICK".
Proof.
  destruct (run wants_alice bob_session) as [c| |] eqn:Hrun; try discriminate.
  exists c, (on433 3 in_use_alice c).
  assert (Hr : reachable c).
  { apply (run_reachable wants_alice bob_session); [|exact Hrun].
    apply (reachable_IRC 0 "bob" "bob"). reflexivity. }
  vm_compute in Hrun. injection Hrun as <-.
  repeat split; try reflexivity; try exact Hr; discriminate.
Qed.

(** The 433 callback does the same before and after registration. *)
Lemma on433_ignores_registration (now : Time) (e : Event) (b : bool) (c : Connection) :
  on433 now e (set_fullyConnected b c) = set_fullyConnected b (on433 now e c).
Proof.
  unfold on433, retryModified. cbn.
  destruct (1 <? Z.of_nat (length (Arguments e))); [|reflexivity].
  destruct (String.eqb (nth 1 (Arguments e) "") (nick c)); [|reflexivity].
  unfold seedCurrent, modifyNick. cbn.
  destruct (String.eqb (nickcurrent c) ""); cbn;
    match goal with |- context [8 <? ?x] => destruct (8 <? x) end; reflexivity.
Qed.

(** What the 433 callback does for the desired nickname when it is also the
    current one: the alternative is written into the current nickname and
    sent; the pending nickname is left as it was. *)
Lemma on433_effect (now : Time) (e : Event) (c : Connection) :
  nth_error (Arguments e) 1 = Some (nick c) ->
  nickcurrent c = nick c ->
  nick c <> "" ->
  gostrings.len (nick c) <= 8 ->
  let c' := on433 now e c in
  nickcurrent c' = nick c +:+ "_" /\
  nickPending c' = nickPending c /\
  nick c' = nick c /\
  pwrite c' = pwrite c ++ [("NICK " +:+ nick c +:+ "_") +:+ CR +:+ LF].
Proof.
  intros Harg Hcur Hne Hlen. unfold on433, retryModified. cbn.
  assert (Hl : (1 <? Z.of_nat (length (Arguments e))) = true).
  { apply Z.ltb_lt. assert (1 < length (Arguments e))%nat; [|lia].
    apply nth_error_Some. congruence. }
  rewrite Hl. rewrite (nth_error_nth _ _ _ Harg). rewrite String.eqb_refl.
  unfold seedCurrent. cbn. rewrite Hcur.
  apply String.eqb_neq in Hne. rewrite Hne.
  unfold modifyNick. cbn. rewrite Hcur.
  assert (Hs : (8 <? gostrings.len (nick c)) = false) by (apply Z.ltb_ge; lia).
  rewrite Hs. cbn. repeat split; reflexivity.
Qed.

Lemma on433_effect_witness :
  nickcurrent (on433 1 in_use_bob bob_session) = "bob_" /\
  nickPending (on433 1 in_use_bob bob_session) = "" /\
  nick (on433 1 in_use_bob bob_session) = "bob" /\
  pwrite (on433 1 in_use_bob bob_session) = ["NICK bob_" +:+ CR +:+ LF].
Proof.
  apply (on433_effect 1 in_use_bob bob_session);
    [reflexivity | reflexivity | discriminate | vm_compute; discriminate].
Defined.

(** C2 at its failing input: before registration, once NICK bob is sent, the
    433 reply for bob makes the client send NICK bob_; the candidate is
    written into the current nickname, which [GetNick] returns, and the
    pending nickname stays bob. *)
Lemma in_use_reply_stages_in_current :
  let c := Connect_attempt [] bob_session in
  let c' := on433 1 in_use_bob c in
  nick c = "bob" /\ GetNick c = "bob" /\ nickPending c = "bob" /\ fullyConnected c = false /\
  pwrite c = ["NICK bob" +:+ CR +:+ LF; "USER bob 0 * :bob" +:+ CR +:+ LF] /\
  GetNick c' = "bob_" /\ nickPending c' = "bob" /\
  pwrite c' = pwrite c ++ ["NICK bob_" +:+ CR +:+ LF].
Proof. cbv zeta. repeat split. Qed.

(** What the NICK callback does for a message from the current nickname:
    the announced nickname becomes the current one and, whatever the desired
    nickname was, the desired one; the error and the in-progress flag are
    cleared. *)
Lemma onNICK_confirms (now : Time) (e : Event) (c : Connection) :
  Nick e = nickcurrent c ->
  Message e <> "" ->
  let c' := onNICK now e c in
  nickcurrent c' = Message e /\ nick c' = Message e /\
  nickError c' = "" /\ nickChangeInProgress c' = false /\
  nickPending c' = nickPending c.
Proof.
  intros Hn Hm. unfold onNICK. rewrite Hn, String.eqb_refl.
  apply String.eqb_neq in Hm. rewrite Hm. cbn. repeat split; reflexivity.
Qed.

Lemma onNICK_confirms_witness :
  nickcurrent (onNICK 1 renamed_to_alice bob_session) = "alice" /\
  nick (onNICK 1 renamed_to_alice bob_session) = "alice" /\
  nickError (onNICK 1 renamed_to_alice bob_session) = "" /\
  nickChangeInProgress (onNICK 1 renamed_to_alice bob_session) = false /\
  nickPending (onNICK 1 renamed_to_alice bob_session) = "".
Proof.
  apply (onNICK_confirms 1 renamed_to_alice bob_session); [reflexivity | discriminate].
Defined.

(** The sibling callback keeps a desired nickname that differs from the old
    current one. *)
Lemma onNICK_sibling_keeps_diverged (now : Time) (e : Event) (c : Connection) :
  Nick e = nickcurrent c ->
  Message e <> "" ->
  nick c <> nickcurrent c ->
  nickcurrent (onNICK_sibling now e c) = Message e /\
  nick (onNICK_sibling now e c) = nick c /\
  nickError (onNICK_sibling now e c) = "".
Proof.
  intros Hn Hm Hd. unfold onNICK_sibling. rewrite Hn, String.eqb_refl.
  apply String.eqb_neq in Hm. rewrite Hm. cbn.
  apply String.eqb_neq in Hd. rewrite Hd. cbn. repeat split; reflexivity.
Qed.

(** C3 at its failing input: the session registered as bob has asked for
    alice; the server renames bob to Guest42.  The callback overwrites the
    desired nickname alice with Guest42, and leaves alice as the pending one;
    the sibling callback keeps alice as the desired nickname. *)
Lemma rename_overwrites_desired :
  exists c : Connection,
    run wants_alice bob_session = Ok c /\
    nick c = "alice" /\ GetNick c = "bob" /\ Nick renamed_to_guest = GetNick c /\
    GetNick (onNICK 3 renamed_to_guest c) = "Guest42" /\
    nick (onNICK 3 renamed_to_guest c) = "Guest42" /\
    nickPending (onNICK 3 renamed_to_guest c) = "alice" /\
    nick (onNICK_sibling 3 renamed_to_guest c) = "alice".
Proof.
  destruct (run wants_alice bob_session) as [c| |] eqn:Hrun; try discriminate.
  exists c. vm_compute in Hrun. injection Hrun as <-. repeat split.
Qed.

(** ** The control loop *)

Example ping_timeout_classified :
  parseToEvent gostrings.ToUpperASCII (Raw ping_timeout) = Ok ping_timeout /\
  AnalyzeErrorMessage gostrings.ToLowerASCII (Message ping_timeout) = RecoverableError /\
  readLoop_event gostrings.ToLowerASCII gostrings.ToUpperASCII bob_session ping_timeout
  = PostError true recoverable_failure.
Proof. repeat split. Qed.

(** A successful reconnect leaves the counter at zero. *)
Lemma reconnectLoop_resets (errStr : string) (results rest : list (option string))
      (c c' : Connection) (acts : list LoopAction) :
  reconnectLoop errStr results c = (Reconnected rest, acts, c') ->
  recoverableReconnects c' = 0.
Proof.
  revert c acts. induction results as [|r results IH]; intros c acts; cbn.
  - destruct (quit c); discriminate.
  - destruct (quit c); [discriminate|].
    destruct r as [e|].
    + match goal with
      | |- context [reconnectLoop errStr results ?c0] =>
          destruct (reconnectLoop errStr results c0) as [[x a] c1] eqn:E
      end.
      intros H. injection H as -> _ ->. exact (IH _ _ E).
    + intros H. injection H as _ _ <-. reflexivity.
Qed.

(** The ceiling is tested only where the counter is zero: whatever the
    configured maximum, the errors received and the results of the reconnects,
    the loop never returns for the ceiling. *)
Lemma Loop_never_halts_at_ceiling (errs : list string) (results : list (option string))
      (c : Connection) :
  recoverableReconnects c = 0 ->
  outcome (Loop errs results c) <> HaltCeiling.
Proof.
  revert results c. induction errs as [|errStr errs IH]; intros results c H0; cbn.
  - destruct (quit c); discriminate.
  - destruct (quit c); [discriminate|].
    destruct (HandleErrorAsDisconnect c
              && gostrings.Contains errStr "Received permanent ERROR from server:");
      [discriminate|].
    rewrite H0.
    assert (Hc : (0 <? MaxRecoverableReconnects c) && (MaxRecoverableReconnects c <=? 0) = false).
    { destruct (0 <? MaxRecoverableReconnects c) eqn:E1; [|reflexivity].
      apply Z.ltb_lt in E1. apply Z.leb_gt. exact E1. }
    rewrite <- andb_assoc, Hc, andb_false_r.
    destruct (reconnectLoop errStr results c) as [[x acts] c'] eqn:E.
    destruct x as [rest| |]; cbn; try discriminate.
    apply IH. exact (reconnectLoop_resets _ _ _ _ _ _ E).
Qed.

Lemma Loop_never_halts_at_ceiling_witness :
  outcome (Loop [recoverable_failure; recoverable_failure] [None; None] bob_session)
  <> HaltCeiling.
Proof. apply Loop_never_halts_at_ceiling. reflexivity. Defined.

(** C7 at its failing input: with the maximum at 3, four Recoverable
    failures in a row, each followed by a reconnect that succeeds; the loop
    reconnects a fourth time and goes on waiting for the next error. *)
Lemma fourth_recoverable_failure_reconnects :
  let r := Loop [recoverable_failure; recoverable_failure;
                 recoverable_failure; recoverable_failure]
                [None; None; None; None] bob_session in
  MaxRecoverableReconnects bob_session = 3 /\
  HandleErrorAsDisconnect bob_session = true /\
  outcome r = AwaitingError /\
  actions r = [CallReconnect; CallReconnect; CallReconnect; CallReconnect] /\
  reconnectCalls r = 4%nat.
Proof. cbv zeta. repeat split. Qed.

(** Nor does the ceiling bound the attempts made for one failure: the
    counter passes 3 while the reconnects fail, and nothing reads it. *)
Example failing_reconnects_not_bounded :
  let r := Loop [recoverable_failure]
                [Some "dial tcp: timeout"; Some "dial tcp: timeout"; Some "dial tcp: timeout";
                 Some "dial tcp: timeout"; Some "dial tcp: timeout"] bob_session in
  outcome r = AwaitingReconnect /\ reconnectCalls r = 5%nat /\
  recoverableReconnects (final r) = 5.
Proof. cbv zeta. repeat split. Qed.

(** ** Registration during the handshake *)

Lemma registrations_app (c : Connection) (lines : list string) :
  registrationsSent (set_pwrite (pwrite c ++ lines) c)
  = (registrationsSent c
     + length (List.filter (fun line => gostrings.HasPrefix line "NICK ") lines))%nat.
Proof. unfold registrationsSent. cbn. rewrite List.filter_app, length_app. reflexivity. Qed.

Lemma capRequests_no_registration (listed requested : list string) :
  List.filter (fun line => gostrings.HasPrefix line "NICK ") (capRequests listed requested) = [].
Proof.
  unfold capRequests. induction listed as [|cap listed IH]; [reflexivity|].
  cbn [flat_map]. rewrite List.filter_app, IH, app_nil_r. clear IH.
  induction requested as [|req requested IHr]; [reflexivity|].
  cbn [flat_map]. rewrite List.filter_app, IHr, app_nil_r.
  destruct (String.eqb cap req); reflexivity.
Qed.

Lemma enqueueRegistration_counts (c : Connection) :
  registrationsSent (enqueueRegistration c) = S (registrationsSent c).
Proof.
  unfold enqueueRegistration. rewrite registrations_app.
  match goal with |- (_ + ?n)%nat = _ => change n with 1%nat end. lia.
Qed.

(** The flag and the count go together: a handshake event sends the
    registration exactly when it finds the flag down, and raises it. *)
Lemma handshakeStep_flag (c : Connection) (ev : HandshakeEvent) :
  sentRegistration (handshakeStep c ev) = sentRegistration c || isTrigger ev /\
  registrationsSent (handshakeStep c ev)
  = (registrationsSent c
     + if negb (sentRegistration c) && isTrigger ev then 1 else 0)%nat.
Proof.
  destruct ev as [e|]; cbn [handshakeStep isTrigger].
  - unfold onCAP.
    destruct (Z.of_nat (length (Arguments e)) <? 2); cbn [negb andb].
    { rewrite orb_false_r, andb_false_r. split; [reflexivity | lia]. }
    destruct (String.eqb (nth 1 (Arguments e) "") "LS").
    2:{ rewrite orb_false_r, andb_false_r. split; [reflexivity | lia]. }
    set (c1 := if 3 <=? Z.of_nat (length (Arguments e)) then _ else c).
    assert (H1 : sentRegistration c1 = sentRegistration c /\
                 registrationsSent c1 = registrationsSent c).
    { subst c1. destruct (3 <=? Z.of_nat (length (Arguments e))); [|split; reflexivity].
      split; [reflexivity|]. rewrite registrations_app, capRequests_no_registration.
      cbn. lia. }
    destruct H1 as [Hs Hr]. rewrite <- Hs, <- Hr.
    destruct (sentRegistration c1) eqn:E; cbn [negb andb orb].
    + split; [exact E | lia].
    + rewrite enqueueRegistration_counts. split; [reflexivity|].
      unfold registrationsSent. cbn [pwrite set_sentRegistration set_nickPending]. lia.
  - unfold fallbackTimer.
    destruct (sentRegistration c) eqn:E; cbn [negb andb orb].
    + split; [exact E | lia].
    + rewrite enqueueRegistration_counts. split; [reflexivity|].
      unfold registrationsSent. cbn [pwrite set_sentRegistration set_nickPending]. lia.
Qed.

Lemma handshake_flag (evs : list HandshakeEvent) (c : Connection) :
  sentRegistration (fold_left handshakeStep evs c)
  = sentRegistration c || existsb isTrigger evs /\
  registrationsSent (fold_left handshakeStep evs c)
  = (registrationsSent c
     + if negb (sentRegistration c) && existsb isTrigger evs then 1 else 0)%nat.
Proof.
  revert c. induction evs as [|ev evs IH]; intros c; cbn [fold_left existsb].
  - rewrite orb_false_r, andb_false_r. split; [reflexivity | lia].
  - destruct (IH (handshakeStep c ev)) as [Hs Hr].
    destruct (handshakeStep_flag c ev) as [Hs1 Hr1].
    rewrite Hs, Hr, Hs1, Hr1. split.
    + rewrite orb_assoc. reflexivity.
    + destruct (sentRegistration c), (isTrigger ev), (existsb isTrigger evs); cbn; lia.
Qed.

Lemma negotiateCaps_begin_sasl (c : Connection) :
  UseSASL c = true ->
  RequestCaps (negotiateCaps_begin c) = ["sasl"] /\
  sentRegistration (negotiateCaps_begin c) = sentRegistration c /\
  registrationsSent (negotiateCaps_begin c) = registrationsSent c.
Proof.
  intros Hu. unfold negotiateCaps_begin. cbn [UseSASL set_RequestCaps RequestCaps].
  rewrite Hu. cbn [UseSASL set_RequestCaps RequestCaps app length].
  change (Z.of_nat 1 =? 0) with false. cbv iota. cbn [CapVersion set_RequestCaps].
  destruct (negb (String.eqb (CapVersion c) ""));
    (split; [reflexivity | split; [reflexivity|]]);
    rewrite registrations_app;
    match goal with |- (_ + ?n)%nat = _ => change n with 0%nat end;
    unfold registrationsSent; cbn [pwrite set_RequestCaps]; lia.
Qed.

Lemma negotiateCaps_begin_plain (c : Connection) :
  UseSASL c = false ->
  RequestCaps (negotiateCaps_begin c) = [] /\
  sentRegistration (negotiateCaps_begin c) = true /\
  registrationsSent (negotiateCaps_begin c)
  = (registrationsSent c + if sentRegistration c then 0 else 1)%nat.
Proof.
  intros Hu. unfold negotiateCaps_begin. cbn [UseSASL set_RequestCaps RequestCaps].
  rewrite Hu. cbn [UseSASL set_RequestCaps RequestCaps app length].
  change (Z.of_nat 0 =? 0) with true. cbv iota. cbn [sentRegistration set_RequestCaps].
  destruct (sentRegistration c) eqn:E; cbn [negb].
  - repeat split; [exact E | unfold registrationsSent; cbn [pwrite set_RequestCaps]; lia].
  - rewrite enqueueRegistration_counts. repeat split.
    unfold registrationsSent. cbn [pwrite set_sentRegistration set_nickPending set_RequestCaps].
    lia.
Qed.

(** The registrations sent by one attempt, and the flag it leaves, from the
    flag it starts with. *)
Lemma Connect_attempt_registrations (evs : list HandshakeEvent) (c : Connection) :
  registrationsSent (Connect_attempt evs c)
  = (if sentRegistration c then 0%nat
     else if negb (UseSASL c) || existsb isTrigger evs then 1%nat else 0%nat) /\
  sentRegistration (Connect_attempt evs c)
  = sentRegistration c || negb (UseSASL c) || existsb isTrigger evs.
Proof.
  unfold Connect_attempt.
  set (c0 := set_pwrite [] (resetRegistration c)).
  assert (H0 : UseSASL c0 = UseSASL c /\ sentRegistration c0 = sentRegistration c /\
               registrationsSent c0 = 0%nat) by (repeat split).
  destruct H0 as [Hu [Hs Hr]].
  destruct (UseSASL c) eqn:E; cbn [negb orb].
  - destruct (negotiateCaps_begin_sasl c0 Hu) as [Hq [Hs1 Hr1]].
    rewrite Hq. change (Z.of_nat (length ["sasl"]) =? 0) with false. cbv iota.
    destruct (handshake_flag evs (negotiateCaps_begin c0)) as [Hsf Hrf].
    rewrite Hrf, Hsf, Hr1, Hs1, Hr, Hs, orb_false_r.
    destruct (sentRegistration c), (existsb isTrigger evs); split; reflexivity.
  - destruct (negotiateCaps_begin_plain c0 Hu) as [Hq [Hs1 Hr1]].
    rewrite Hq. change (Z.of_nat (length []) =? 0) with true. cbv iota.
    rewrite Hr1, Hs1, Hr, Hs, orb_true_r.
    destruct (sentRegistration c); split; reflexivity.
Qed.

Lemma resetRegistration_keeps_flag (c : Connection) :
  sentRegistration (resetRegistration c) = sentRegistration c /\
  UseSASL (resetRegistration c) = UseSASL c.
Proof. split; reflexivity. Qed.

(** Within the first attempt the flag does its work: registration goes out
    exactly once, whatever the order and number of the triggers. *)
Lemma first_attempt_registers_once (evs : list HandshakeEvent) (c : Connection) :
  sentRegistration c = false ->
  negb (UseSASL c) || existsb isTrigger evs = true ->
  registrationsSent (Connect_attempt evs c) = 1%nat.
Proof.
  intros Hs Ht. destruct (Connect_attempt_registrations evs c) as [-> _].
  rewrite Hs, Ht. reflexivity.
Qed.

Lemma first_attempt_registers_once_witness :
  registrationsSent (Connect_attempt [] bob_session) = 1%nat.
Proof. apply first_attempt_registers_once; reflexivity. Defined.

(** No attempt lowers the flag: an attempt that finds it up sends no
    registration, whatever happens during the handshake. *)
Lemma later_attempt_registers_never (evs : list HandshakeEvent) (c : Connection) :
  sentRegistration c = true ->
  registrationsSent (Connect_attempt evs c) = 0%nat /\
  registrationsSent (Reconnect_attempt evs c) = 0%nat.
Proof.
  intros Hs. unfold Reconnect_attempt.
  destruct (Connect_attempt_registrations evs c) as [-> _].
  destruct (Connect_attempt_registrations evs (resetRegistration c)) as [-> _].
  destruct (resetRegistration_keeps_flag c) as [-> _]. rewrite Hs. split; reflexivity.
Qed.

Lemma later_attempt_registers_never_witness :
  registrationsSent (Connect_attempt [FallbackFires] (Connect_attempt [] bob_session)) = 0%nat /\
  registrationsSent (Reconnect_attempt [FallbackFires] (Connect_attempt [] bob_session)) = 0%nat.
Proof. apply later_attempt_registers_never. reflexivity. Defined.

(** C8 at its failing input: [Connect], then [Reconnect], with no
    capability requested.  The first attempt sends NICK and USER; the second,
    made with the flag still up, sends nothing at all. *)
Lemma reconnect_sends_no_registration :
  let first := Connect_attempt [] bob_session in
  let second := Reconnect_attempt [] first in
  pwrite first = ["NICK bob" +:+ CR +:+ LF; "USER bob 0 * :bob" +:+ CR +:+ LF] /\
  registrationsSent first = 1%nat /\
  sentRegistration first = true /\
  pwrite second = [] /\
  registrationsSent second = 0%nat.
Proof. cbv zeta. repeat split. Qed.

(** ** Event dispatch *)

Lemma append_nil_l (b : string) : "" +:+ b = b.
Proof. reflexivity. Qed.

Lemma append_cons (c : ascii) (a b : string) : String c a +:+ b = String c (a +:+ b).
Proof. reflexivity. Qed.

Lemma len_append (a b : string) : gostrings.len (a +:+ b) = gostrings.len a + gostrings.len b.
Proof.
  unfold gostrings.len. induction a as [|c a IH].
  - rewrite append_nil_l. cbn [String.length]. lia.
  - rewrite append_cons. cbn [String.length]. rewrite !Nat2Z.inj_succ, IH. lia.
Qed.

(** The last framing byte of a message that ends with one. *)
Lemma LastIndex_closing (s : string) : gostrings.LastIndex (s +:+ SOH) SOH = gostrings.len s.
Proof.
  induction s as [|c s IH].
  - reflexivity.
  - rewrite append_cons. cbn [gostrings.LastIndex]. rewrite IH.
    assert (H : 0 <= gostrings.len s) by (unfold gostrings.len; lia).
    apply Z.leb_le in H. rewrite H. unfold gostrings.len. cbn [String.length]. lia.
Qed.

Lemma take_append (a b : string) : gostrings.take (String.length a) (a +:+ b) = a.
Proof.
  induction a as [|c a IH].
  - rewrite append_nil_l. destruct b; reflexivity.
  - rewrite append_cons. cbn [String.length gostrings.take]. rewrite IH. reflexivity.
Qed.

(** Cutting the message between its first byte and its last framing byte
    leaves what stands between the two. *)
Lemma unframe (body : string) :
  let msg := SOH +:+ body +:+ SOH in
  gostrings.slice msg 1 (gostrings.LastIndex msg SOH) = body.
Proof.
  cbv zeta. change (SOH +:+ body +:+ SOH) with (String "001" (body +:+ SOH)).
  change (String "001" (body +:+ SOH)) with ((String "001" body) +:+ SOH) at 2.
  rewrite LastIndex_closing. unfold gostrings.slice, gostrings.len.
  rewrite Nat2Z.id. change (Z.to_nat 1) with 1%nat. cbn [String.length gostrings.drop].
  replace (S (String.length body) - 1)%nat with (String.length body) by lia.
  apply take_append.
Qed.







Example dispatch_version_request :
  reclassify version_request
  = (set_Arguments ["bob"; "VERSION"] (set_Code "CTCP_VERSION" version_request), true).
Proof. reflexivity. Qed.

Example dispatch_pingpong_request :
  reclassify pingpong_request
  = (set_Arguments ["bob"; "PINGPONG"] (set_Code "CTCP_PING" pingpong_request), true).
Proof. reflexivity. Qed.

Example dispatch_finger_request :
  reclassify finger_request
  = (set_Arguments ["bob"; "FINGER"] (set_Code "CTCP" finger_request), true).
Proof. reflexivity. Qed.

(** ** The DCC chat registry *)

Example send_to_alice :
  SendDCCMessage "alice" "hi" chat_with_alice
  = (Ok tt, {[ "alice" := mkDCCChat "alice" false (mkChan [] false) (mkChan ["hi"] false) ]}).
Proof.
  unfold SendDCCMessage, chat_with_alice. rewrite lookup_singleton_eq. cbn.
  rewrite insert_singleton_eq. reflexivity.
Qed.

Example close_alice : CloseDCCChat "alice" chat_with_alice = (Ok tt, ∅).
Proof.
  unfold CloseDCCChat, chat_with_alice. rewrite lookup_singleton_eq. cbn.
  rewrite delete_singleton_eq. reflexivity.
Qed.

(** C10: for a nick without an entry in the registry, [SendDCCMessage],
    [GetDCCMessage] and [CloseDCCChat] each return an error and leave the
    registry as it was, so that [ListActiveDCCChats] lists the same chats
    after the call as before. *)
Theorem DCC_unknown_nick (chats : gmap string DCCChat) (nick message : string) :
  chats !! nick = None ->
  (exists err, SendDCCMessage nick message chats = (Err err, chats)) /\
  (exists err, GetDCCMessage nick chats = (Err err, chats)) /\
  (exists err, CloseDCCChat nick chats = (Err err, chats)) /\
  ListActiveDCCChats (snd (SendDCCMessage nick message chats)) = ListActiveDCCChats chats /\
  ListActiveDCCChats (snd (GetDCCMessage nick chats)) = ListActiveDCCChats chats /\
  ListActiveDCCChats (snd (CloseDCCChat nick chats)) = ListActiveDCCChats chats.
Proof.
  intros Hnone. unfold SendDCCMessage, GetDCCMessage, CloseDCCChat. rewrite Hnone.
  repeat split; eexists; reflexivity.
Qed.

Lemma DCC_unknown_nick_witness :
  (exists err, SendDCCMessage "bob" "hi" chat_with_alice = (Err err, chat_with_alice)) /\
  (exists err, GetDCCMessage "bob" chat_with_alice = (Err err, chat_with_alice)) /\
  (exists err, CloseDCCChat "bob" chat_with_alice = (Err err, chat_with_alice)) /\
  ListActiveDCCChats (snd (SendDCCMessage "bob" "hi" chat_with_alice))
  = ListActiveDCCChats chat_with_alice /\
  ListActiveDCCChats (snd (GetDCCMessage "bob" chat_with_alice))
  = ListActiveDCCChats chat_with_alice /\
  ListActiveDCCChats (snd (CloseDCCChat "bob" chat_with_alice))
  = ListActiveDCCChats chat_with_alice.
Proof.
  apply (DCC_unknown_nick chat_with_alice "bob" "hi"). reflexivity.
Defined.

(** * Properties of the further code *)

(** ** Strings: appending, trimming, searching, splitting *)

Lemma append_assoc (a b c : string) : (a +:+ b) +:+ c = a +:+ b +:+ c.
Proof.
  induction a as [|x a IH]; [reflexivity|].
  rewrite !append_cons, IH. reflexivity.
Qed.

Lemma append_nil_r (a : string) : a +:+ "" = a.
Proof. induction a as [|x a IH]; [reflexivity|]. rewrite append_cons, IH. reflexivity. Qed.

Lemma length_append (a b : string) :
  String.length (a +:+ b) = (String.length a + String.length b)%nat.
Proof.
  induction a as [|x a IH]; [reflexivity|].
  rewrite append_cons. cbn [String.length]. rewrite IH. reflexivity.
Qed.

Lemma drop_append (a b : string) : gostrings.drop (String.length a) (a +:+ b) = b.
Proof.
  induction a as [|x a IH]; [reflexivity|].
  rewrite append_cons. cbn [String.length gostrings.drop]. exact IH.
Qed.

Lemma slice_to_append (a b : string) : gostrings.slice_to (a +:+ b) (gostrings.len a) = a.
Proof. unfold gostrings.slice_to, gostrings.len. rewrite Nat2Z.id. apply take_append. Qed.

Lemma slice_from_append (a b : string) : gostrings.slice_from (a +:+ b) (gostrings.len a) = b.
Proof. unfold gostrings.slice_from, gostrings.len. rewrite Nat2Z.id. apply drop_append. Qed.

Lemma len_nonneg (s : string) : 0 <= gostrings.len s.
Proof. unfold gostrings.len. lia. Qed.

(** [strings.TrimSuffix] removes a suffix that is there. *)
Lemma TrimSuffix_append (s suffix : string) : gostrings.TrimSuffix (s +:+ suffix) suffix = s.
Proof.
  unfold gostrings.TrimSuffix, gostrings.HasSuffix. rewrite length_append.
  replace (String.length s + String.length suffix - String.length suffix)%nat
    with (String.length s) by lia.
  rewrite drop_append, String.eqb_refl, take_append.
  assert (H : (String.length suffix <=? String.length s + String.length suffix)%nat = true)
    by (apply Nat.leb_le; lia).
  rewrite H. reflexivity.
Qed.

(** A line that ends with CR LF is trimmed to what stands before them. *)
Lemma trimLine_CRLF (s : string) : trimLine (s +:+ CR +:+ LF) = s.
Proof.
  unfold trimLine. rewrite <- append_assoc, TrimSuffix_append, TrimSuffix_append. reflexivity.
Qed.

Lemma HasPrefix_cons_char (c x : ascii) (s : string) :
  gostrings.HasPrefix (String x s) (String c "") = Ascii.eqb x c.
Proof. cbn. apply andb_true_r. Qed.

(** The first instance of a byte that does not occur before it. *)
Lemma Index_byte_first (c : ascii) (a b : string) :
  noByte c a = true ->
  gostrings.Index (a +:+ String c b) (String c "") = gostrings.len a.
Proof.
  induction a as [|x a IH]; intros Ha.
  - rewrite append_nil_l. cbn [gostrings.Index]. rewrite HasPrefix_cons_char, Ascii.eqb_refl.
    reflexivity.
  - cbn [noByte] in Ha. apply andb_true_iff in Ha. destruct Ha as [Hx Ha].
    apply negb_true_iff in Hx.
    rewrite append_cons. cbn [gostrings.Index]. rewrite HasPrefix_cons_char, Hx, (IH Ha).
    pose proof (len_nonneg a) as Hl. apply Z.ltb_ge in Hl. rewrite Hl.
    unfold gostrings.len. cbn [String.length]. lia.
Qed.

Lemma Index_byte_absent (c : ascii) (s : string) :
  noByte c s = true -> gostrings.Index s (String c "") = -1.
Proof.
  induction s as [|x s IH]; intros Hs; [reflexivity|].
  cbn [noByte] in Hs. apply andb_true_iff in Hs. destruct Hs as [Hx Hs].
  apply negb_true_iff in Hx. cbn [gostrings.Index].
  rewrite HasPrefix_cons_char, Hx, (IH Hs). reflexivity.
Qed.

Lemma noByte_append (c : ascii) (a b : string) :
  noByte c (a +:+ b) = noByte c a && noByte c b.
Proof.
  induction a as [|x a IH]; [reflexivity|].
  rewrite append_cons. cbn [noByte]. rewrite IH, andb_assoc. reflexivity.
Qed.

(** No space followed by a colon in [s]. *)
Lemma Index_space_colon_cons (x : ascii) (s : string) :
  gostrings.Index (String x s) " :" = -1 <->
  (Ascii.eqb x " " && starts_with ":" s = false) /\ gostrings.Index s " :" = -1.
Proof.
  cbn [gostrings.Index].
  assert (Hp : gostrings.HasPrefix (String x s) " :" = Ascii.eqb x " " && starts_with ":" s).
  { cbn. destruct s as [|y s]; cbn; [reflexivity | rewrite andb_true_r; reflexivity]. }
  rewrite Hp. pose proof (Index_lower_bound s " :") as Hl.
  destruct (Ascii.eqb x " " && starts_with ":" s).
  - split; [discriminate | intros [H _]; discriminate].
  - destruct (gostrings.Index s " :" <? 0) eqn:E.
    + apply Z.ltb_lt in E. split; [intros _; split; [reflexivity | lia] | reflexivity].
    + apply Z.ltb_ge in E. split; [lia | intros [_ H]; lia].
Qed.

Lemma Index_space_colon_first (a b : string) :
  gostrings.Index a " :" = -1 ->
  gostrings.Index (a +:+ " :" +:+ b) " :" = gostrings.len a.
Proof.
  induction a as [|x a IH]; intros Ha.
  - reflexivity.
  - apply Index_space_colon_cons in Ha. destruct Ha as [Hx Ha].
    rewrite append_cons. cbn [gostrings.Index].
    assert (Hp : gostrings.HasPrefix (String x (a +:+ " :" +:+ b)) " :" = false).
    { destruct a as [|y a].
      - rewrite append_nil_l. cbn. destruct (Ascii.eqb x " "); reflexivity.
      - rewrite append_cons. cbn in Hx |- *. rewrite andb_true_r. exact Hx. }
    rewrite Hp, (IH Ha). pose proof (len_nonneg a) as Hl. apply Z.ltb_ge in Hl. rewrite Hl.
    unfold gostrings.len. cbn [String.length]. lia.
Qed.

Lemma Index_space_colon_noSpace (s : string) :
  noByte " " s = true -> gostrings.Index s " :" = -1.
Proof.
  induction s as [|x s IH]; intros Hs; [reflexivity|].
  cbn [noByte] in Hs. apply andb_true_iff in Hs. destruct Hs as [Hx Hs].
  apply negb_true_iff in Hx. apply Index_space_colon_cons. rewrite Hx. split; [reflexivity|].
  apply IH. exact Hs.
Qed.

Lemma Index_space_colon_words (a b : string) :
  noByte " " a = true -> starts_with ":" b = false -> gostrings.Index b " :" = -1 ->
  gostrings.Index (a +:+ " " +:+ b) " :" = -1.
Proof.
  intros Ha Hb Hib. induction a as [|x a IH].
  - rewrite append_nil_l. apply Index_space_colon_cons. rewrite Hb. split; [reflexivity | exact Hib].
  - cbn [noByte] in Ha. apply andb_true_iff in Ha. destruct Ha as [Hx Ha].
    apply negb_true_iff in Hx. rewrite append_cons. apply Index_space_colon_cons.
    rewrite Hx. split; [reflexivity | apply IH; exact Ha].
Qed.

Lemma middle_spec (p : string) :
  middle p = true <-> noByte " " p = true /\ starts_with ":" p = false.
Proof. unfold middle. rewrite andb_true_iff, negb_true_iff. reflexivity. Qed.

Lemma JoinStrings_cons (w : string) (rest : list string) :
  rest <> [] -> JoinStrings (w :: rest) " " = w +:+ " " +:+ JoinStrings rest " ".
Proof. destruct rest; [congruence | reflexivity]. Qed.

(** The words of a line hold no space followed by a colon. *)
Lemma Index_space_colon_join (w : string) (params : list string) :
  noByte " " w = true -> forallb middle params = true ->
  gostrings.Index (JoinStrings (w :: params) " ") " :" = -1.
Proof.
  revert w. induction params as [|p params IH]; intros w Hw Hp.
  - apply Index_space_colon_noSpace. exact Hw.
  - cbn [forallb] in Hp. apply andb_true_iff in Hp. destruct Hp as [Hm Hp].
    apply middle_spec in Hm. destruct Hm as [Hs Hc].
    rewrite JoinStrings_cons by congruence.
    apply Index_space_colon_words; [exact Hw | | apply IH; assumption].
    destruct params as [|q params]; [exact Hc|].
    rewrite JoinStrings_cons by congruence. destruct p; [reflexivity | exact Hc].
Qed.

Lemma length_join (w : string) (params : list string) :
  (length params <= String.length (JoinStrings (w :: params) " "))%nat.
Proof.
  revert w. induction params as [|p params IH]; intros w; [cbn; lia|].
  rewrite JoinStrings_cons by congruence. rewrite !length_append.
  specialize (IH p). cbn [length String.length]. lia.
Qed.

Lemma SplitN_step (s sep : string) (n : nat) :
  gostrings.SplitN s sep (S (S n))
  = if gostrings.Index s sep <? 0 then [s]
    else gostrings.slice_to s (gostrings.Index s sep)
         :: gostrings.SplitN (gostrings.slice_from s (gostrings.Index s sep + gostrings.len sep))
                             sep (S n).
Proof. reflexivity. Qed.

(** Splitting at the spaces gives back the words that were joined. *)
Lemma SplitN_join (w : string) (params : list string) (n : nat) :
  noByte " " w = true -> forallb (noByte " ") params = true ->
  (length params < n)%nat ->
  gostrings.SplitN (JoinStrings (w :: params) " ") " " n = w :: params.
Proof.
  revert w n. induction params as [|p params IH]; intros w n Hw Hp Hn.
  - destruct n as [|[|n]]; [lia | reflexivity |].
    cbn [JoinStrings]. rewrite SplitN_step, (Index_byte_absent " " w Hw). reflexivity.
  - cbn [forallb] in Hp. apply andb_true_iff in Hp. destruct Hp as [Hs Hp].
    destruct n as [|[|n]]; [cbn in Hn; lia | cbn in Hn; lia |].
    rewrite JoinStrings_cons by congruence.
    set (rest := JoinStrings (p :: params) " ").
    rewrite SplitN_step.
    change (w +:+ " " +:+ rest) with (w +:+ String " " rest).
    rewrite (Index_byte_first " " w rest Hw).
    pose proof (len_nonneg w) as Hl.
    assert (E : (gostrings.len w <? 0) = false) by (apply Z.ltb_ge; exact Hl).
    rewrite E. rewrite slice_to_append.
    change (w +:+ String " " rest) with (w +:+ " " +:+ rest).
    rewrite <- append_assoc.
    replace (gostrings.len w + gostrings.len " ") with (gostrings.len (w +:+ " "))
      by (rewrite len_append; reflexivity).
    rewrite slice_from_append. subst rest. rewrite (IH p (S n) Hs Hp); [reflexivity|].
    cbn [length] in Hn. lia.
Qed.

Lemma Split_join (w : string) (params : list string) :
  noByte " " w = true -> forallb (noByte " ") params = true ->
  gostrings.Split (JoinStrings (w :: params) " ") " " = w :: params.
Proof.
  intros Hw Hp. unfold gostrings.Split. apply SplitN_join; [exact Hw | exact Hp|].
  pose proof (length_join w params). lia.
Qed.

Lemma SplitN2_trailing (a t : string) :
  gostrings.Index a " :" = -1 ->
  gostrings.SplitN (a +:+ " :" +:+ t) " :" 2 = [a; t].
Proof.
  intros Ha. cbn [gostrings.SplitN]. rewrite (Index_space_colon_first a t Ha).
  pose proof (len_nonneg a) as Hl.
  assert (E : (gostrings.len a <? 0) = false) by (apply Z.ltb_ge; exact Hl).
  rewrite E, slice_to_append, <- append_assoc.
  replace (gostrings.len a + gostrings.len " :") with (gostrings.len (a +:+ " :"))
    by (rewrite len_append; reflexivity).
  rewrite slice_from_append. reflexivity.
Qed.

Lemma SplitN2_plain (a : string) :
  gostrings.Index a " :" = -1 -> gostrings.SplitN a " :" 2 = [a].
Proof. intros Ha. cbn [gostrings.SplitN]. rewrite Ha. reflexivity. Qed.

Lemma middle_noSpace (params : list string) :
  forallb middle params = true -> forallb (noByte " ") params = true.
Proof.
  induction params as [|p params IH]; [reflexivity|]. cbn [forallb].
  rewrite !andb_true_iff. intros [Hm Hp]. apply middle_spec in Hm. tauto.
Qed.

(** What the parser makes of the part of a line behind its source: the
    upper-cased command is the code, the middle parameters and the trailing
    one are the arguments. *)
Lemma body_arguments (cmd : string) (params : list string) (trailing : option string) :
  noByte " " cmd = true -> forallb middle params = true ->
  let split := gostrings.SplitN (wireLine cmd params trailing) " :" 2 in
  let args := gostrings.Split (List.hd "" split) " " in
  List.hd "" args = cmd /\
  match split with
  | _ :: t :: _ => List.tl args ++ [t]
  | _ => List.tl args
  end = wireArguments params trailing.
Proof.
  intros Hc Hp. pose proof (Index_space_colon_join cmd params Hc Hp) as Hi.
  pose proof (Split_join cmd params Hc (middle_noSpace params Hp)) as Hs.
  destruct trailing as [t|]; cbn [wireLine wireArguments].
  - rewrite (SplitN2_trailing _ t Hi). cbn [List.hd]. rewrite Hs. split; reflexivity.
  - rewrite (SplitN2_plain _ Hi). cbn [List.hd]. rewrite Hs. split; reflexivity.
Qed.

Lemma wireLine_first (cmd : string) (params : list string) (trailing : option string) :
  cmd <> "" ->
  exists (x : ascii) (rest : string),
    wireLine cmd params trailing = String x rest /\
    forall c, starts_with c cmd = starts_with c (String x rest).
Proof.
  intros Hc. destruct cmd as [|x cmd]; [congruence|].
  destruct trailing as [t|], params as [|p params]; cbn [wireLine JoinStrings];
    rewrite ?append_cons; eexists _, _; (split; [reflexivity | reflexivity]).
Qed.

(** ** The parser on well-formed lines *)

(** A line made of a command, middle parameters and an optional trailing
    parameter, ended by CR LF, parses to the event with the upper-cased
    command as code and exactly these parameters as arguments. *)
Lemma parseToEvent_unsourced (ToUpper : string -> string) (cmd : string)
        (params : list string) (trailing : option string) :
  cmd <> "" ->
  noByte " " cmd = true ->
  starts_with "@" cmd = false ->
  starts_with ":" cmd = false ->
  forallb middle params = true ->
  parseToEvent ToUpper (wireLine cmd params trailing +:+ CR +:+ LF)
  = Ok {| Code := ToUpper cmd; Raw := wireLine cmd params trailing;
          Nick := ""; Host := ""; Source := ""; User := "";
          Arguments := wireArguments params trailing; Tags := ∅ |}.
Proof.
  intros Hne Hsp Hat Hcol Hp.
  unfold parseToEvent. fold (trimLine (wireLine cmd params trailing +:+ CR +:+ LF)).
  rewrite trimLine_CRLF.
  destruct (wireLine_first cmd params trailing Hne) as [x [rest [Hw Hf]]].
  destruct (body_arguments cmd params trailing Hsp Hp) as [Hcode Hargs].
  cbv zeta in Hcode, Hargs.
  rewrite Hw in *.
  assert (Hl : (gostrings.len (String x rest) <? 1) = false).
  { apply Z.ltb_ge. unfold gostrings.len. cbn [String.length]. lia. }
  rewrite Hl. unfold parseTagSegment, parseSource. rewrite first_byte_cons. cbn [bind].
  rewrite (Hf "@"%char) in Hat. rewrite (Hf ":"%char) in Hcol. cbn [starts_with] in Hat, Hcol.
  rewrite Hat. cbn [bind]. rewrite first_byte_cons. cbn [bind]. rewrite Hcol. cbn [bind].
  rewrite Hcode, Hargs. reflexivity.
Qed.

Lemma take_drop_slice (s : string) (lo hi : nat) :
  gostrings.slice s (Z.of_nat lo) (Z.of_nat hi)
  = gostrings.take (hi - lo) (gostrings.drop lo s).
Proof. unfold gostrings.slice. rewrite !Nat2Z.id. reflexivity. Qed.

Lemma drop_cons (n : nat) (c : ascii) (s : string) :
  gostrings.drop (S n) (String c s) = gostrings.drop n s.
Proof. reflexivity. Qed.

(** The source segment of a line is split off at its first space. *)
Lemma parseSource_prefixed (src m : string) :
  noByte " " src = true ->
  parseSource (":" +:+ src +:+ " " +:+ m) = Ok (src, splitSource src, m).
Proof.
  intros Hs. unfold parseSource.
  change (":" +:+ src +:+ " " +:+ m) with (String ":" (src +:+ String " " m)).
  rewrite first_byte_cons. cbn [bind]. rewrite Ascii.eqb_refl.
  assert (Hi : gostrings.Index (String ":" (src +:+ String " " m)) " "
               = Z.of_nat (S (String.length src))).
  { cbn [gostrings.Index]. rewrite HasPrefix_cons_char.
    change (Ascii.eqb ":" " ") with false. cbv iota.
    rewrite (Index_byte_first " " src m Hs).
    pose proof (len_nonneg src) as Hl. apply Z.ltb_ge in Hl. rewrite Hl.
    unfold gostrings.len. lia. }
  rewrite Hi.
  assert (Hpos : (-1 <? Z.of_nat (S (String.length src))) = true) by (apply Z.ltb_lt; lia).
  rewrite Hpos.
  assert (Hsrc : gostrings.slice (String ":" (src +:+ String " " m)) 1
                   (Z.of_nat (S (String.length src))) = src).
  { change 1 with (Z.of_nat 1). rewrite take_drop_slice.
    cbn [gostrings.drop]. replace (S (String.length src) - 1)%nat with (String.length src) by lia.
    apply take_append. }
  assert (Hm : gostrings.slice_from (String ":" (src +:+ String " " m))
                 (Z.of_nat (S (String.length src)) + 1) = m).
  { unfold gostrings.slice_from.
    replace (Z.to_nat (Z.of_nat (S (String.length src)) + 1))
      with (S (String.length (src +:+ " "))) by (rewrite length_append; cbn; lia).
    rewrite drop_cons.
    change (src +:+ String " " m) with (src +:+ " " +:+ m).
    rewrite <- append_assoc. apply drop_append. }
  rewrite Hsrc, Hm. unfold splitSource.
  destruct ((-1 <? gostrings.Index src "!") && (-1 <? gostrings.Index src "@")
            && (gostrings.Index src "!" <? gostrings.Index src "@")); reflexivity.
Qed.

(** A source of the form nick!user@host is taken apart at its first [!] and
    its first [@]. *)
Lemma splitSource_user (n u h : string) :
  noByte "!" n = true -> noByte "@" n = true -> noByte "@" u = true ->
  splitSource (n +:+ "!" +:+ u +:+ "@" +:+ h) = (n, u, h).
Proof.
  intros Hn1 Hn2 Hu. unfold splitSource.
  set (src := n +:+ "!" +:+ u +:+ "@" +:+ h).
  set (ln := String.length n). set (lu := String.length u).
  assert (Hi : gostrings.Index src "!" = Z.of_nat ln).
  { apply (Index_byte_first "!" n (u +:+ "@" +:+ h) Hn1). }
  assert (Hj : gostrings.Index src "@" = Z.of_nat (S (ln + lu))).
  { subst src. replace (n +:+ "!" +:+ u +:+ "@" +:+ h) with ((n +:+ "!" +:+ u) +:+ String "@" h)
      by (rewrite !append_assoc; reflexivity).
    rewrite Index_byte_first by (rewrite !noByte_append, Hn2, Hu; reflexivity).
    unfold gostrings.len. rewrite !length_append. cbn [String.length]. subst ln lu. lia. }
  rewrite Hi, Hj.
  assert (Hlt : (-1 <? Z.of_nat ln) = true) by (apply Z.ltb_lt; lia).
  assert (Hlt2 : (-1 <? Z.of_nat (S (ln + lu))) = true) by (apply Z.ltb_lt; lia).
  assert (Hlt3 : (Z.of_nat ln <? Z.of_nat (S (ln + lu))) = true) by (apply Z.ltb_lt; lia).
  rewrite Hlt, Hlt2, Hlt3. cbn [andb].
  assert (H1 : gostrings.slice src 0 (Z.of_nat ln) = n).
  { change 0 with (Z.of_nat 0). rewrite take_drop_slice.
    change (gostrings.drop 0 src) with src. rewrite Nat.sub_0_r. apply take_append. }
  assert (H2 : gostrings.slice src (Z.of_nat ln + 1) (Z.of_nat (S (ln + lu))) = u).
  { replace (Z.of_nat ln + 1) with (Z.of_nat (S ln)) by lia. rewrite take_drop_slice.
    replace (S (ln + lu) - S ln)%nat with lu by lia.
    replace (S ln) with (String.length (n +:+ "!"))
      by (rewrite length_append; cbn; subst ln; lia).
    subst src. rewrite <- (append_assoc n "!"), drop_append. apply take_append. }
  assert (H3 : gostrings.slice_from src (Z.of_nat (S (ln + lu)) + 1) = h).
  { unfold gostrings.slice_from.
    replace (Z.to_nat (Z.of_nat (S (ln + lu)) + 1))
      with (String.length (n +:+ "!" +:+ u +:+ "@"))
      by (rewrite !length_append; cbn [String.length]; subst ln lu; lia).
    subst src.
    replace (n +:+ "!" +:+ u +:+ "@" +:+ h) with ((n +:+ "!" +:+ u +:+ "@") +:+ h)
      by (rewrite !append_assoc; reflexivity).
    apply drop_append. }
  rewrite H1, H2, H3. reflexivity.
Qed.

(** A source without [!], a server name, gives no nick, user or host. *)
Lemma splitSource_server (src : string) :
  noByte "!" src = true -> splitSource src = ("", "", "").
Proof. intros H. unfold splitSource. rewrite (Index_byte_absent "!" src H). reflexivity. Qed.

(** A line with a source, by the decomposition of the source. *)
Lemma parseToEvent_sourced (ToUpper : string -> string) (src cmd : string)
      (params : list string) (trailing : option string) :
  noByte " " src = true ->
  noByte " " cmd = true ->
  forallb middle params = true ->
  parseToEvent ToUpper (":" +:+ src +:+ " " +:+ wireLine cmd params trailing +:+ CR +:+ LF)
  = Ok {| Code := ToUpper cmd;
          Raw := ":" +:+ src +:+ " " +:+ wireLine cmd params trailing;
          Nick := fst (fst (splitSource src)); Host := snd (splitSource src);
          Source := src; User := snd (fst (splitSource src));
          Arguments := wireArguments params trailing; Tags := ∅ |}.
Proof.
  intros Hs Hc Hp. unfold parseToEvent.
  set (line := wireLine cmd params trailing).
  replace (":" +:+ src +:+ " " +:+ line +:+ CR +:+ LF)
    with ((":" +:+ src +:+ " " +:+ line) +:+ CR +:+ LF) by (rewrite !append_assoc; reflexivity).
  fold (trimLine ((":" +:+ src +:+ " " +:+ line) +:+ CR +:+ LF)). rewrite trimLine_CRLF.
  change (":" +:+ src +:+ " " +:+ line) with (String ":" (src +:+ " " +:+ line)) at 1 2.
  assert (Hl : (gostrings.len (String ":" (src +:+ " " +:+ line)) <? 1) = false).
  { apply Z.ltb_ge. unfold gostrings.len. cbn [String.length]. lia. }
  rewrite Hl. unfold parseTagSegment. rewrite first_byte_cons. cbn [bind].
  change (Ascii.eqb ":" "@") with false. cbv iota. cbn [bind].
  change (String ":" (src +:+ " " +:+ line)) with (":" +:+ src +:+ " " +:+ line).
  rewrite (parseSource_prefixed src line Hs). cbn [bind].
  destruct (splitSource src) as [[n u] h]. cbn [fst snd].
  destruct (body_arguments cmd params trailing Hc Hp) as [Hcode Hargs].
  cbv zeta in Hcode, Hargs. fold line in Hcode, Hargs. rewrite Hcode, Hargs. reflexivity.
Qed.

(** X1: a well-formed line parses to its parts.  A command that holds no
    space, middle parameters (no space, no leading colon) and an optional
    trailing parameter, ended by CR LF, give the event with the upper-cased
    command as code, exactly these parameters as arguments and the line
    without its end as raw text; a source put in front, after a colon, is
    kept as the source of the event and changes neither code nor arguments. *)
Theorem parseToEvent_wireLine (ToUpper : string -> string) (cmd : string)
        (params : list string) (trailing : option string) :
  cmd <> "" ->
  noByte " " cmd = true ->
  starts_with "@" cmd = false ->
  starts_with ":" cmd = false ->
  forallb middle params = true ->
  parseToEvent ToUpper (wireLine cmd params trailing +:+ CR +:+ LF)
  = Ok {| Code := ToUpper cmd; Raw := wireLine cmd params trailing;
          Nick := ""; Host := ""; Source := ""; User := "";
          Arguments := wireArguments params trailing; Tags := ∅ |} /\
  forall src : string,
    noByte " " src = true ->
    exists e : Event,
      parseToEvent ToUpper (":" +:+ src +:+ " " +:+ wireLine cmd params trailing +:+ CR +:+ LF)
      = Ok e /\
      Code e = ToUpper cmd /\ Arguments e = wireArguments params trailing /\
      Source e = src /\ Raw e = ":" +:+ src +:+ " " +:+ wireLine cmd params trailing.
Proof.
  intros Hne Hsp Hat Hcol Hp. split.
  - apply parseToEvent_unsourced; assumption.
  - intros src Hs. eexists. split; [apply parseToEvent_sourced; assumption|].
    repeat split.
Qed.

Lemma parseToEvent_wireLine_witness :
  parseToEvent gostrings.ToUpperASCII
    (wireLine "privmsg" ["#go"] (Some "hello :) world") +:+ CR +:+ LF)
  = Ok {| Code := gostrings.ToUpperASCII "privmsg";
          Raw := wireLine "privmsg" ["#go"] (Some "hello :) world");
          Nick := ""; Host := ""; Source := ""; User := "";
          Arguments := wireArguments ["#go"] (Some "hello :) world"); Tags := ∅ |}.
Proof.
  apply (parseToEvent_wireLine gostrings.ToUpperASCII "privmsg" ["#go"]
           (Some "hello :) world"));
    [discriminate | reflexivity | reflexivity | reflexivity | reflexivity].
Defined.

(** X2: a line from a user, [:nick!user@host], followed by a command with
    its parameters, parses to the event carrying that nick, user and host,
    the upper-cased command and the parameters. *)
Theorem parseToEvent_from_user (ToUpper : string -> string) (n u h cmd : string)
        (params : list string) (trailing : option string) :
  noByte " " n = true -> noByte "!" n = true -> noByte "@" n = true ->
  noByte " " u = true -> noByte "@" u = true ->
  noByte " " h = true ->
  noByte " " cmd = true ->
  forallb middle params = true ->
  parseToEvent ToUpper
    (":" +:+ (n +:+ "!" +:+ u +:+ "@" +:+ h) +:+ " " +:+ wireLine cmd params trailing
     +:+ CR +:+ LF)
  = Ok {| Code := ToUpper cmd;
          Raw := ":" +:+ (n +:+ "!" +:+ u +:+ "@" +:+ h) +:+ " "
                 +:+ wireLine cmd params trailing;
          Nick := n; Host := h; Source := n +:+ "!" +:+ u +:+ "@" +:+ h; User := u;
          Arguments := wireArguments params trailing; Tags := ∅ |}.
Proof.
  intros Hn1 Hn2 Hn3 Hu1 Hu2 Hh Hc Hp.
  rewrite (parseToEvent_sourced ToUpper _ cmd params trailing); [| |exact Hc|exact Hp].
  - rewrite (splitSource_user n u h Hn2 Hn3 Hu2). reflexivity.
  - rewrite !noByte_append, Hn1, Hu1, Hh. reflexivity.
Qed.

Lemma parseToEvent_from_user_witness :
  parseToEvent gostrings.ToUpperASCII
    (":" +:+ ("bob" +:+ "!" +:+ "u" +:+ "@" +:+ "h") +:+ " " +:+ wireLine "NICK" [] (Some "alice")
     +:+ CR +:+ LF)
  = Ok {| Code := gostrings.ToUpperASCII "NICK";
          Raw := ":" +:+ ("bob" +:+ "!" +:+ "u" +:+ "@" +:+ "h") +:+ " "
                 +:+ wireLine "NICK" [] (Some "alice");
          Nick := "bob"; Host := "h"; Source := "bob" +:+ "!" +:+ "u" +:+ "@" +:+ "h";
          User := "u"; Arguments := wireArguments [] (Some "alice"); Tags := ∅ |}.
Proof.
  apply (parseToEvent_from_user gostrings.ToUpperASCII "bob" "u" "h" "NICK" [] (Some "alice"));
    reflexivity.
Defined.

(** X3: a line from a server, whose source holds no [!], parses to the
    event with that source and with empty nick, user and host. *)
Theorem parseToEvent_from_server (ToUpper : string -> string) (src cmd : string)
        (params : list string) (trailing : option string) :
  noByte " " src = true -> noByte "!" src = true ->
  noByte " " cmd = true ->
  forallb middle params = true ->
  parseToEvent ToUpper (":" +:+ src +:+ " " +:+ wireLine cmd params trailing +:+ CR +:+ LF)
  = Ok {| Code := ToUpper cmd;
          Raw := ":" +:+ src +:+ " " +:+ wireLine cmd params trailing;
          Nick := ""; Host := ""; Source := src; User := "";
          Arguments := wireArguments params trailing; Tags := ∅ |}.
Proof.
  intros Hs Hb Hc Hp.
  rewrite (parseToEvent_sourced ToUpper src cmd params trailing Hs Hc Hp).
  rewrite (splitSource_server src Hb). reflexivity.
Qed.

Lemma parseToEvent_from_server_witness :
  parseToEvent gostrings.ToUpperASCII
    (":" +:+ "irc.example.net" +:+ " " +:+ wireLine "001" ["bob"] (Some "Welcome") +:+ CR +:+ LF)
  = Ok {| Code := gostrings.ToUpperASCII "001";
          Raw := ":" +:+ "irc.example.net" +:+ " " +:+ wireLine "001" ["bob"] (Some "Welcome");
          Nick := ""; Host := ""; Source := "irc.example.net"; User := "";
          Arguments := wireArguments ["bob"] (Some "Welcome"); Tags := ∅ |}.
Proof.
  apply (parseToEvent_from_server gostrings.ToUpperASCII "irc.example.net" "001" ["bob"]
           (Some "Welcome")); reflexivity.
Defined.

(** A segment without a space, behind one byte that is not a space, is cut
    off at the space that follows it. *)
Lemma cut_at_space (x : ascii) (seg m : string) :
  Ascii.eqb x " " = false ->
  noByte " " seg = true ->
  let line := String x (seg +:+ " " +:+ m) in
  (-1 <? gostrings.Index line " ") = true /\
  gostrings.slice line 1 (gostrings.Index line " ") = seg /\
  gostrings.slice_from line (gostrings.Index line " " + 1) = m.
Proof.
  intros Hx Hs line.
  assert (Hi : gostrings.Index line " " = Z.of_nat (S (String.length seg))).
  { subst line. cbn [gostrings.Index]. rewrite HasPrefix_cons_char, Hx.
    change (seg +:+ " " +:+ m) with (seg +:+ String " " m).
    rewrite (Index_byte_first " " seg m Hs).
    pose proof (len_nonneg seg) as Hl. apply Z.ltb_ge in Hl. rewrite Hl.
    unfold gostrings.len. lia. }
  rewrite Hi. split; [apply Z.ltb_lt; lia|]. split.
  - change 1 with (Z.of_nat 1). rewrite take_drop_slice. subst line. rewrite drop_cons.
    change (gostrings.drop 0 (seg +:+ " " +:+ m)) with (seg +:+ " " +:+ m).
    replace (S (String.length seg) - 1)%nat with (String.length seg) by lia.
    apply take_append.
  - unfold gostrings.slice_from.
    replace (Z.to_nat (Z.of_nat (S (String.length seg)) + 1))
      with (S (String.length (seg +:+ " "))) by (rewrite length_append; cbn; lia).
    subst line. rewrite drop_cons, <- append_assoc. apply drop_append.
Qed.

(** X4: message tags are transparent: a line with a tag segment parses as
    the line without it does, the event carrying in addition the parsed tags
    (and the whole line as its raw text). *)
Theorem parseToEvent_tags_transparent (ToUpper : string -> string) (seg rest : string) :
  noByte " " seg = true ->
  rest <> "" ->
  starts_with "@" rest = false ->
  parseToEvent ToUpper ("@" +:+ seg +:+ " " +:+ rest +:+ CR +:+ LF)
  = bind (parseToEvent ToUpper (rest +:+ CR +:+ LF))
         (fun e => Ok (withTags (parseTags seg) ("@" +:+ seg +:+ " " +:+ rest) e)).
Proof.
  intros Hs Hne Hat. unfold parseToEvent.
  replace ("@" +:+ seg +:+ " " +:+ rest +:+ CR +:+ LF)
    with (("@" +:+ seg +:+ " " +:+ rest) +:+ CR +:+ LF) by (rewrite !append_assoc; reflexivity).
  fold (trimLine (("@" +:+ seg +:+ " " +:+ rest) +:+ CR +:+ LF)).
  fold (trimLine (rest +:+ CR +:+ LF)). rewrite !trimLine_CRLF.
  destruct rest as [|x r]; [congruence|]. cbn [starts_with] in Hat.
  assert (Hl : (gostrings.len (String x r) <? 1) = false).
  { apply Z.ltb_ge. unfold gostrings.len. cbn [String.length]. lia. }
  rewrite Hl.
  change ("@" +:+ seg +:+ " " +:+ String x r) with (String "@" (seg +:+ " " +:+ String x r)).
  assert (Hl2 : (gostrings.len (String "@" (seg +:+ " " +:+ String x r)) <? 1) = false).
  { apply Z.ltb_ge. unfold gostrings.len. cbn [String.length]. lia. }
  rewrite Hl2. unfold parseTagSegment. rewrite !first_byte_cons. cbn [bind].
  rewrite Ascii.eqb_refl, Hat.
  destruct (cut_at_space "@" seg (String x r) eq_refl Hs) as [Hi [Hseg Hm]].
  cbv zeta in Hi, Hseg, Hm. rewrite Hi, Hseg, Hm. cbn [bind].
  destruct (parseSource (String x r)) as [[[src [[n u] h]] m]|e|e]; reflexivity.
Qed.

Lemma parseToEvent_tags_transparent_witness :
  parseToEvent gostrings.ToUpperASCII
    ("@" +:+ "time=12;id=a\sb" +:+ " " +:+ ":bob!u@h PRIVMSG #go :hi" +:+ CR +:+ LF)
  = bind (parseToEvent gostrings.ToUpperASCII (":bob!u@h PRIVMSG #go :hi" +:+ CR +:+ LF))
         (fun e => Ok (withTags (parseTags "time=12;id=a\sb")
                         ("@" +:+ "time=12;id=a\sb" +:+ " " +:+ ":bob!u@h PRIVMSG #go :hi") e)).
Proof.
  apply (parseToEvent_tags_transparent gostrings.ToUpperASCII "time=12;id=a\sb"
           ":bob!u@h PRIVMSG #go :hi"); [reflexivity | discriminate | reflexivity].
Defined.

(** ** Tag values without escapes *)

Lemma Replace_noBackslash (letter byte : ascii) (s : string) :
  noBackslash s = true ->
  gostrings.Replace s (escapeSequence letter) (String byte "") = s.
Proof.
  intros Hs.
  pose proof (Replace_undoes_rows (fun _ => None) letter byte s Hs) as H.
  rewrite !escapeWith_none in H by reflexivity.
  apply H; intros; discriminate.
Qed.

(** X5: a tag value that holds no backslash is left as it is. *)
Theorem unescapeTagValue_plain (value : string) :
  noBackslash value = true -> unescapeTagValue value = value.
Proof.
  intros Hv. unfold unescapeTagValue, CR, LF.
  change "\:" with (escapeSequence ":"). change "\s" with (escapeSequence "s").
  change "\\" with (escapeSequence "\"). change "\r" with (escapeSequence "r").
  change "\n" with (escapeSequence "n").
  rewrite (Replace_noBackslash ":" ";" value Hv), (Replace_noBackslash "s" " " value Hv),
    (Replace_noBackslash "\" "\" value Hv), (Replace_noBackslash "r" "013" value Hv),
    (Replace_noBackslash "n" "010" value Hv).
  reflexivity.
Qed.

Lemma unescapeTagValue_plain_witness : unescapeTagValue "2024-01-01T00:00:00Z" = "2024-01-01T00:00:00Z".
Proof. apply unescapeTagValue_plain. reflexivity. Defined.

(** ** Sending and parsing *)

Lemma wireLine_one_param (cmd target message : string) :
  (cmd +:+ " ") +:+ target +:+ " :" +:+ message +:+ CR +:+ LF
  = wireLine cmd [target] (Some message) +:+ CR +:+ LF.
Proof. cbn [wireLine JoinStrings]. rewrite !append_assoc. reflexivity. Qed.

Lemma wireLine_no_trailing (cmd target : string) :
  (cmd +:+ " ") +:+ target +:+ CR +:+ LF = wireLine cmd [target] None +:+ CR +:+ LF.
Proof. cbn [wireLine JoinStrings]. rewrite !append_assoc. reflexivity. Qed.

(** X6: what [Join], [Part], [Notice] and [Privmsg] send parses back: for
    a channel or target that holds no space and does not begin with a colon,
    the line put on the queue parses to the event of that command, without a
    source, whose arguments are the channel, or the target and the message,
    whatever the message is. *)
Theorem sent_lines_parse_back (ToUpper : string -> string) (target message : string)
        (c : Connection) :
  (forall cmd, In cmd ["JOIN"; "PART"; "NOTICE"; "PRIVMSG"] -> ToUpper cmd = cmd) ->
  middle target = true ->
  (exists line : string,
     pwrite (Join target c) = pwrite c ++ [line] /\
     parseToEvent ToUpper line
     = Ok {| Code := "JOIN"; Raw := wireLine "JOIN" [target] None;
             Nick := ""; Host := ""; Source := ""; User := "";
             Arguments := [target]; Tags := ∅ |}) /\
  (exists line : string,
     pwrite (Part target c) = pwrite c ++ [line] /\
     parseToEvent ToUpper line
     = Ok {| Code := "PART"; Raw := wireLine "PART" [target] None;
             Nick := ""; Host := ""; Source := ""; User := "";
             Arguments := [target]; Tags := ∅ |}) /\
  (exists line : string,
     pwrite (Notice target message c) = pwrite c ++ [line] /\
     parseToEvent ToUpper line
     = Ok {| Code := "NOTICE"; Raw := wireLine "NOTICE" [target] (Some message);
             Nick := ""; Host := ""; Source := ""; User := "";
             Arguments := [target; message]; Tags := ∅ |}) /\
  (exists line : string,
     pwrite (Privmsg target message c) = pwrite c ++ [line] /\
     parseToEvent ToUpper line
     = Ok {| Code := "PRIVMSG"; Raw := wireLine "PRIVMSG" [target] (Some message);
             Nick := ""; Host := ""; Source := ""; User := "";
             Arguments := [target; message]; Tags := ∅ |}).
Proof.
  intros Hup Hm.
  assert (Hp : forallb middle [target] = true) by (cbn [forallb]; rewrite Hm; reflexivity).
  split; [|split; [|split]]; (eexists; split; [reflexivity|]).
  - change ("JOIN " +:+ target +:+ CR +:+ LF) with (("JOIN" +:+ " ") +:+ target +:+ CR +:+ LF).
    rewrite wireLine_no_trailing.
    rewrite (parseToEvent_unsourced ToUpper "JOIN" [target] None);
      [rewrite Hup; [reflexivity | cbn; tauto] | discriminate | reflexivity | reflexivity
       | reflexivity | exact Hp].
  - change ("PART " +:+ target +:+ CR +:+ LF) with (("PART" +:+ " ") +:+ target +:+ CR +:+ LF).
    rewrite wireLine_no_trailing.
    rewrite (parseToEvent_unsourced ToUpper "PART" [target] None);
      [rewrite Hup; [reflexivity | cbn; tauto] | discriminate | reflexivity | reflexivity
       | reflexivity | exact Hp].
  - change ("NOTICE " +:+ target +:+ " :" +:+ message +:+ CR +:+ LF)
      with (("NOTICE" +:+ " ") +:+ target +:+ " :" +:+ message +:+ CR +:+ LF).
    rewrite wireLine_one_param.
    rewrite (parseToEvent_unsourced ToUpper "NOTICE" [target] (Some message));
      [rewrite Hup; [reflexivity | cbn; tauto] | discriminate | reflexivity | reflexivity
       | reflexivity | exact Hp].
  - change ("PRIVMSG " +:+ target +:+ " :" +:+ message +:+ CR +:+ LF)
      with (("PRIVMSG" +:+ " ") +:+ target +:+ " :" +:+ message +:+ CR +:+ LF).
    rewrite wireLine_one_param.
    rewrite (parseToEvent_unsourced ToUpper "PRIVMSG" [target] (Some message));
      [rewrite Hup; [reflexivity | cbn; tauto] | discriminate | reflexivity | reflexivity
       | reflexivity | exact Hp].
Qed.

Lemma sent_lines_parse_back_witness :
  exists line : string,
    pwrite (Privmsg "#go" "hello :) world" bob_session) = pwrite bob_session ++ [line] /\
    parseToEvent gostrings.ToUpperASCII line
    = Ok {| Code := "PRIVMSG"; Raw := wireLine "PRIVMSG" ["#go"] (Some "hello :) world");
            Nick := ""; Host := ""; Source := ""; User := "";
            Arguments := ["#go"; "hello :) world"]; Tags := ∅ |}.
Proof.
  apply (sent_lines_parse_back gostrings.ToUpperASCII "#go" "hello :) world" bob_session);
    [|reflexivity].
  intros cmd Hin. cbn [In] in Hin.
  destruct Hin as [<-|[<-|[<-|[<-|[]]]]]; reflexivity.
Defined.

Lemma ctcpCode_ACTION (message : string) :
  ctcpCode ("ACTION " +:+ message) = ("CTCP_ACTION", message).
Proof.
  unfold ctcpCode.
  change (String.eqb ("ACTION " +:+ message) "VERSION") with false.
  change (String.eqb ("ACTION " +:+ message) "TIME") with false.
  change (gostrings.HasPrefix ("ACTION " +:+ message) "PING") with false.
  change (String.eqb ("ACTION " +:+ message) "USERINFO") with false.
  change (String.eqb ("ACTION " +:+ message) "CLIENTINFO") with false.
  change (gostrings.HasPrefix ("ACTION " +:+ message) "ACTION") with true. cbv iota.
  assert (H : (6 <? gostrings.len ("ACTION " +:+ message)) = true).
  { apply Z.ltb_lt. rewrite len_append. pose proof (len_nonneg message).
    change (gostrings.len "ACTION ") with 7. lia. }
  rewrite H. reflexivity.
Qed.

(** X7: what [Action] sends comes back as an action: the line put on the
    queue parses to a PRIVMSG event which the dispatcher reclassifies as
    CTCP_ACTION, its arguments being the target and the text of the action,
    whatever the text is. *)
Theorem Action_comes_back (ToUpper : string -> string) (target message : string)
        (c : Connection) :
  ToUpper "PRIVMSG" = "PRIVMSG" ->
  middle target = true ->
  exists (line : string) (e e' : Event),
    pwrite (Action target message c) = pwrite c ++ [line] /\
    parseToEvent ToUpper line = Ok e /\
    reclassify e = (e', true) /\
    Code e' = "CTCP_ACTION" /\ Arguments e' = [target; message].
Proof.
  intros Hup Hm. eexists. eexists. eexists. split; [reflexivity|].
  change ("PRIVMSG " +:+ target +:+ " :" +:+ SOH +:+ "ACTION " +:+ message +:+ SOH +:+ CR +:+ LF)
    with (("PRIVMSG" +:+ " ") +:+ target +:+ " :" +:+ SOH +:+ "ACTION " +:+ message +:+ SOH
          +:+ CR +:+ LF).
  replace (("PRIVMSG" +:+ " ") +:+ target +:+ " :" +:+ SOH +:+ "ACTION " +:+ message +:+ SOH
           +:+ CR +:+ LF)
    with (wireLine "PRIVMSG" [target] (Some (SOH +:+ ("ACTION " +:+ message) +:+ SOH))
          +:+ CR +:+ LF)
    by (cbn [wireLine JoinStrings]; rewrite !append_assoc; reflexivity).
  split.
  - apply (parseToEvent_unsourced ToUpper "PRIVMSG" [target]);
      [discriminate | reflexivity | reflexivity | reflexivity |].
    cbn [forallb]. rewrite Hm. reflexivity.
  - rewrite Hup. unfold reclassify. cbn [Code Message Arguments wireArguments app].
    match goal with
    | |- context [Message ?ev] =>
        change (Message ev) with (SOH +:+ ("ACTION " +:+ message) +:+ SOH)
    end.
    pose proof (unframe ("ACTION " +:+ message)) as Hu. cbv zeta in Hu.
    assert (Hl : (2 <? gostrings.len (SOH +:+ ("ACTION " +:+ message) +:+ SOH)) = true).
    { apply Z.ltb_lt. rewrite !len_append. pose proof (len_nonneg message).
      change (gostrings.len SOH) with 1. change (gostrings.len "ACTION ") with 7. lia. }
    assert (Hi : (0 <? gostrings.LastIndex (SOH +:+ ("ACTION " +:+ message) +:+ SOH) SOH) = true).
    { change (SOH +:+ ("ACTION " +:+ message) +:+ SOH)
        with ((String "001" ("ACTION " +:+ message)) +:+ SOH).
      rewrite LastIndex_closing. apply Z.ltb_lt. unfold gostrings.len. cbn [String.length]. lia. }
    change (String.eqb "PRIVMSG" "PRIVMSG") with true.
    change (starts_with "001" (SOH +:+ ("ACTION " +:+ message) +:+ SOH)) with true.
    rewrite Hl, Hi, Hu, ctcpCode_ACTION. cbn. repeat split.
Qed.

Lemma Action_comes_back_witness :
  exists (line : string) (e e' : Event),
    pwrite (Action "#go" "waves" bob_session) = pwrite bob_session ++ [line] /\
    parseToEvent gostrings.ToUpperASCII line = Ok e /\
    reclassify e = (e', true) /\
    Code e' = "CTCP_ACTION" /\ Arguments e' = ["#go"; "waves"].
Proof.
  apply (Action_comes_back gostrings.ToUpperASCII "#go" "waves" bob_session); reflexivity.
Defined.

(** ** Keep-alive and welcome, from the line to the state *)

(** X8: a PING from the server is answered with its own token: whether the
    token comes as the trailing parameter or as a middle one, the PING
    callback puts PONG with that token on the queue. *)
Theorem PING_is_echoed (ToUpper : string -> string) (token : string) (c : Connection) :
  (exists e : Event,
     parseToEvent ToUpper ("PING :" +:+ token +:+ CR +:+ LF) = Ok e /\
     pwrite (onPING e c) = pwrite c ++ ["PONG :" +:+ token +:+ CR +:+ LF]) /\
  (middle token = true ->
   exists e : Event,
     parseToEvent ToUpper ("PING " +:+ token +:+ CR +:+ LF) = Ok e /\
     pwrite (onPING e c) = pwrite c ++ ["PONG :" +:+ token +:+ CR +:+ LF]).
Proof.
  split.
  - eexists. split.
    + change ("PING :" +:+ token +:+ CR +:+ LF)
        with (wireLine "PING" [] (Some token) +:+ CR +:+ LF).
      apply (parseToEvent_unsourced ToUpper "PING" [] (Some token));
        [discriminate | reflexivity | reflexivity | reflexivity | reflexivity].
    + unfold onPING, SendRaw, Message. cbn. rewrite !append_assoc. reflexivity.
  - intros Hm. eexists. split.
    + replace ("PING " +:+ token +:+ CR +:+ LF)
        with (wireLine "PING" [token] None +:+ CR +:+ LF)
        by (cbn [wireLine JoinStrings]; rewrite !append_assoc; reflexivity).
      apply (parseToEvent_unsourced ToUpper "PING" [token] None);
        [discriminate | reflexivity | reflexivity | reflexivity |].
      cbn [forallb]. rewrite Hm. reflexivity.
    + unfold onPING, SendRaw, Message. cbn. rewrite !append_assoc. reflexivity.
Qed.

Lemma PING_is_echoed_witness :
  exists e : Event,
    parseToEvent gostrings.ToUpperASCII ("PING " +:+ "irc.example.net" +:+ CR +:+ LF) = Ok e /\
    pwrite (onPING e bob_session)
    = pwrite bob_session ++ ["PONG :" +:+ "irc.example.net" +:+ CR +:+ LF].
Proof.
  apply (PING_is_echoed gostrings.ToUpperASCII "irc.example.net" bob_session). reflexivity.
Defined.

(** X9: the welcome line settles the nickname: when the server's 001 line
    addresses the client as [n], the session takes [n] as its current and as
    its desired nickname, is fully connected, and holds no nickname error,
    whatever nickname it had asked for. *)
Theorem welcome_settles_nick (ToUpper : string -> string) (now : Time)
        (server n text : string) (c : Connection) :
  ToUpper "001" = "001" ->
  noByte " " server = true -> noByte "!" server = true ->
  middle n = true ->
  exists (e : Event) (c' : Connection),
    parseToEvent ToUpper (":" +:+ server +:+ " 001 " +:+ n +:+ " :" +:+ text +:+ CR +:+ LF)
    = Ok e /\
    step now (Received e) c = Ok c' /\
    GetNick c' = n /\ nick c' = n /\ fullyConnected c' = true /\ nickError c' = "" /\
    pwrite c' = pwrite c.
Proof.
  intros Hup Hs Hb Hm. eexists. eexists. split; [|split].
  - replace (":" +:+ server +:+ " 001 " +:+ n +:+ " :" +:+ text +:+ CR +:+ LF)
      with (":" +:+ server +:+ " " +:+ wireLine "001" [n] (Some text) +:+ CR +:+ LF)
      by (cbn [wireLine JoinStrings]; rewrite !append_assoc; reflexivity).
    rewrite (parseToEvent_sourced ToUpper server "001" [n] (Some text) Hs);
      [|reflexivity|cbn [forallb]; rewrite Hm; reflexivity].
    rewrite (splitSource_server server Hb). reflexivity.
  - cbn [step]. unfold dispatch. cbn [Code]. rewrite Hup.
    cbn [String.eqb Ascii.eqb Bool.eqb andb]. reflexivity.
  - cbn. repeat split.
Qed.

Lemma welcome_settles_nick_witness :
  exists (e : Event) (c' : Connection),
    parseToEvent gostrings.ToUpperASCII
      (":" +:+ "irc.example.net" +:+ " 001 " +:+ "bob_" +:+ " :" +:+ "Welcome" +:+ CR +:+ LF)
    = Ok e /\
    step 5 (Received e) bob_session = Ok c' /\
    GetNick c' = "bob_" /\ nick c' = "bob_" /\ fullyConnected c' = true /\ nickError c' = "" /\
    pwrite c' = pwrite bob_session.
Proof.
  apply (welcome_settles_nick gostrings.ToUpperASCII 5 "irc.example.net" "bob_" "Welcome"
           bob_session); reflexivity.
Defined.

(** ** The callback registry *)

Lemma incr_small (x : Z) : 0 <= x < 2 ^ 63 - 1 -> incr x = x + 1.
Proof.
  intros H. unfold incr, wrap_int.
  assert (E63 : 2 ^ 63 = 9223372036854775808) by reflexivity.
  assert (E64 : 2 ^ 64 = 18446744073709551616) by reflexivity.
  rewrite E63, E64 in *. rewrite Z.mod_small by lia. lia.
Qed.

Section RegistryFacts.

Variable Handler : Type.
Variable ToUpper : string -> string.


Lemma default_lookup_insert (m : gmap string (gmap Z Handler)) (k k' : string)
      (v : gmap Z Handler) :
  default ∅ (<[k := v]> m !! k') = if decide (k = k') then v else default ∅ (m !! k').
Proof. rewrite lookup_insert. destruct (decide (k = k')); reflexivity. Qed.

Lemma idsBelowCounter_empty : idsBelowCounter Handler (mkCallbacks ∅ 0).
Proof. intros code inner id He. cbn in He. rewrite lookup_empty in He. discriminate. Qed.

Lemma counter_unused (r : Callbacks Handler) (code : string) (inner : gmap Z Handler) :
  idsBelowCounter Handler r -> events r !! code = Some inner -> inner !! idCounter r = None.
Proof.
  intros Hinv He. destruct (inner !! idCounter r) as [h|] eqn:E; [|reflexivity].
  exfalso. pose proof (Hinv code inner (idCounter r) He (ex_intro _ h E)). lia.
Qed.

Lemma counter_unused_default (r : Callbacks Handler) (code : string) :
  idsBelowCounter Handler r -> default ∅ (events r !! code) !! idCounter r = None.
Proof.
  intros Hinv. destruct (events r !! code) as [w|] eqn:E; cbn [default];
    [exact (counter_unused r code w Hinv E) | apply lookup_empty].
Qed.

Lemma AddCallback_invariant (eventcode : string) (callback : Handler) (r : Callbacks Handler) :
  idsBelowCounter Handler r ->
  0 <= idCounter r < 2 ^ 63 - 1 ->
  idsBelowCounter Handler (snd (AddCallback Handler ToUpper eventcode callback r)).
Proof.
  intros Hinv Hc code inner id He Hid. cbn [AddCallback snd events idCounter] in He |- *.
  rewrite (incr_small _ Hc).
  destruct (decide (ToUpper eventcode = code)) as [<-|Hne].
  - rewrite lookup_insert_eq in He. injection He as <-.
    apply lookup_insert_is_Some' in Hid. destruct Hid as [<-|Hid]; [lia|].
    destruct (events r !! ToUpper eventcode) as [inner0|] eqn:E0; cbn [default] in Hid.
    + pose proof (Hinv _ _ _ E0 Hid). lia.
    + rewrite lookup_empty in Hid. destruct Hid as [? Hid]. discriminate.
  - rewrite lookup_insert_ne in He by assumption. pose proof (Hinv _ _ _ He Hid). lia.
Qed.

(** X10: [AddCallback] hands out an identifier that no handler of any
    event code has, registers the callback under it, keeps every earlier
    registration, and keeps all identifiers below the counter, as long as the
    counter has not reached the largest [int]. *)
Theorem AddCallback_fresh (eventcode : string) (callback : Handler) (r : Callbacks Handler) :
  idsBelowCounter Handler r ->
  0 <= idCounter r < 2 ^ 63 - 1 ->
  let id := fst (AddCallback Handler ToUpper eventcode callback r) in
  let r' := snd (AddCallback Handler ToUpper eventcode callback r) in
  (forall code inner, events r !! code = Some inner -> inner !! id = None) /\
  (exists inner', events r' !! ToUpper eventcode = Some inner' /\ inner' !! id = Some callback) /\
  (forall code inner i h,
     events r !! code = Some inner -> inner !! i = Some h ->
     exists inner', events r' !! code = Some inner' /\ inner' !! i = Some h) /\
  idsBelowCounter Handler r' /\ idCounter r' = idCounter r + 1.
Proof.
  intros Hinv Hc id r'.
  split; [intros code inner; apply counter_unused; exact Hinv|].
  split; [|split; [|split]].
  - eexists. split; [apply lookup_insert_eq | apply lookup_insert_eq].
  - intros code inner i h He Hi. subst r' id. cbn [AddCallback fst snd events].
    destruct (decide (ToUpper eventcode = code)) as [<-|Hne].
    + eexists. split; [apply lookup_insert_eq|]. rewrite He. cbn [default].
      rewrite lookup_insert_ne; [exact Hi|]. intros <-.
      rewrite (counter_unused _ _ _ Hinv He) in Hi. discriminate.
    + exists inner. split; [rewrite lookup_insert_ne; assumption | exact Hi].
  - apply AddCallback_invariant; assumption.
  - apply incr_small. exact Hc.
Qed.

(** X11: a handler that was just added is started: on every event that
    is dispatched with the upper-cased code, [RunCallbacks] starts the
    callback under the identifier that [AddCallback] returned. *)
Theorem AddCallback_then_started (eventcode : string) (callback : Handler)
        (r : Callbacks Handler) (e e' : Event) :
  idsBelowCounter Handler r ->
  reclassify e = (e', true) ->
  Code e' = ToUpper eventcode ->
  exists handlers,
    started Handler (snd (AddCallback Handler ToUpper eventcode callback r)) e = Some handlers /\
    handlers !! fst (AddCallback Handler ToUpper eventcode callback r) = Some callback.
Proof.
  intros Hinv Hr Hcode. cbn [AddCallback fst snd].
  unfold started, RunCallbacks. rewrite Hr. cbn [snd events]. eexists. split; [reflexivity|].
  rewrite Hcode, !default_lookup_insert.
  destruct (decide (ToUpper eventcode = ToUpper eventcode)) as [_|]; [|congruence].
  destruct (decide (ToUpper eventcode = "*")) as [Hs|Hs].
  - apply lookup_union_Some_l, lookup_insert_eq.
  - rewrite lookup_union_r; [apply lookup_insert_eq|].
    apply counter_unused_default. exact Hinv.
Qed.

(** X12: [RemoveCallback] answers true exactly when a handler is
    registered under the upper-cased code and the identifier; then that
    handler, and nothing else, is gone; otherwise the registry is left as it
    was. *)
Theorem RemoveCallback_spec (eventcode : string) (i : Z) (r : Callbacks Handler) :
  let b := fst (RemoveCallback Handler ToUpper eventcode i r) in
  let r' := snd (RemoveCallback Handler ToUpper eventcode i r) in
  (b = true <-> exists inner, events r !! ToUpper eventcode = Some inner /\ is_Some (inner !! i)) /\
  (b = false -> r' = r) /\
  (b = true ->
   forall code j,
     default ∅ (events r' !! code) !! j
     = if decide (code = ToUpper eventcode /\ j = i) then None
       else default ∅ (events r !! code) !! j).
Proof.
  unfold RemoveCallback.
  destruct (events r !! ToUpper eventcode) as [inner|] eqn:E.
  - destruct (inner !! i) as [h|] eqn:Ei; cbn [fst snd events].
    + split; [split; [intros _; exists inner; split; [reflexivity | exists h; exact Ei]
                     | reflexivity]|].
      split; [discriminate|]. intros _ code j. rewrite default_lookup_insert.
      destruct (decide (ToUpper eventcode = code)) as [<-|Hne].
      * rewrite E. cbn [default].
        destruct (decide (ToUpper eventcode = ToUpper eventcode /\ j = i)) as [[_ ->]|Hn].
        -- apply lookup_delete_eq.
        -- apply lookup_delete_ne. intros ->. apply Hn. split; reflexivity.
      * destruct (decide (code = ToUpper eventcode /\ j = i)) as [[-> _]|_];
          [congruence | reflexivity].
    + split; [split; [discriminate|]|split; [reflexivity | discriminate]].
      intros [inner0 [H0 [h Hh]]]. injection H0 as <-. congruence.
  - cbn [fst snd]. split; [split; [discriminate|]|split; [reflexivity | discriminate]].
    intros [inner0 [H0 _]]. discriminate.
Qed.

(** X13: adding a handler and removing it again changes nothing for any
    event: the same handlers are started as before; only the counter has
    moved on, so that the identifier is not handed out again. *)
Theorem AddCallback_RemoveCallback (eventcode : string) (callback : Handler)
        (r : Callbacks Handler) :
  idsBelowCounter Handler r ->
  0 <= idCounter r < 2 ^ 63 - 1 ->
  let id := fst (AddCallback Handler ToUpper eventcode callback r) in
  let r1 := snd (AddCallback Handler ToUpper eventcode callback r) in
  fst (RemoveCallback Handler ToUpper eventcode id r1) = true /\
  (forall e, started Handler (snd (RemoveCallback Handler ToUpper eventcode id r1)) e = started Handler r e) /\
  idCounter (snd (RemoveCallback Handler ToUpper eventcode id r1)) = idCounter r + 1.
Proof.
  intros Hinv Hc. cbn [AddCallback fst snd].
  unfold RemoveCallback. cbn [events idCounter].
  rewrite lookup_insert_eq, lookup_insert_eq. cbn [fst snd events idCounter].
  split; [reflexivity|]. split; [|apply incr_small; exact Hc].
  intros e. unfold started, RunCallbacks. destruct (reclassify e) as [e' [|]]; [|reflexivity].
  cbn [snd events]. f_equal. rewrite insert_insert_eq.
  assert (Hd : delete (idCounter r) (<[idCounter r := callback]>
                 (default ∅ (events r !! ToUpper eventcode)))
               = default ∅ (events r !! ToUpper eventcode)).
  { apply delete_insert_id. apply counter_unused_default. exact Hinv. }
  rewrite Hd, !default_lookup_insert.
  destruct (decide (ToUpper eventcode = "*")), (decide (ToUpper eventcode = Code e'));
    subst; try reflexivity; congruence.
Qed.

(** X14: [ReplaceCallback] never adds a handler: under every code the same
    identifiers are registered afterwards as before; where the identifier is
    registered under the upper-cased code, it now stands for the new
    callback, and otherwise the registry is left as it was. *)
Theorem ReplaceCallback_spec (eventcode : string) (i : Z) (callback : Handler)
        (r : Callbacks Handler) :
  let r' := ReplaceCallback Handler ToUpper eventcode i callback r in
  (forall code, dom (default ∅ (events r' !! code)) = dom (default ∅ (events r !! code))) /\
  idCounter r' = idCounter r /\
  (forall inner, events r !! ToUpper eventcode = Some inner -> is_Some (inner !! i) ->
                 default ∅ (events r' !! ToUpper eventcode) !! i = Some callback) /\
  ((forall inner, events r !! ToUpper eventcode = Some inner -> inner !! i = None) -> r' = r).
Proof.
  unfold ReplaceCallback.
  destruct (events r !! ToUpper eventcode) as [inner|] eqn:E.
  - destruct (inner !! i) as [h|] eqn:Ei; cbn [events idCounter].
    + split; [|split; [reflexivity | split]].
      * intros code. rewrite default_lookup_insert.
        destruct (decide (ToUpper eventcode = code)) as [<-|Hne]; [|reflexivity].
        rewrite E. cbn [default]. rewrite dom_insert_L.
        apply subseteq_union_1_L, singleton_subseteq_l, elem_of_dom. exists h. exact Ei.
      * intros inner0 _ _. rewrite lookup_insert_eq. cbn [default]. apply lookup_insert_eq.
      * intros Hn. rewrite (Hn inner eq_refl) in Ei. discriminate.
    + split; [reflexivity | split; [reflexivity | split; [|reflexivity]]].
      intros inner0 H0 [h Hh]. injection H0 as <-. congruence.
  - split; [reflexivity | split; [reflexivity | split; [|reflexivity]]].
    intros inner0 H0. discriminate.
Qed.

(** X15: [ClearCallback] answers true exactly when the upper-cased code is
    known; then an event with that code no longer starts any handler but
    those of the wildcard, and the handlers of the other codes stay;
    otherwise the registry is left as it was. *)
Theorem ClearCallback_spec (eventcode : string) (r : Callbacks Handler) :
  let b := fst (ClearCallback Handler ToUpper eventcode r) in
  let r' := snd (ClearCallback Handler ToUpper eventcode r) in
  (b = true <-> is_Some (events r !! ToUpper eventcode)) /\
  (b = false -> r' = r) /\
  (b = true -> ToUpper eventcode <> "*" ->
   forall e e', reclassify e = (e', true) -> Code e' = ToUpper eventcode ->
     started Handler r' e = Some (default ∅ (events r !! "*"))) /\
  (b = true -> forall code, code <> ToUpper eventcode -> events r' !! code = events r !! code).
Proof.
  unfold ClearCallback.
  destruct (events r !! ToUpper eventcode) as [inner|] eqn:E; cbn [fst snd events].
  - split; [split; [intros _; exists inner; reflexivity | reflexivity]|].
    split; [discriminate|]. split.
    + intros _ Hs e e' Hr Hcode. unfold started, RunCallbacks. rewrite Hr. cbn [snd events].
      rewrite Hcode, !default_lookup_insert.
      destruct (decide (ToUpper eventcode = "*")); [congruence|].
      destruct (decide (ToUpper eventcode = ToUpper eventcode)); [|congruence].
      f_equal. apply (right_id_L ∅ (∪)).
    + intros _ code Hne. apply lookup_insert_ne. congruence.
  - split; [split; [discriminate | intros [? ?]; discriminate]|].
    split; [reflexivity|]. split; discriminate.
Qed.

End RegistryFacts.

Lemma registry_join_invariant : idsBelowCounter nat registry_join.
Proof.
  apply AddCallback_invariant; [apply idsBelowCounter_empty | cbn; lia].
Qed.

Lemma AddCallback_fresh_witness :
  exists inner',
    events (snd (AddCallback nat gostrings.ToUpperASCII "privmsg" 8%nat registry_join))
      !! gostrings.ToUpperASCII "privmsg" = Some inner'
    /\ inner' !! fst (AddCallback nat gostrings.ToUpperASCII "privmsg" 8%nat registry_join)
       = Some 8%nat.
Proof.
  apply (AddCallback_fresh nat gostrings.ToUpperASCII "privmsg" 8%nat registry_join).
  - exact registry_join_invariant.
  - vm_compute. split; [discriminate | reflexivity].
Defined.

Lemma AddCallback_then_started_witness :
  exists handlers,
    started nat (snd (AddCallback nat gostrings.ToUpperASCII "join" 8%nat registry_join))
            alice_joins = Some handlers /\
    handlers !! fst (AddCallback nat gostrings.ToUpperASCII "join" 8%nat registry_join)
    = Some 8%nat.
Proof.
  apply (AddCallback_then_started nat gostrings.ToUpperASCII "join" 8%nat registry_join
                                  alice_joins alice_joins).
  - exact registry_join_invariant.
  - reflexivity.
  - reflexivity.
Defined.

Lemma AddCallback_RemoveCallback_witness :
  fst (RemoveCallback nat gostrings.ToUpperASCII "join"
         (fst (AddCallback nat gostrings.ToUpperASCII "join" 8%nat registry_join))
         (snd (AddCallback nat gostrings.ToUpperASCII "join" 8%nat registry_join)))
  = true /\
  (forall e,
     started nat
       (snd (RemoveCallback nat gostrings.ToUpperASCII "join"
               (fst (AddCallback nat gostrings.ToUpperASCII "join" 8%nat registry_join))
               (snd (AddCallback nat gostrings.ToUpperASCII "join" 8%nat registry_join))))
       e
     = started nat registry_join e) /\
  idCounter
    (snd (RemoveCallback nat gostrings.ToUpperASCII "join"
            (fst (AddCallback nat gostrings.ToUpperASCII "join" 8%nat registry_join))
            (snd (AddCallback nat gostrings.ToUpperASCII "join" 8%nat registry_join))))
  = idCounter registry_join + 1.
Proof.
  apply (AddCallback_RemoveCallback nat gostrings.ToUpperASCII "join" 8%nat registry_join).
  - exact registry_join_invariant.
  - vm_compute. split; [discriminate | reflexivity].
Defined.

(** ** Dispatch of a CTCP message that never closes *)

Lemma LastIndex_byte_absent (c : ascii) (s : string) :
  noByte c s = true -> gostrings.LastIndex s (String c "") = -1.
Proof.
  induction s as [|x s IH]; intros H; [reflexivity|].
  cbn [noByte] in H. apply andb_true_iff in H as [Hx Hs]. apply negb_true_iff in Hx.
  cbn [gostrings.LastIndex]. rewrite (IH Hs), HasPrefix_cons_char, Hx. reflexivity.
Qed.

(** X16: a PRIVMSG whose message opens with the CTCP framing byte and
    never closes it starts no handler at all, not even those of the wildcard
    or of PRIVMSG, and the event is left with the code CTCP. *)
Theorem RunCallbacks_unterminated (Handler : Type) (events : gmap string (gmap Z Handler))
        (event : Event) (body : string) :
  Code event = "PRIVMSG" ->
  Message event = SOH +:+ body ->
  (2 <= String.length body)%nat ->
  noByte "001" body = true ->
  RunCallbacks Handler events event = (set_Code "CTCP" event, None).
Proof.
  intros Hc Hm Hl Hb. unfold RunCallbacks, reclassify. rewrite Hc, Hm.
  change (SOH +:+ body) with (String "001" body).
  assert (H2 : (2 <? gostrings.len (String "001" body)) = true).
  { apply Z.ltb_lt. unfold gostrings.len. cbn [String.length]. lia. }
  rewrite H2. cbn [String.eqb Ascii.eqb Bool.eqb andb starts_with gostrings.LastIndex].
  unfold SOH. rewrite (LastIndex_byte_absent "001" body Hb).
  cbn. reflexivity.
Qed.

Lemma RunCallbacks_unterminated_witness :
  RunCallbacks nat {[ "PRIVMSG" := {[ 2 := 8%nat ]}; "*" := {[ 3 := 9%nat ]} ]}
               (set_Arguments ["bob"; SOH +:+ "VERSION"] version_request)
  = (set_Code "CTCP" (set_Arguments ["bob"; SOH +:+ "VERSION"] version_request), None).
Proof.
  apply (RunCallbacks_unterminated nat _ _ "VERSION");
    [reflexivity | reflexivity | cbn; lia | reflexivity].
Defined.

(** ** Nickname requests and the keep-alive worker *)

Lemma Nick_request_sends (now : Time) (n : string) (c : Connection) :
  nickChangeInProgress c = false ->
  nickcurrent c <> n ->
  Nick_request now n c
  = SendRaw ("NICK " +:+ n)
      (set_nickPending n (set_nickChangeTimeout now
         (set_nickChangeInProgress true (set_lastNickChange now (set_nick n c))))).
Proof.
  intros Hp Hn. unfold Nick_request. rewrite Hp. cbn [andb].
  cbn [set_nick set_lastNickChange nickcurrent].
  apply String.eqb_neq in Hn. rewrite Hn. reflexivity.
Qed.

Lemma Nick_request_queues (now : Time) (n : string) (c : Connection) :
  nickChangeInProgress c = true ->
  now - nickChangeTimeout c < 30 * Second ->
  Nick_request now n c = set_lastNickChange now (set_nickPending n (set_nick n c)).
Proof.
  intros Hp Ht. unfold Nick_request. apply Z.ltb_lt in Ht. rewrite Hp, Ht. reflexivity.
Qed.

(** X17: a second call of [Nick] that comes less than thirty seconds
    after one that sent its request sends nothing: the queue holds the one
    NICK line of the first call, while the desired and the pending nickname
    are those of the second call and the current nickname is untouched. *)
Theorem Nick_request_debounced (now1 now2 : Time) (n1 n2 : string) (c : Connection) :
  nickChangeInProgress c = false ->
  nickcurrent c <> n1 ->
  now2 - now1 < 30 * Second ->
  let c2 := Nick_request now2 n2 (Nick_request now1 n1 c) in
  pwrite c2 = pwrite c ++ ["NICK " +:+ n1 +:+ CR +:+ LF] /\
  nick c2 = n2 /\ nickPending c2 = n2 /\ nickcurrent c2 = nickcurrent c /\
  nickChangeInProgress c2 = true.
Proof.
  intros Hp Hn Ht. cbv zeta.
  rewrite (Nick_request_sends now1 n1 c Hp Hn).
  rewrite Nick_request_queues; [|reflexivity|exact Ht].
  cbn. repeat split.
Qed.

Lemma Nick_request_debounced_witness :
  pwrite (Nick_request 10 "carol" (Nick_request 5 "alice" bob_session))
  = pwrite bob_session ++ ["NICK " +:+ "alice" +:+ CR +:+ LF].
Proof.
  apply (Nick_request_debounced 5 10 "alice" "carol" bob_session);
    [reflexivity | discriminate | reflexivity].
Defined.

Section KeepAliveFacts.

Variable formatInt : Z -> string.

(** X18: a request that the debounce of [Nick] swallowed is sent by the
    next tick of the keep-alive worker, unless the server has meanwhile made
    it the current nickname. *)
Theorem debounced_request_sent_by_tick (now1 now2 now3 : Time) (n1 n2 : string)
        (c : Connection) :
  nickChangeInProgress c = false ->
  nickcurrent c <> n1 ->
  nickcurrent c <> n2 ->
  now2 - now1 < 30 * Second ->
  pwrite (pingTick formatInt now3 (Nick_request now2 n2 (Nick_request now1 n1 c)))
  = pwrite c ++ ["NICK " +:+ n1 +:+ CR +:+ LF;
                 "PING " +:+ formatInt now3 +:+ CR +:+ LF;
                 "NICK " +:+ n2 +:+ CR +:+ LF].
Proof.
  intros Hp Hn1 Hn2 Ht.
  rewrite (Nick_request_sends now1 n1 c Hp Hn1).
  rewrite Nick_request_queues; [|reflexivity|exact Ht].
  unfold pingTick.
  cbn [SendRaw set_pwrite set_nickPending set_nickChangeTimeout set_nickChangeInProgress
       set_lastNickChange set_nick nick nickcurrent pwrite].
  assert (E : String.eqb n2 (nickcurrent c) = false)
    by (apply String.eqb_neq; congruence).
  rewrite E. cbn [negb]. cbn. rewrite <- !app_assoc. reflexivity.
Qed.

End KeepAliveFacts.

Lemma debounced_request_sent_by_tick_witness :
  pwrite (pingTick (fun _ => "0") 20 (Nick_request 10 "carol" (Nick_request 5 "alice" bob_session)))
  = pwrite bob_session ++ ["NICK " +:+ "alice" +:+ CR +:+ LF;
                           "PING " +:+ "0" +:+ CR +:+ LF;
                           "NICK " +:+ "carol" +:+ CR +:+ LF].
Proof.
  apply (debounced_request_sent_by_tick (fun _ => "0") 5 10 20 "alice" "carol" bob_session);
    [reflexivity | discriminate | discriminate | reflexivity].
Defined.

(** ** The numerics that follow the welcome message *)

Lemma set_fullyConnected_same (c : Connection) :
  fullyConnected c = true -> set_fullyConnected true c = c.
Proof. destruct c. cbn. intros ->. reflexivity. Qed.

Lemma onRegistrationNumeric_idle (c : Connection) (n : RegistrationNumeric) :
  registrationSteps c <= 0 \/ fullyConnected c = true ->
  onRegistrationNumeric c n = c.
Proof.
  intros [H|H].
  - apply Z.ltb_ge in H.
    destruct n; cbn [onRegistrationNumeric]; unfold on002, on005, on376;
      rewrite H, andb_false_r; reflexivity.
  - destruct n; cbn [onRegistrationNumeric]; unfold on002, on005, on376;
      rewrite H; cbn [negb andb];
      destruct (0 <? registrationSteps c);
      try reflexivity; apply set_fullyConnected_same; exact H.
Qed.

Lemma onRegistrationNumeric_frame (c : Connection) (n : RegistrationNumeric) :
  let c' := onRegistrationNumeric c n in
  nick c' = nick c /\ nickcurrent c' = nickcurrent c /\ pwrite c' = pwrite c /\
  (fullyConnected c = true -> fullyConnected c' = true) /\
  (0 < registrationSteps c' -> 0 < registrationSteps c).
Proof.
  cbv zeta.
  destruct n; cbn [onRegistrationNumeric]; unfold on002, on005, on376;
    destruct (fullyConnected c) eqn:Ef; cbn [negb andb];
    destruct (0 <? registrationSteps c) eqn:Es;
    try (destruct (4 <=? registrationSteps
                           (set_registrationSteps (incr (registrationSteps c)) c)));
    cbn; rewrite ?Ef;
    (split; [reflexivity|]; split; [reflexivity|]; split; [reflexivity|];
     split; [intros; congruence|]);
    apply Z.ltb_lt in Es || apply Z.ltb_ge in Es; lia.
Qed.

(** X19: the numerics 002 to 005, 376 and 422, in any number and order,
    change nothing before the welcome message has been counted
    ([registrationSteps] is not positive) and nothing once the connection is
    marked as fully connected; in every state they leave the nicknames and
    the outbound queue alone, never take the mark back, and never start the
    count themselves. *)
Theorem registration_numerics (ns : list RegistrationNumeric) (c : Connection) :
  let c' := fold_left onRegistrationNumeric ns c in
  (registrationSteps c <= 0 \/ fullyConnected c = true -> c' = c) /\
  nick c' = nick c /\ nickcurrent c' = nickcurrent c /\ pwrite c' = pwrite c /\
  (fullyConnected c = true -> fullyConnected c' = true) /\
  (0 < registrationSteps c' -> 0 < registrationSteps c).
Proof.
  cbv zeta. revert c. induction ns as [|n ns IH]; intros c.
  - cbn [fold_left]. repeat split; auto.
  - cbn [fold_left].
    destruct (IH (onRegistrationNumeric c n)) as [I1 [I2 [I3 [I4 [I5 I6]]]]].
    destruct (onRegistrationNumeric_frame c n) as [F2 [F3 [F4 [F5 F6]]]].
    split; [|split; [congruence | split; [congruence | split; [congruence | split]]]].
    + intros H. rewrite (onRegistrationNumeric_idle c n H) in *. apply I1. exact H.
    + intros H. apply I5, F5, H.
    + intros H. apply F6, I6, H.
Qed.

Lemma registration_numerics_witness :
  fold_left onRegistrationNumeric [RPL_YOURHOST; RPL_ISUPPORT; RPL_ENDOFMOTD] bob_session
  = bob_session.
Proof.
  apply (registration_numerics [RPL_YOURHOST; RPL_ISUPPORT; RPL_ENDOFMOTD] bob_session).
  left. cbn. lia.
Defined.

(** ** The nicknames tried after a refusal *)

Lemma modifyNick_length (c : Connection) :
  String.length (nickcurrent (modifyNick c)) = S (String.length (nickcurrent c)).
Proof.
  unfold modifyNick. destruct (8 <? gostrings.len (nickcurrent c)); cbn [set_nickcurrent nickcurrent].
  - rewrite append_cons, append_nil_l. reflexivity.
  - rewrite length_append. cbn [String.length]. lia.
Qed.

Lemma modifyNick_iter_length (k : nat) (c : Connection) :
  String.length (nickcurrent (Nat.iter k modifyNick c))
  = (k + String.length (nickcurrent c))%nat.
Proof.
  induction k as [|k IH]; [reflexivity|].
  rewrite Nat.iter_succ, modifyNick_length, IH. lia.
Qed.

(** X20: [modifyNick] never comes back to a nickname: it makes the current
    nickname one byte longer each time, so the names it yields in a row
    differ from the one it started from and from one another; only the
    current nickname is written. *)
Theorem modifyNick_never_repeats (i j : nat) (c : Connection) :
  (i < j)%nat ->
  nickcurrent (Nat.iter i modifyNick c) <> nickcurrent (Nat.iter j modifyNick c) /\
  nick (Nat.iter j modifyNick c) = nick c /\
  pwrite (Nat.iter j modifyNick c) = pwrite c.
Proof.
  intros Hij. split.
  - intros E. apply (f_equal String.length) in E.
    rewrite !modifyNick_iter_length in E. lia.
  - clear Hij. induction j as [|j IH]; [split; reflexivity|].
    rewrite Nat.iter_succ. destruct IH as [I1 I2]. rewrite <- I1, <- I2.
    unfold modifyNick. destruct (8 <? gostrings.len _); split; reflexivity.
Qed.

Lemma modifyNick_never_repeats_witness :
  nickcurrent (Nat.iter 0 modifyNick bob_session)
  <> nickcurrent (Nat.iter 2 modifyNick bob_session).
Proof. apply (modifyNick_never_repeats 0 2 bob_session). lia. Defined.

(** ** A refused nickname *)

Lemma retryModified_other (now : Time) (e : Event) (c : Connection) :
  nth 1 (Arguments e) "" <> nick c -> retryModified now e c = c.
Proof.
  intros H. unfold retryModified. apply String.eqb_neq in H. rewrite H.
  destruct (1 <? Z.of_nat (length (Arguments e))); reflexivity.
Qed.

Lemma retryModified_desired (now : Time) (e : Event) (c : Connection) :
  (1 < length (Arguments e))%nat ->
  nth 1 (Arguments e) "" = nick c ->
  nickcurrent c = nick c \/ nickcurrent c = "" ->
  let c' := retryModified now e c in
  nick c' = nick c /\
  nickcurrent c' = nickcurrent (modifyNick (set_nickcurrent (nick c) c)) /\
  nickcurrent c' <> nick c /\
  pwrite c' = pwrite c ++ ["NICK " +:+ nickcurrent c' +:+ CR +:+ LF].
Proof.
  intros Hl Ha Hc. cbv zeta. unfold retryModified.
  assert (H1 : (1 <? Z.of_nat (length (Arguments e))) = true) by (apply Z.ltb_lt; lia).
  rewrite H1, Ha, String.eqb_refl.
  assert (Hs : nickcurrent (seedCurrent c) = nick c /\ nick (seedCurrent c) = nick c
               /\ pwrite (seedCurrent c) = pwrite c).
  { unfold seedCurrent. destruct Hc as [Hc|Hc]; rewrite Hc.
    - destruct (String.eqb (nick c) ""); cbn; rewrite ?Hc; repeat split.
    - cbn. repeat split. }
  destruct Hs as [Hs1 [Hs2 Hs3]].
  assert (Hm : nickcurrent (modifyNick (seedCurrent c))
               = nickcurrent (modifyNick (set_nickcurrent (nick c) c))).
  { unfold modifyNick. rewrite Hs1. cbn [set_nickcurrent nickcurrent].
    destruct (8 <? gostrings.len (nick c)); reflexivity. }
  assert (Hn : nick (modifyNick (seedCurrent c)) = nick c).
  { unfold modifyNick. destruct (8 <? _); cbn; exact Hs2. }
  assert (Hp : pwrite (modifyNick (seedCurrent c)) = pwrite c).
  { unfold modifyNick. destruct (8 <? _); cbn; exact Hs3. }
  cbn [SendRaw set_pwrite set_lastNickChange nick nickcurrent pwrite].
  rewrite Hn, Hp, Hm. split; [reflexivity|]. split; [reflexivity|].
  split; [|reflexivity].
  intros E. apply (f_equal String.length) in E. rewrite modifyNick_length in E.
  cbn in E. lia.
Qed.

(** X21: the callbacks of 433, 436 and 437 retry once.  When the server
    refuses the desired nickname of a session whose current nickname is the
    desired one or still empty, the callback sends a NICK for the modified
    nickname; when the server then refuses this modified nickname too, the
    callback sends nothing and keeps the nicknames: the refused name is not
    the desired one. *)
Theorem refusal_of_modified_nick (now1 now2 : Time) (e1 e2 : Event) (c : Connection) :
  (1 < length (Arguments e1))%nat ->
  nth 1 (Arguments e1) "" = nick c ->
  nickcurrent c = nick c \/ nickcurrent c = "" ->
  forall handler,
    In handler [on433; on437; on436] ->
    let c1 := handler now1 e1 c in
    nth 1 (Arguments e2) "" = nickcurrent c1 ->
    let c2 := handler now2 e2 c1 in
    pwrite c1 = pwrite c ++ ["NICK " +:+ nickcurrent c1 +:+ CR +:+ LF] /\
    nickcurrent c1 <> nick c /\
    pwrite c2 = pwrite c1 /\ nickcurrent c2 = nickcurrent c1 /\ nick c2 = nick c.
Proof.
  intros Hl Ha Hc handler Hin.
  assert (Hh : exists text, forall now e c0,
               handler now e c0 = retryModified now e (set_nickError text c0)).
  { cbn [In] in Hin. destruct Hin as [<-|[<-|[<-|[]]]]; eexists; intros; reflexivity. }
  destruct Hh as [text Hh]. cbv zeta. rewrite !Hh.
  set (c0 := set_nickError text c).
  destruct (retryModified_desired now1 e1 c0 Hl Ha Hc) as [R1 [R2 [R3 R4]]].
  cbv zeta in *. change (nick c0) with (nick c) in *. change (pwrite c0) with (pwrite c) in *.
  intros H2. split; [exact R4|]. split; [exact R3|].
  rewrite retryModified_other.
  - cbn. rewrite R1. repeat split.
  - cbn [set_nickError nick]. rewrite H2, R1. exact R3.
Qed.

Lemma refusal_of_modified_nick_witness :
  pwrite (on433 2 in_use_bob_modified (on433 1 in_use_bob bob_session))
  = pwrite (on433 1 in_use_bob bob_session).
Proof.
  apply (refusal_of_modified_nick 1 2 in_use_bob in_use_bob_modified bob_session);
    [cbn; lia | reflexivity | left; reflexivity | left; reflexivity | reflexivity].
Defined.

(** ** DCC addresses *)

Lemma lor_shiftl_add (a b n : Z) :
  0 <= a < 2 ^ n -> 0 <= n -> Z.lor a (Z.shiftl b n) = a + b * 2 ^ n.
Proof.
  intros Ha Hn. rewrite <- (Z.shiftl_mul_pow2 b n Hn), <- Z.add_lor_land.
  assert (H0 : Z.land a (Z.shiftl b n) = 0).
  { apply Z.bits_inj'. intros i Hi. rewrite Z.land_spec, Z.bits_0.
    destruct (Z.lt_ge_cases i n) as [Hlt|Hge].
    - rewrite (Z.shiftl_spec_low b n i Hlt). apply andb_false_r.
    - assert (Hz : Z.testbit a i = false).
      { apply Z.testbit_false; [exact Hi|]. rewrite Z.div_small; [reflexivity|].
        split; [lia|]. apply Z.lt_le_trans with (2 ^ n); [lia|].
        apply Z.pow_le_mono_r; lia. }
      rewrite Hz. reflexivity. }
  rewrite H0. lia.
Qed.

Lemma byte_range (b : Byte.byte) : 0 <= Z.of_N (Byte.to_N b) < 256.
Proof. pose proof (Byte.to_N_bounded b). lia. Qed.

Lemma byte_value_inj (b b' : Byte.byte) :
  Z.of_N (Byte.to_N b) = Z.of_N (Byte.to_N b') -> b = b'.
Proof.
  intros H. apply N2Z.inj in H.
  pose proof (Byte.of_to_N b) as E. rewrite H, Byte.of_to_N in E. congruence.
Qed.

Lemma Uint32_value (b0 b1 b2 b3 : Byte.byte) (rest : list Byte.byte) :
  Uint32 (b0 :: b1 :: b2 :: b3 :: rest)
  = Ok (Z.of_N (Byte.to_N b3) + Z.of_N (Byte.to_N b2) * 2 ^ 8
        + Z.of_N (Byte.to_N b1) * 2 ^ 16 + Z.of_N (Byte.to_N b0) * 2 ^ 24).
Proof.
  pose proof (byte_range b0). pose proof (byte_range b1).
  pose proof (byte_range b2). pose proof (byte_range b3).
  cbn [Uint32]. f_equal.
  rewrite (lor_shiftl_add (Z.of_N (Byte.to_N b3)) _ 8) by (change (2 ^ 8) with 256; lia).
  rewrite (lor_shiftl_add _ _ 16) by (change (2 ^ 8) with 256; change (2 ^ 16) with 65536; lia).
  rewrite (lor_shiftl_add _ _ 24)
    by (change (2 ^ 8) with 256; change (2 ^ 16) with 65536; change (2 ^ 24) with 16777216; lia).
  reflexivity.
Qed.

(** X22: [ip2int] is exact on four-byte addresses and blind on longer ones:
    the number of a four-byte address is below 2^32, and two such addresses
    with the same number are the same address; a sixteen-byte address is read
    by its last four bytes alone, whatever the first twelve are; an address
    of fewer than four bytes stops the caller with a run-time panic. *)
Theorem ip2int_spec (ip ip' : list Byte.byte) :
  (length ip = 4%nat -> exists n, ip2int ip = Ok n /\ 0 <= n < 2 ^ 32) /\
  (length ip = 4%nat -> length ip' = 4%nat -> ip2int ip = ip2int ip' -> ip = ip') /\
  (length ip = 16%nat -> ip2int ip = ip2int (skipn 12 ip) /\ length (skipn 12 ip) = 4%nat) /\
  ((length ip < 4)%nat -> ip2int ip = Panic index_out_of_range).
Proof.
  split; [|split; [|split]].
  - intros Hl. destruct ip as [|b0 [|b1 [|b2 [|b3 [|? ?]]]]]; try discriminate.
    unfold ip2int. cbn [length Z.of_nat Pos.of_succ_nat Pos.succ Z.eqb Pos.eqb].
    rewrite Uint32_value.
    pose proof (byte_range b0). pose proof (byte_range b1).
    pose proof (byte_range b2). pose proof (byte_range b3).
    change (2 ^ 8) with 256. change (2 ^ 16) with 65536. change (2 ^ 24) with 16777216.
    change (2 ^ 32) with 4294967296.
    eexists. split; [reflexivity|]. lia.
  - intros Hl Hl'.
    destruct ip as [|b0 [|b1 [|b2 [|b3 [|? ?]]]]]; try discriminate.
    destruct ip' as [|d0 [|d1 [|d2 [|d3 [|? ?]]]]]; try discriminate.
    unfold ip2int. cbn [length Z.of_nat Pos.of_succ_nat Pos.succ Z.eqb Pos.eqb].
    rewrite !Uint32_value.
    pose proof (byte_range b0). pose proof (byte_range b1).
    pose proof (byte_range b2). pose proof (byte_range b3).
    pose proof (byte_range d0). pose proof (byte_range d1).
    pose proof (byte_range d2). pose proof (byte_range d3).
    change (2 ^ 8) with 256. change (2 ^ 16) with 65536. change (2 ^ 24) with 16777216.
    intros E. injection E as E.
    assert (E0 : Z.of_N (Byte.to_N b0) = Z.of_N (Byte.to_N d0)) by lia.
    assert (E1 : Z.of_N (Byte.to_N b1) = Z.of_N (Byte.to_N d1)) by lia.
    assert (E2 : Z.of_N (Byte.to_N b2) = Z.of_N (Byte.to_N d2)) by lia.
    assert (E3 : Z.of_N (Byte.to_N b3) = Z.of_N (Byte.to_N d3)) by lia.
    apply byte_value_inj in E0, E1, E2, E3. subst. reflexivity.
  - intros Hl. unfold ip2int. rewrite Hl, length_skipn, Hl. cbn. split; reflexivity.
  - intros Hl. unfold ip2int.
    destruct ip as [|b0 [|b1 [|b2 [|b3 ?]]]]; cbn in Hl |- *; try reflexivity; lia.
Qed.

Example ip2int_loopback : ip2int loopback = Ok 2130706433.
Proof. reflexivity. Qed.

(** ** DCC chats *)

(** X23: messages sent to an open chat are queued in the order of the calls,
    behind those already waiting, as long as the hundred places of the
    channel suffice; nothing else in the registry changes.  Once the channel
    holds a hundred messages, a further one is refused with an error and
    nothing changes at all. *)
Theorem SendDCCMessages_in_order (nick : string) (messages : list string)
        (chats : gmap string DCCChat) (chat : DCCChat) :
  chats !! nick = Some chat ->
  closed (Outgoing chat) = false ->
  ((length (buf (Outgoing chat)) + length messages <= 100)%nat ->
   fst (SendDCCMessages nick messages chats) = repeat (Ok tt) (length messages) /\
   exists chat',
     snd (SendDCCMessages nick messages chats) !! nick = Some chat' /\
     buf (Outgoing chat') = buf (Outgoing chat) ++ messages /\
     closed (Outgoing chat') = false /\
     Incoming chat' = Incoming chat /\
     forall other, other <> nick ->
       snd (SendDCCMessages nick messages chats) !! other = chats !! other) /\
  ((100 <= length (buf (Outgoing chat)))%nat ->
   forall message,
     SendDCCMessage nick message chats
     = (Err ("failed to send message to " +:+ nick +:+ ": channel full"), chats)).
Proof.
  intros Hc Ho. split.
  - revert chats chat Hc Ho. induction messages as [|m messages IH]; intros chats chat Hc Ho Hl.
    + cbn. split; [reflexivity|]. exists chat. rewrite app_nil_r. repeat split; assumption.
    + cbn [SendDCCMessages]. unfold SendDCCMessage. rewrite Hc, Ho.
      cbn [length] in Hl.
      assert (Hb : (Z.of_nat (length (buf (Outgoing chat))) <? 100) = true)
        by (apply Z.ltb_lt; lia).
      rewrite Hb.
      set (chat1 := set_Outgoing (mkChan (buf (Outgoing chat) ++ [m]) false) chat).
      set (chats1 := <[nick := chat1]> chats).
      assert (Hc1 : chats1 !! nick = Some chat1) by apply lookup_insert_eq.
      assert (Hl1 : (length (buf (Outgoing chat1)) + length messages <= 100)%nat).
      { subst chat1. cbn. rewrite length_app. cbn. lia. }
      destruct (IH chats1 chat1 Hc1 eq_refl Hl1) as [I1 [chat' [I2 [I3 [I4 [I5 I6]]]]]].
      destruct (SendDCCMessages nick messages chats1) as [rs chats2].
      cbn [fst snd length repeat] in *. split; [rewrite I1; reflexivity|].
      exists chat'. split; [exact I2|]. split.
      { rewrite I3. subst chat1. cbn. rewrite <- app_assoc. reflexivity. }
      split; [exact I4|]. split; [exact I5|].
      intros other Hne. rewrite (I6 other Hne). subst chats1.
      apply lookup_insert_ne. congruence.
  - intros Hl message. unfold SendDCCMessage. rewrite Hc, Ho.
    assert (Hb : (Z.of_nat (length (buf (Outgoing chat))) <? 100) = false)
      by (apply Z.ltb_ge; lia).
    rewrite Hb. reflexivity.
Qed.

Lemma SendDCCMessages_in_order_witness :
  fst (SendDCCMessages "alice" ["hi"; "there"] chat_with_alice) = repeat (Ok tt) 2 /\
  exists chat',
    snd (SendDCCMessages "alice" ["hi"; "there"] chat_with_alice) !! "alice" = Some chat' /\
    buf (Outgoing chat') = [] ++ ["hi"; "there"] /\
    closed (Outgoing chat') = false /\
    Incoming chat' = mkChan [] false /\
    forall other, other <> "alice" ->
      snd (SendDCCMessages "alice" ["hi"; "there"] chat_with_alice) !! other
      = chat_with_alice !! other.
Proof.
  apply (SendDCCMessages_in_order "alice" ["hi"; "there"] chat_with_alice
           (mkDCCChat "alice" false (mkChan [] false) (mkChan [] false)));
    [reflexivity | reflexivity | cbn; lia].
Defined.

Example send_to_full_chat :
  SendDCCMessage "alice" "hi" chat_full
  = (Err "failed to send message to alice: channel full", chat_full).
Proof. reflexivity. Qed.

(** X24: the lines that a chat has received are handed out in the order of
    their arrival, one for each call of [GetDCCMessage]; the call after the
    last one returns an error, which tells a closed chat from one that is
    only silent, and leaves the registry as it is. *)
Theorem GetDCCMessages_in_order (nick : string) (chats : gmap string DCCChat)
        (chat : DCCChat) :
  chats !! nick = Some chat ->
  let run := GetDCCMessages (length (buf (Incoming chat))) nick chats in
  fst run = map Ok (buf (Incoming chat)) /\
  GetDCCMessage nick (snd run)
  = (Err (if closed (Incoming chat)
          then "DCC chat with " +:+ nick +:+ " closed"
          else "no message available from " +:+ nick), snd run) /\
  forall other, other <> nick -> snd run !! other = chats !! other.
Proof.
  destruct chat as [cn cc [inc cl] out]. cbn [Incoming buf closed].
  revert chats. induction inc as [|m inc IH]; intros chats Hc; cbv zeta.
  - cbn [length GetDCCMessages fst snd map]. split; [reflexivity|].
    unfold GetDCCMessage. rewrite Hc. cbn [Incoming buf closed].
    split; [destruct cl; reflexivity | reflexivity].
  - set (chats1 := <[nick := mkDCCChat cn cc (mkChan inc cl) out]> chats).
    assert (E : GetDCCMessage nick chats = (Ok m, chats1)).
    { unfold GetDCCMessage. rewrite Hc. reflexivity. }
    cbn [length GetDCCMessages]. rewrite E.
    assert (Hc1 : chats1 !! nick = Some (mkDCCChat cn cc (mkChan inc cl) out))
      by apply lookup_insert_eq.
    destruct (IH chats1 Hc1) as [I1 [I2 I3]].
    destruct (GetDCCMessages (length inc) nick chats1) as [rs chats2].
    cbn [fst snd map] in *. split; [rewrite I1; reflexivity|]. split; [exact I2|].
    intros other Hne. rewrite (I3 other Hne). subst chats1.
    apply lookup_insert_ne. congruence.
Qed.

Lemma GetDCCMessages_in_order_witness :
  fst (GetDCCMessages 2 "alice" chat_backlog) = [Ok "hi"; Ok "there"].
Proof.
  apply (GetDCCMessages_in_order "alice" chat_backlog
           (mkDCCChat "alice" false (mkChan ["hi"; "there"] false) (mkChan [] false))).
  reflexivity.
Defined.

Lemma ListActiveDCCChats_In (chats : gmap string DCCChat) (nick : string) :
  In nick (ListActiveDCCChats chats) <-> is_Some (chats !! nick).
Proof.
  unfold ListActiveDCCChats. rewrite <- list_elem_of_In, list_elem_of_fmap. split.
  - intros [[k v] [-> H]]. apply elem_of_map_to_list in H. exists v. exact H.
  - intros [v H]. exists (nick, v). split; [reflexivity|].
    apply elem_of_map_to_list. exact H.
Qed.

(** X25: [ListActiveDCCChats] lists exactly the nicks for which
    [IsDCCChatActive] answers true, each of them once. *)
Theorem ListActiveDCCChats_spec (chats : gmap string DCCChat) :
  (forall nick, In nick (ListActiveDCCChats chats) <-> IsDCCChatActive nick chats = true) /\
  List.NoDup (ListActiveDCCChats chats).
Proof.
  split.
  - intros nick. unfold IsDCCChatActive. rewrite bool_decide_eq_true.
    apply ListActiveDCCChats_In.
  - apply NoDup_ListNoDup, NoDup_fst_map_to_list.
Qed.

(** X26: closing a chat ends it for every later call: the nick is no longer
    active and no longer listed, sending to it, reading from it and closing
    it again return the error of an unknown chat, and the chats with other
    nicks are kept. *)
Theorem CloseDCCChat_ends_chat (nick : string) (chats : gmap string DCCChat)
        (chat : DCCChat) :
  chats !! nick = Some chat ->
  closed (Outgoing chat) = false ->
  exists chats',
    CloseDCCChat nick chats = (Ok tt, chats') /\
    IsDCCChatActive nick chats' = false /\
    ~ In nick (ListActiveDCCChats chats') /\
    (forall message,
       SendDCCMessage nick message chats'
       = (Err ("no active DCC chat with " +:+ nick), chats')) /\
    GetDCCMessage nick chats' = (Err ("no active DCC chat with " +:+ nick), chats') /\
    CloseDCCChat nick chats' = (Err ("no active DCC chat with " +:+ nick), chats') /\
    forall other, other <> nick -> chats' !! other = chats !! other.
Proof.
  intros Hc Ho. exists (delete nick chats).
  assert (Hd : delete nick chats !! nick = None) by apply lookup_delete_eq.
  split; [unfold CloseDCCChat; rewrite Hc, Ho; reflexivity|].
  assert (Ha : IsDCCChatActive nick (delete nick chats) = false).
  { unfold IsDCCChatActive. apply bool_decide_eq_false. rewrite Hd. intros [x Hx]. discriminate. }
  split; [exact Ha|]. split.
  { intros Hin. apply ListActiveDCCChats_In in Hin. rewrite Hd in Hin.
    destruct Hin as [x Hx]. discriminate. }
  unfold SendDCCMessage, GetDCCMessage, CloseDCCChat. rewrite Hd.
  repeat split. intros other Hne. apply lookup_delete_ne. congruence.
Qed.

Lemma CloseDCCChat_ends_chat_witness :
  exists chats',
    CloseDCCChat "alice" chat_backlog = (Ok tt, chats') /\
    IsDCCChatActive "alice" chats' = false /\
    ~ In "alice" (ListActiveDCCChats chats') /\
    (forall message,
       SendDCCMessage "alice" message chats'
       = (Err ("no active DCC chat with " +:+ "alice"), chats')) /\
    GetDCCMessage "alice" chats' = (Err ("no active DCC chat with " +:+ "alice"), chats') /\
    CloseDCCChat "alice" chats' = (Err ("no active DCC chat with " +:+ "alice"), chats') /\
    forall other, other <> "alice" -> chats' !! other = chat_backlog !! other.
Proof.
  apply (CloseDCCChat_ends_chat "alice" chat_backlog
           (mkDCCChat "alice" false (mkChan ["hi"; "there"] false) (mkChan [] false)));
    reflexivity.
Defined.

(** X27: the writer of a chat whose outgoing channel has been closed, as
    [CloseDCCChat] closes it, ends in a run-time panic: whether it writes
    the messages still waiting or leaves at a failed write, it closes the
    channel a second time.  On an open channel it writes the waiting
    messages in order, each one followed by CR LF, and waits. *)
Theorem writeDCCChat_after_close (writes : list bool) (out : Chan) :
  (length (buf out) <= length writes)%nat ->
  (closed out = true ->
   snd (writeDCCChat writes out) = Some (Panic "close of closed channel")) /\
  (closed out = false -> forallb id writes = true ->
   writeDCCChat writes out = (map (fun msg => msg +:+ CR +:+ LF) (buf out), None)).
Proof.
  destruct out as [b cl]. cbn [buf closed].
  revert writes. induction b as [|msg rest IH]; intros writes Hl.
  - split.
    + intros ->. destruct writes; reflexivity.
    + intros -> _. destruct writes; reflexivity.
  - destruct writes as [|ok writes]; [cbn in Hl; lia|].
    cbn [length] in Hl. destruct (IH writes ltac:(lia)) as [I1 I2].
    cbn [writeDCCChat buf closed]. split.
    + intros ->. destruct ok; [|reflexivity].
      specialize (I1 eq_refl).
      destruct (writeDCCChat writes (mkChan rest true)) as [w r]. exact I1.
    + intros -> Hw. cbn [forallb id] in Hw. apply andb_true_iff in Hw as [-> Hw].
      rewrite (I2 eq_refl Hw). reflexivity.
Qed.

Lemma writeDCCChat_after_close_witness :
  snd (writeDCCChat [true; false] (mkChan ["hi"; "there"] true))
  = Some (Panic "close of closed channel").
Proof.
  apply (writeDCCChat_after_close [true; false] (mkChan ["hi"; "there"] true));
    [cbn; lia | reflexivity].
Defined.

(** ** Errors and the control loop *)

Lemma Contains_prefix (p s : string) : gostrings.Contains (p +:+ s) p = true.
Proof. apply Contains_occurs. exists ""%string, s. rewrite append_nil_l. reflexivity. Qed.

Section LoopFacts.

Variable ToLower : string -> string.
Variable ToUpper : string -> string.

(** X28: a permanent error ends the session for good.  With error handling
    and smart error handling switched on, an ERROR line whose text the
    classifier takes for permanent makes the reader post its error without
    running any callback, and on this error [Loop] returns at once: it calls
    [Reconnect] not even once and touches no field, whatever follows. *)
Theorem permanent_error_halts (c : Connection) (event : Event)
        (errs : list string) (results : list (option string)) :
  HandleErrorAsDisconnect c = true ->
  SmartErrorHandling c = true ->
  quit c = false ->
  ToUpper (Code event) = "ERROR" ->
  AnalyzeErrorMessage ToLower (Message event) = PermanentError ->
  exists err,
    readLoop_event ToLower ToUpper c event = PostError false err /\
    Loop (err :: errs) results c = mkLoopRun HaltPermanent [] c /\
    reconnectCalls (Loop (err :: errs) results c) = 0%nat.
Proof.
  intros Hh Hs Hq Hc Ha. eexists. split.
  - unfold readLoop_event. rewrite Hh, Hs, Hc, Ha. reflexivity.
  - assert (E : Loop (("Received permanent ERROR from server:" +:+ " " +:+ Message event) :: errs)
                     results c = mkLoopRun HaltPermanent [] c).
    { cbn [Loop]. rewrite Hq, Hh.
      rewrite (Contains_prefix "Received permanent ERROR from server:"). reflexivity. }
    split; [exact E|].
    change ("Received permanent ERROR from server: " +:+ Message event)
      with ("Received permanent ERROR from server:" +:+ " " +:+ Message event).
    rewrite E. reflexivity.
Qed.

End LoopFacts.

Lemma permanent_error_halts_witness :
  exists err,
    readLoop_event gostrings.ToLowerASCII gostrings.ToUpperASCII bob_session k_lined
    = PostError false err /\
    Loop (err :: [recoverable_failure]) [None] bob_session
    = mkLoopRun HaltPermanent [] bob_session /\
    reconnectCalls (Loop (err :: [recoverable_failure]) [None] bob_session) = 0%nat.
Proof.
  apply (permanent_error_halts gostrings.ToLowerASCII gostrings.ToUpperASCII
           bob_session k_lined [recoverable_failure] [None]);
    reflexivity.
Defined.

(** X29: after [Quit] the control loop does nothing more: the queue has
    received the QUIT line, with the quit message if there is one, and
    [Loop] returns without reading an error and without a reconnect,
    whatever errors are waiting. *)
Theorem Quit_stops_Loop (QuitMessage : string) (c : Connection)
        (errs : list string) (results : list (option string)) :
  let c' := Quit QuitMessage c in
  pwrite c' = pwrite c ++ [(if String.eqb QuitMessage "" then "QUIT"
                            else "QUIT :" +:+ QuitMessage) +:+ CR +:+ LF] /\
  Loop errs results c' = mkLoopRun Quitting [] c' /\
  (forall errStr, reconnectLoop errStr results c' = (InnerQuit, [], c')) /\
  nick c' = nick c /\ nickcurrent c' = nickcurrent c.
Proof.
  cbv zeta. unfold Quit. split.
  - cbn. destruct (String.eqb QuitMessage ""); reflexivity.
  - split; [destruct errs; reflexivity|].
    split; [intros errStr; destruct results; reflexivity|]. split; reflexivity.
Qed.

(** ** The capabilities that are requested *)

Lemma capRequests_sasl (listed : list string) (line : string) :
  In line (capRequests listed ["sasl"]) -> line = "CAP REQ :sasl" +:+ CR +:+ LF.
Proof.
  unfold capRequests. induction listed as [|cap listed IH]; cbn [flat_map]; [intros []|].
  rewrite app_nil_r, in_app_iff. intros [H|H]; [|exact (IH H)].
  destruct (String.eqb cap "sasl") eqn:E; [|destruct H].
  apply String.eqb_eq in E. subst cap. destruct H as [<-|[]]. reflexivity.
Qed.

Lemma enqueueRegistration_lines (c : Connection) (line : string) :
  In line (pwrite (enqueueRegistration c)) ->
  In line (pwrite c) \/ gostrings.HasPrefix line "CAP REQ" = false.
Proof.
  unfold enqueueRegistration. cbn [set_pwrite pwrite]. rewrite in_app_iff.
  intros [H|[<-|[<-|[]]]]; [left; exact H | right; reflexivity | right; reflexivity].
Qed.

Lemma enqueueRegistration_caps (c : Connection) :
  RequestCaps (enqueueRegistration c) = RequestCaps c.
Proof. reflexivity. Qed.

Lemma handshakeStep_sasl (c : Connection) (ev : HandshakeEvent) :
  RequestCaps c = ["sasl"] ->
  (forall line, In line (pwrite c) -> gostrings.HasPrefix line "CAP REQ" = true ->
                line = "CAP REQ :sasl" +:+ CR +:+ LF) ->
  RequestCaps (handshakeStep c ev) = ["sasl"] /\
  (forall line, In line (pwrite (handshakeStep c ev)) ->
                gostrings.HasPrefix line "CAP REQ" = true ->
                line = "CAP REQ :sasl" +:+ CR +:+ LF).
Proof.
  intros Hr Hp. destruct ev as [e|]; cbn [handshakeStep].
  - unfold onCAP. destruct (Z.of_nat (length (Arguments e)) <? 2); [split; assumption|].
    destruct (String.eqb (nth 1 (Arguments e) "") "LS"); [|split; assumption].
    set (c1 := if 3 <=? Z.of_nat (length (Arguments e)) then _ else c).
    assert (H1 : RequestCaps c1 = ["sasl"] /\
                 forall line, In line (pwrite c1) ->
                              gostrings.HasPrefix line "CAP REQ" = true ->
                              line = "CAP REQ :sasl" +:+ CR +:+ LF).
    { subst c1. destruct (3 <=? Z.of_nat (length (Arguments e))); [|split; assumption].
      split; [exact Hr|]. cbn [set_pwrite pwrite]. intros line Hin Hpre.
      apply in_app_iff in Hin as [Hin|Hin]; [exact (Hp line Hin Hpre)|].
      rewrite Hr in Hin. exact (capRequests_sasl _ _ Hin). }
    destruct H1 as [H1 H2].
    destruct (sentRegistration c1); cbn [negb]; [split; assumption|].
    split; [exact H1|]. intros line Hin Hpre.
    apply enqueueRegistration_lines in Hin as [Hin|Hin]; [|congruence].
    exact (H2 line Hin Hpre).
  - unfold fallbackTimer. destruct (sentRegistration c); [split; assumption|].
    split; [exact Hr|]. intros line Hin Hpre.
    apply enqueueRegistration_lines in Hin as [Hin|Hin]; [|congruence].
    exact (Hp line Hin Hpre).
Qed.

Lemma negotiateCaps_begin_lines (c : Connection) :
  pwrite c = [] ->
  RequestCaps (negotiateCaps_begin c) = (if UseSASL c then ["sasl"] else []) /\
  forall line, In line (pwrite (negotiateCaps_begin c)) ->
               gostrings.HasPrefix line "CAP REQ" = false.
Proof.
  intros Hp. unfold negotiateCaps_begin. cbn [UseSASL set_RequestCaps RequestCaps].
  destruct (UseSASL c) eqn:Hu; cbn [UseSASL set_RequestCaps RequestCaps app length].
  - change (Z.of_nat 1 =? 0) with false. cbv iota. cbn [CapVersion set_RequestCaps].
    destruct (negb (String.eqb (CapVersion c) "")); (split; [reflexivity|]);
      cbn [set_pwrite pwrite set_RequestCaps]; rewrite Hp; cbn [app In];
      intros line [<-|[]]; reflexivity.
  - change (Z.of_nat 0 =? 0) with true. cbv iota. cbn [sentRegistration set_RequestCaps].
    destruct (sentRegistration c); cbn [negb].
    + split; [reflexivity|]. cbn [pwrite set_RequestCaps]. rewrite Hp. intros line [].
    + split; [reflexivity|]. intros line Hin.
      apply enqueueRegistration_lines in Hin as [Hin|Hin]; [|exact Hin].
      cbn in Hin. rewrite Hp in Hin. destruct Hin.
Qed.

(** X30: a connection attempt requests no capability but sasl.  The list of
    capabilities that the application has set is thrown away when the
    negotiation begins: after the attempt it holds sasl if SASL is in use and
    nothing otherwise, and every [CAP REQ] line that the attempt has put on
    the queue is the request for sasl, whatever the server lists. *)
Theorem only_sasl_requested (evs : list HandshakeEvent) (c : Connection) :
  RequestCaps (Connect_attempt evs c) = (if UseSASL c then ["sasl"] else []) /\
  forall line,
    In line (pwrite (Connect_attempt evs c)) ->
    gostrings.HasPrefix line "CAP REQ" = true ->
    line = "CAP REQ :sasl" +:+ CR +:+ LF /\ UseSASL c = true.
Proof.
  unfold Connect_attempt.
  set (c0 := set_pwrite [] (resetRegistration c)).
  assert (Hu : UseSASL c0 = UseSASL c) by reflexivity.
  destruct (negotiateCaps_begin_lines c0 eq_refl) as [Hr Hl]. rewrite Hu in Hr.
  set (c1 := negotiateCaps_begin c0) in *. clearbody c1. rewrite Hr.
  destruct (UseSASL c) eqn:Es.
  - change (Z.of_nat (length ["sasl"]) =? 0) with false. cbv iota.
    assert (H1 : forall l, In l (pwrite c1) -> gostrings.HasPrefix l "CAP REQ" = true ->
                           l = "CAP REQ :sasl" +:+ CR +:+ LF).
    { intros l Hin Hpre. rewrite (Hl l Hin) in Hpre. discriminate. }
    clear Hl. revert c1 Hr H1. induction evs as [|ev evs IH]; intros c1 Hr H1.
    + cbn [fold_left]. split; [exact Hr|]. intros line Hin Hpre.
      split; [exact (H1 line Hin Hpre) | reflexivity].
    + cbn [fold_left]. destruct (handshakeStep_sasl c1 ev Hr H1) as [S1 S2].
      exact (IH (handshakeStep c1 ev) S1 S2).
  - change (Z.of_nat (length (@nil string)) =? 0) with true. cbv iota.
    split; [exact Hr|]. intros line Hin Hpre. rewrite (Hl line Hin) in Hpre. discriminate.
Qed.

Example sasl_attempt_requests :
  pwrite (Connect_attempt [CapLine cap_listing] sasl_session)
  = ["CAP LS 302" +:+ CR +:+ LF; "CAP REQ :sasl" +:+ CR +:+ LF;
     "NICK bob" +:+ CR +:+ LF; "USER bob 0 * :bob" +:+ CR +:+ LF].
Proof. reflexivity. Qed.
